(** * DoItNow Auth API: validation middleware, token helpers and auth routes

    A shallow embedding of [utils/auth.js], [middleware/validation.js],
    [routes/auth.js] and the error handler of [server.js], and the properties
    of the authentication contract proved over it.

    Conventions.
    - A field of a request body is a [jsval]: any value that [express.json()]
      can hand to the validators, or [JUndefined] when the key is absent.
      Numbers are integers: in every test the code makes of a number (is it
      zero, does it print as an email address, does it have a [length], how
      does it compare with a bound), a fraction answers as one of the
      integers next to it.  The properties of
      an object are its own properties as parsed, one per key.
    - A JavaScript string is a [string]; [.length] is [js_length].
    - What JavaScript does when it coerces an array or an object to a string,
      or compares with a number a value that is neither a number nor
      [undefined], is left open: the model takes these coercions as inputs
      and every result holds whatever they answer, a [TypeError] included.
    - A nullable column ([String?]) is an [option string], [None] being
      [null]; the [id] column is an [Int] of 32 bits.
    - Time is the reading of the wall clock in milliseconds ([Date.now()]);
      token timestamps are in whole seconds, as in a JWT.
    - bcrypt on strings, the signing key found in the environment and the
      salt drawn by bcrypt are inputs of the model. *)

From Stdlib Require Import ZArith List String Ascii Bool Lia DecimalString.
Import ListNotations.

Local Open Scope string_scope.
Local Open Scope list_scope.
Local Open Scope Z_scope.

(** ** JavaScript values and strings *)

Module Js.

Unset Elimination Schemes.

Inductive jsval : Type :=
| JUndefined
| JNull
| JBool (b : bool)
| JNum (n : Z)
| JStr (s : string)
| JArr (items : list jsval)
| JObj (props : list (string * jsval)).

Set Elimination Schemes.

(** [v] in a boolean position. *)
Definition truthy (v : jsval) : bool :=
  match v with
  | JUndefined => false
  | JNull => false
  | JBool b => b
  | JNum n => negb (n =? 0)
  | JStr s => negb (String.eqb s "")
  | JArr _ => true
  | JObj _ => true
  end.

(** [typeof v === 'string'] *)
Definition typeof_string (v : jsval) : bool :=
  match v with
  | JStr _ => true
  | _ => false
  end.

(** An array or an object: what is not a primitive value. *)
Definition isObject (v : jsval) : bool :=
  match v with
  | JArr _ => true
  | JObj _ => true
  | _ => false
  end.

(** [v !== undefined] *)
Definition defined (v : jsval) : bool :=
  match v with
  | JUndefined => false
  | _ => true
  end.

(** The characters of a string value; the empty string for any other. *)
Definition str (v : jsval) : string :=
  match v with
  | JStr s => s
  | _ => ""
  end.

(** [a === b]: by value on primitives; two arrays or two objects that come
    out of a parsed body are never the same object. *)
Definition strict_eq (a b : jsval) : bool :=
  match a, b with
  | JUndefined, JUndefined => true
  | JNull, JNull => true
  | JBool x, JBool y => Bool.eqb x y
  | JNum x, JNum y => x =? y
  | JStr x, JStr y => String.eqb x y
  | _, _ => false
  end.

(** The own property [key] of an object, [undefined] when it has none. *)
Fixpoint getProp (key : string) (props : list (string * jsval)) : jsval :=
  match props with
  | [] => JUndefined
  | (k, v) :: rest => if String.eqb k key then v else getProp key rest
  end.

(** [String(n)] for an integer that a number holds exactly (up to 2^53 in
    absolute value): its decimal form. *)
Definition numberToString (n : Z) : string :=
  NilZero.string_of_int (Z.to_int n).

Definition js_length (s : string) : Z := Z.of_nat (String.length s).

(** White space and line terminators, as [\s] and [trim] see them, among
    the 8-bit characters. *)
Definition isWhiteSpace (c : ascii) : bool :=
  let n := nat_of_ascii c in
  ((9 <=? n) && (n <=? 13) || (n =? 32) || (n =? 160))%nat.

Fixpoint trimStart (s : string) : string :=
  match s with
  | EmptyString => EmptyString
  | String c rest => if isWhiteSpace c then trimStart rest else s
  end.

Fixpoint rev_onto (s acc : string) : string :=
  match s with
  | EmptyString => acc
  | String c rest => rev_onto rest (String c acc)
  end.

Definition reverse (s : string) : string := rev_onto s EmptyString.

Definition trimEnd (s : string) : string := reverse (trimStart (reverse s)).

Definition trim (s : string) : string := trimEnd (trimStart s).

Definition lowerChar (c : ascii) : ascii :=
  let n := nat_of_ascii c in
  if ((65 <=? n) && (n <=? 90))%nat then ascii_of_nat (n + 32)
  else if ((192 <=? n) && (n <=? 222) && negb (n =? 215))%nat
       then ascii_of_nat (n + 32)
  else c.

Fixpoint toLowerCase (s : string) : string :=
  match s with
  | EmptyString => EmptyString
  | String c rest => String (lowerChar c) (toLowerCase rest)
  end.

Fixpoint drop (n : nat) (s : string) : string :=
  match n, s with
  | O, _ => s
  | S _, EmptyString => EmptyString
  | S m, String _ rest => drop m rest
  end.

(** [s.replace(pat, rep)] with a string pattern: the first occurrence. *)
Fixpoint replace (pat rep s : string) : string :=
  if String.prefix pat s then (rep ++ drop (String.length pat) s)%string
  else match s with
       | EmptyString => EmptyString
       | String c rest => String c (replace pat rep rest)
       end.

(** The first character, when there is one, is not white space. *)
Definition headOk (s : string) : bool :=
  match s with
  | EmptyString => true
  | String c _ => negb (isWhiteSpace c)
  end.

Definition notWhiteSpace (c : ascii) : bool := negb (isWhiteSpace c).

(** [p] holds of every character of [s]. *)
Fixpoint every (p : ascii -> bool) (s : string) : bool :=
  match s with
  | EmptyString => true
  | String c rest => p c && every p rest
  end.

End Js.

Import Js.

(** ** Regular expressions, matched by derivatives *)

Module Regex.

Inductive regex : Type :=
| Void
| Eps
| Class (p : ascii -> bool)
| Cat (r1 r2 : regex)
| Alt (r1 r2 : regex)
| Star (r : regex).

(** [r+] *)
Definition Plus (r : regex) : regex := Cat r (Star r).

(** A literal character. *)
Definition Lit (c : ascii) : regex := Class (Ascii.eqb c).

Fixpoint nullable (r : regex) : bool :=
  match r with
  | Void => false
  | Eps => true
  | Class _ => false
  | Cat r1 r2 => nullable r1 && nullable r2
  | Alt r1 r2 => nullable r1 || nullable r2
  | Star _ => true
  end.

Definition cat (r1 r2 : regex) : regex :=
  match r1, r2 with
  | Void, _ => Void
  | _, Void => Void
  | Eps, _ => r2
  | _, _ => Cat r1 r2
  end.

Definition alt (r1 r2 : regex) : regex :=
  match r1, r2 with
  | Void, _ => r2
  | _, Void => r1
  | _, _ => Alt r1 r2
  end.

Fixpoint deriv (c : ascii) (r : regex) : regex :=
  match r with
  | Void => Void
  | Eps => Void
  | Class p => if p c then Eps else Void
  | Cat r1 r2 =>
      if nullable r1 then alt (cat (deriv c r1) r2) (deriv c r2)
      else cat (deriv c r1) r2
  | Alt r1 r2 => alt (deriv c r1) (deriv c r2)
  | Star r1 => cat (deriv c r1) (Star r1)
  end.

(** [/^r$/.test(s)] *)
Fixpoint test (r : regex) (s : string) : bool :=
  match s with
  | EmptyString => nullable r
  | String c rest => test (deriv c r) rest
  end.

(** The strings of a regular expression. *)
Inductive Matches : regex -> string -> Prop :=
| MEps : Matches Eps EmptyString
| MClass (p : ascii -> bool) (c : ascii) :
    p c = true -> Matches (Class p) (String c EmptyString)
| MCat (r1 r2 : regex) (s1 s2 : string) :
    Matches r1 s1 -> Matches r2 s2 -> Matches (Cat r1 r2) (s1 ++ s2)%string
| MAltL (r1 r2 : regex) (s : string) :
    Matches r1 s -> Matches (Alt r1 r2) s
| MAltR (r1 r2 : regex) (s : string) :
    Matches r2 s -> Matches (Alt r1 r2) s
| MStarNil (r : regex) : Matches (Star r) EmptyString
| MStarCons (r : regex) (s1 s2 : string) :
    Matches r s1 -> Matches (Star r) s2 -> Matches (Star r) (s1 ++ s2)%string.

End Regex.

(** ** Calls that may throw *)

(** A thrown exception or a rejected promise, against a returned value. *)
Inductive result (E A : Type) : Type :=
| Ok (value : A)
| Err (error : E).

Arguments Ok {E A} value.
Arguments Err {E A} error.

(** A JavaScript error object, as far as the error handler of [server.js]
    looks at it: its [code] and its [name]. *)
Record Error : Type := mkError {
  error_code : jsval;
  error_name : jsval
}.

Definition TypeError : Error :=
  {| error_code := JUndefined; error_name := JStr "TypeError" |}.

Definition bind {A B : Type} (m : result Error A) (k : A -> result Error B)
  : result Error B :=
  match m with
  | Ok a => k a
  | Err e => Err e
  end.

Notation "x <- m ;; k" := (bind m (fun x => k))
  (at level 61, m at next level, right associativity).

(** ** jsonwebtoken

    A token is kept symbolic: the claims it carries and the key under which
    its signature checks.  [sign] adds [iat] and [exp] to the payload;
    [verify] rejects a signature made with another key, then a token whose
    [exp] has been reached. *)

Module Jwt.

(** The payload handed to [jwt.sign]: [{ userId, email }]. *)
Record Claims : Type := mkClaims {
  userId : Z;
  email : string
}.

(** The payload read back by [jwt.verify]. *)
Record Payload : Type := mkPayload {
  claims : Claims;
  iat : Z;
  exp : Z
}.

Record Token : Type := mkToken {
  payload : Payload;
  key : string
}.

Inductive VerifyError : Type :=
| JsonWebTokenError
| TokenExpiredError.

(** The [expiresIn] option, a time span such as ['7d']. *)
Inductive timespan : Type :=
| Seconds (n : Z)
| Minutes (n : Z)
| Hours (n : Z)
| Days (n : Z).

Definition span_seconds (t : timespan) : Z :=
  match t with
  | Seconds n => n
  | Minutes n => n * 60
  | Hours n => n * 3600
  | Days n => n * 86400
  end.

(** [Math.floor(Date.now() / 1000)] *)
Definition clockTimestamp (now : Z) : Z := now / 1000.

Definition sign (now : Z) (c : Claims) (secret : string) (expiresIn : timespan)
  : Token :=
  let timestamp := clockTimestamp now in
  {| payload := {| claims := c;
                   iat := timestamp;
                   exp := timestamp + span_seconds expiresIn |};
     key := secret |}.

Definition verify (now : Z) (token : Token) (secret : string)
  : result VerifyError Payload :=
  if negb (String.eqb (key token) secret) then Err JsonWebTokenError
  else if exp (payload token) <=? clockTimestamp now then Err TokenExpiredError
  else Ok (payload token).

End Jwt.

(** ** The [users] table behind the Prisma client *)

Module Prisma.

Record User : Type := mkUser {
  id : Z;
  email : string;
  password : string;
  name : option string;
  avatar : option string;
  isActive : bool;
  createdAt : Z;
  updatedAt : Z
}.

(** The rows and the next value of the [autoincrement] sequence. *)
Record Store : Type := mkStore {
  users : list User;
  nextId : Z
}.

(** [P2002]: unique constraint; [P2025]: record to update not found;
    [ValidationError]: an argument of the wrong type; [ValueOutOfRange]: an
    integer that does not fit the [Int] column. *)
Inductive PrismaError : Type :=
| P2002
| P2025
| ValidationError
| ValueOutOfRange.

(** The [data] of a create: [email] and [name] as the handler hands them. *)
Record CreateData : Type := mkCreateData {
  c_email : jsval;
  c_password : string;
  c_name : jsval
}.

(** The [data] of an update.  A key that is absent, or whose value is
    [undefined], is not part of the update. *)
Record UpdateData : Type := mkUpdateData {
  d_name : jsval;
  d_avatar : jsval;
  d_password : option string
}.

(** A 32-bit integer. *)
Definition in_int_range (i : Z) : bool :=
  (-2147483648 <=? i) && (i <=? 2147483647).

(** The row with a given email, the row with a given id. *)
Definition findUnique_email (st : Store) (e : string) : option User :=
  find (fun u => String.eqb (email u) e) (users st).

Definition findUnique_id (st : Store) (i : Z) : option User :=
  find (fun u => id u =? i) (users st).

(** [prisma.user.findUnique({ where: { email } })] *)
Definition findUnique_where_email (st : Store) (e : jsval)
  : result PrismaError (option User) :=
  match e with
  | JStr s => Ok (findUnique_email st s)
  | _ => Err ValidationError
  end.

(** [prisma.user.findUnique({ where: { id } })] *)
Definition findUnique_where_id (st : Store) (i : Z)
  : result PrismaError (option User) :=
  if in_int_range i then Ok (findUnique_id st i) else Err ValueOutOfRange.

(** A value for a [String?] column: a string or [null]. *)
Definition nullable_string (v : jsval) : result PrismaError (option string) :=
  match v with
  | JStr s => Ok (Some s)
  | JNull => Ok None
  | _ => Err ValidationError
  end.

Definition create (now : Z) (st : Store) (data : CreateData)
  : result PrismaError (User * Store) :=
  match c_email data, nullable_string (c_name data) with
  | JStr e, Ok n =>
      match findUnique_email st e with
      | Some _ => Err P2002
      | None =>
          if in_int_range (nextId st) then
            let user := {| id := nextId st;
                           email := e;
                           password := c_password data;
                           name := n;
                           avatar := None;
                           isActive := true;
                           createdAt := now;
                           updatedAt := now |} in
            Ok (user, {| users := users st ++ [user]; nextId := nextId st + 1 |})
          else Err ValueOutOfRange
      end
  | _, _ => Err ValidationError
  end.

(** Nothing to write: every key of [data] is absent. *)
Definition no_data (data : UpdateData) : bool :=
  negb (defined (d_name data)) && negb (defined (d_avatar data))
  && match d_password data with
     | None => true
     | Some _ => false
     end.

(** The column after the update: kept when the key is absent. *)
Definition set_column (v : jsval) (old : option string) : option string :=
  match v with
  | JStr s => Some s
  | JNull => None
  | _ => old
  end.

Definition apply (now : Z) (data : UpdateData) (u : User) : User :=
  {| id := id u;
     email := email u;
     password := match d_password data with
                 | Some p => p
                 | None => password u
                 end;
     name := set_column (d_name data) (name u);
     avatar := set_column (d_avatar data) (avatar u);
     isActive := isActive u;
     createdAt := createdAt u;
     updatedAt := now |}.

Fixpoint replace_row (i : Z) (row : User) (rows : list User) : list User :=
  match rows with
  | [] => []
  | u :: rest => if id u =? i then row :: rest else u :: replace_row i row rest
  end.

(** A value for a key of [data]: absent, or a value for the column. *)
Definition column_arg (v : jsval) : bool :=
  match v with
  | JUndefined => true
  | JNull => true
  | JStr _ => true
  | _ => false
  end.

(** [prisma.user.update({ where: { id }, data })].  With nothing to write the
    row is read and returned as it is; otherwise it is rewritten and
    [@updatedAt] takes the time of the write. *)
Definition update (now : Z) (st : Store) (i : Z) (data : UpdateData)
  : result PrismaError (User * Store) :=
  if negb (in_int_range i) then Err ValueOutOfRange
  else if negb (column_arg (d_name data) && column_arg (d_avatar data))
  then Err ValidationError
  else
    match findUnique_id st i with
    | None => Err P2025
    | Some u =>
        if no_data data then Ok (u, st)
        else
          let row := apply now data u in
          Ok (row, {| users := replace_row i row (users st); nextId := nextId st |})
    end.

End Prisma.

(** ** HTTP responses *)

(** A user as it leaves the service: the row without its [password]. *)
Record SanitizedUser : Type := mkSanitizedUser {
  su_id : Z;
  su_email : string;
  su_name : option string;
  su_avatar : option string;
  su_isActive : bool;
  su_createdAt : Z;
  su_updatedAt : Z
}.

Record ResData : Type := mkResData {
  data_user : option SanitizedUser;
  data_token : option Jwt.Token
}.

Inductive ResBody : Type :=
| Failure (error : string) (message : option string) (details : option (list string))
| Success (message : option string) (data : option ResData).

Record Response : Type := mkResponse {
  status : Z;
  body : ResBody
}.

(** What an Express middleware does: call [next()] with the request as it
    left it, end the request with a response, or throw. *)
Inductive middleware (A : Type) : Type :=
| Next (req : A)
| Respond (res : Response)
| Throw (error : Error).

Arguments Next {A} req.
Arguments Respond {A} res.
Arguments Throw {A} error.

Definition json (code : Z) (b : ResBody) : Response :=
  {| status := code; body := b |}.

(** ** Request bodies *)

Record RegisterBody : Type := mkRegisterBody {
  reg_email : jsval;
  reg_password : jsval;
  reg_name : jsval
}.

Record LoginBody : Type := mkLoginBody {
  login_email : jsval;
  login_password : jsval
}.

Record ProfileBody : Type := mkProfileBody {
  prof_name : jsval;
  prof_avatar : jsval
}.

Record ChangePasswordBody : Type := mkChangePasswordBody {
  currentPassword : jsval;
  newPassword : jsval
}.

(** ** utils/auth.js, the part that needs nothing from outside *)

(** [/^[^\s@]+@[^\s@]+\.[^\s@]+$/] *)
Definition notSpaceOrAt (c : ascii) : bool :=
  negb (isWhiteSpace c || Ascii.eqb c "@").

Definition emailRegex : Regex.regex :=
  Regex.Cat (Regex.Plus (Regex.Class notSpaceOrAt))
    (Regex.Cat (Regex.Lit "@")
       (Regex.Cat (Regex.Plus (Regex.Class notSpaceOrAt))
          (Regex.Cat (Regex.Lit ".")
             (Regex.Plus (Regex.Class notSpaceOrAt))))).

Record PasswordValidation : Type := mkPasswordValidation {
  isValid : bool;
  errors : list string
}.

(** [result.isValid = false; result.errors.push(e)] *)
Definition reject (r : PasswordValidation) (e : string) : PasswordValidation :=
  {| isValid := false; errors := errors r ++ [e] |}.

(** [const { password, ...sanitizedUser } = user] *)
Definition sanitizeUser (user : Prisma.User) : SanitizedUser :=
  {| su_id := Prisma.id user;
     su_email := Prisma.email user;
     su_name := Prisma.name user;
     su_avatar := Prisma.avatar user;
     su_isActive := Prisma.isActive user;
     su_createdAt := Prisma.createdAt user;
     su_updatedAt := Prisma.updatedAt user |}.

Definition validationFailed (errs : list string) : Response :=
  json 400 (Failure "Validation failed" None (Some errs)).

(** [errors.push(e)] when [cond] holds. *)
Definition pushIf (cond : bool) (e : string) (errs : list string) : list string :=
  if cond then errs ++ [e] else errs.

(** [v.toLowerCase()] and [v.trim()]: a [TypeError] unless [v] is a
    string. *)
Definition call_toLowerCase (v : jsval) : result Error string :=
  match v with
  | JStr s => Ok (toLowerCase s)
  | _ => Err TypeError
  end.

Definition call_trim (v : jsval) : result Error string :=
  match v with
  | JStr s => Ok (trim s)
  | _ => Err TypeError
  end.

(** [v.length]: a [TypeError] on [undefined] and [null]. *)
Definition getLength (v : jsval) : result Error jsval :=
  match v with
  | JUndefined => Err TypeError
  | JNull => Err TypeError
  | JStr s => Ok (JNum (js_length s))
  | JArr items => Ok (JNum (Z.of_nat (List.length items)))
  | JObj props => Ok (getProp "length" props)
  | JBool _ => Ok JUndefined
  | JNum _ => Ok JUndefined
  end.

(** ** Stand-ins for bcrypt and for the coercions, to run the routes on
    concrete requests *)

Module Demo.

Definition hash (password : string) (rounds : Z) (salt : string) : string :=
  ("$2a$" ++ salt ++ "$" ++ password)%string.

Fixpoint endsWith (suffix s : string) : bool :=
  String.eqb suffix s
  || match s with
     | EmptyString => false
     | String _ rest => endsWith suffix rest
     end.

Definition compare (password hashed : string) : bool :=
  endsWith ("$" ++ password)%string hashed.

(** An array of one string prints as that string, a number in digits; any
    other array or object is taken to print as [[object Object]]. *)
Definition toStringOf (v : jsval) : option string :=
  match v with
  | JArr [JStr s] => Some s
  | JNum n => Some (numberToString n)
  | _ => Some "[object Object]"
  end.

(** A value that is not a number compares as [NaN]. *)
Definition lessThan (v : jsval) (k : Z) : option bool := Some false.

Definition greaterThan (v : jsval) (k : Z) : option bool := Some false.

(** A table with an active and a deactivated account. *)
Definition alice : Prisma.User :=
  {| Prisma.id := 1;
     Prisma.email := "alice@example.com";
     Prisma.password := hash "password123" 12 "salt";
     Prisma.name := Some "Alice";
     Prisma.avatar := Some "https://example.com/alice.png";
     Prisma.isActive := true;
     Prisma.createdAt := 1000;
     Prisma.updatedAt := 1000 |}.

Definition bob : Prisma.User :=
  {| Prisma.id := 2;
     Prisma.email := "bob@example.com";
     Prisma.password := hash "hunter2hunter2" 12 "pepper";
     Prisma.name := None;
     Prisma.avatar := None;
     Prisma.isActive := false;
     Prisma.createdAt := 2000;
     Prisma.updatedAt := 2000 |}.

Definition emptyStore : Prisma.Store :=
  {| Prisma.users := []; Prisma.nextId := 1 |}.

Definition store : Prisma.Store :=
  {| Prisma.users := [alice; bob]; Prisma.nextId := 3 |}.

(** [req.user] of a request authenticated as alice. *)
Definition aliceSession : Jwt.Payload :=
  {| Jwt.claims := {| Jwt.userId := 1; Jwt.email := "alice@example.com" |};
     Jwt.iat := 1;
     Jwt.exp := 604801 |}.

End Demo.

(** ** utils/auth.js, middleware/validation.js, routes/auth.js and the error
    handler of server.js *)

Section AuthApi.

(** [String(v)] for an array, an object or a number past 2^53, [v < k] and
    [v > k] for a value that is neither a number nor [undefined]; [None] when
    the coercion throws a [TypeError]. *)
Variable coerce_toString : jsval -> option string.
Variable coerce_lt : jsval -> Z -> option bool.
Variable coerce_gt : jsval -> Z -> option bool.

(** [process.env.JWT_SECRET]: a string, or [None] when it is not set. *)
Variable env_JWT_SECRET : option string.

(** [bcrypt.hash(s, rounds)] on a string, as a function of the salt it draws,
    and [bcrypt.compare(s, hash)] on two strings. *)
Variable bcrypt_hash : string -> Z -> string -> string.
Variable bcrypt_compare : string -> string -> bool.

(** *** utils/auth.js *)

Definition env_value (v : option string) : jsval :=
  match v with
  | Some s => JStr s
  | None => JUndefined
  end.

Definition JWT_SECRET : string :=
  if truthy (env_value env_JWT_SECRET) then str (env_value env_JWT_SECRET)
  else "your-super-secret-jwt-key-change-in-production".

(** bcryptjs rejects with [Error('Illegal arguments: ...')] when handed
    anything but strings. *)
Definition IllegalArguments : Error :=
  {| error_code := JUndefined; error_name := JStr "Error" |}.

Definition hashPassword (salt : string) (password : jsval) : result Error string :=
  let saltRounds := 12 in
  match password with
  | JStr s => Ok (bcrypt_hash s saltRounds salt)
  | _ => Err IllegalArguments
  end.

Definition comparePassword (plainPassword : jsval) (hashedPassword : string)
  : result Error bool :=
  match plainPassword with
  | JStr s => Ok (bcrypt_compare s hashedPassword)
  | _ => Err IllegalArguments
  end.

(** [expiresIn = '7d'] when the argument is left out. *)
Definition generateToken (now : Z) (payload : Jwt.Claims)
           (expiresIn : option Jwt.timespan) : Jwt.Token :=
  let expiresIn := match expiresIn with
                   | Some e => e
                   | None => Jwt.Days 7
                   end in
  Jwt.sign now payload JWT_SECRET expiresIn.

Definition verifyToken (now : Z) (token : Jwt.Token)
  : result Jwt.VerifyError Jwt.Payload :=
  Jwt.verify now token JWT_SECRET.

(** [String(v)], as [RegExp.prototype.test] applies it to its argument. *)
Definition toString (v : jsval) : result Error string :=
  match v with
  | JUndefined => Ok "undefined"
  | JNull => Ok "null"
  | JBool true => Ok "true"
  | JBool false => Ok "false"
  | JNum n =>
      if Z.abs n <=? 9007199254740992 then Ok (numberToString n)
      else match coerce_toString v with
           | Some s => Ok s
           | None => Err TypeError
           end
  | JStr s => Ok s
  | JArr _ | JObj _ =>
      match coerce_toString v with
      | Some s => Ok s
      | None => Err TypeError
      end
  end.

Definition isValidEmail (email : jsval) : result Error bool :=
  s <- toString email ;;
  Ok (Regex.test emailRegex s).

(** [x < k] and [x > k] for a number [k]. *)
Definition lessThan (x : jsval) (k : Z) : result Error bool :=
  match x with
  | JNum n => Ok (n <? k)
  | JUndefined => Ok false
  | _ => match coerce_lt x k with
         | Some b => Ok b
         | None => Err TypeError
         end
  end.

Definition greaterThan (x : jsval) (k : Z) : result Error bool :=
  match x with
  | JNum n => Ok (n >? k)
  | JUndefined => Ok false
  | _ => match coerce_gt x k with
         | Some b => Ok b
         | None => Err TypeError
         end
  end.

Definition validatePassword (password : jsval) : result Error PasswordValidation :=
  let result := {| isValid := true; errors := [] |} in
  if negb (truthy password) then Ok (reject result "Password is required")
  else
    length <- getLength password ;;
    short <- lessThan length 6 ;;
    let result :=
      if short
      then reject result "Password must be at least 6 characters long"
      else result in
    length <- getLength password ;;
    long <- greaterThan length 100 ;;
    let result :=
      if long
      then reject result "Password must be less than 100 characters"
      else result in
    Ok result.

(** *** middleware/validation.js *)

(** The email checks shared by registration and login. *)
Definition emailErrors (email : jsval) (errs : list string)
  : result Error (list string) :=
  if negb (truthy email) then Ok (errs ++ ["Email is required"])
  else
    valid <- isValidEmail email ;;
    Ok (if negb valid
        then errs ++ ["Please provide a valid email address"]
        else errs).

Definition registrationErrors (b : RegisterBody) : result Error (list string) :=
  let email := reg_email b in
  let password := reg_password b in
  let name := reg_name b in
  let errs := [] in
  errs <- emailErrors email errs ;;
  passwordValidation <- validatePassword password ;;
  let errs :=
    if negb (isValid passwordValidation)
    then errs ++ errors passwordValidation
    else errs in
  let errs :=
    pushIf (truthy name
            && (negb (typeof_string name) || (js_length (trim (str name)) =? 0)))
           "Name must be a non-empty string" errs in
  long <- (if truthy name
           then length <- getLength name ;; greaterThan length 50
           else Ok false) ;;
  let errs := pushIf long "Name must be less than 50 characters" errs in
  Ok errs.

Definition validateRegistration (b : RegisterBody) : middleware RegisterBody :=
  match registrationErrors b with
  | Err error => Throw error
  | Ok errs =>
      if Z.of_nat (List.length errs) >? 0 then Respond (validationFailed errs)
      else
        match (lowered <- call_toLowerCase (reg_email b) ;;
               name <- (if truthy (reg_name b)
                        then trimmed <- call_trim (reg_name b) ;;
                             Ok (JStr trimmed)
                        else Ok (reg_name b)) ;;
               Ok {| reg_email := JStr (trim lowered);
                     reg_password := reg_password b;
                     reg_name := name |}) with
        | Ok req => Next req
        | Err error => Throw error
        end
  end.

Definition loginErrors (b : LoginBody) : result Error (list string) :=
  let email := login_email b in
  let password := login_password b in
  let errs := [] in
  errs <- emailErrors email errs ;;
  let errs := pushIf (negb (truthy password)) "Password is required" errs in
  Ok errs.

Definition validateLogin (b : LoginBody) : middleware LoginBody :=
  match loginErrors b with
  | Err error => Throw error
  | Ok errs =>
      if Z.of_nat (List.length errs) >? 0 then Respond (validationFailed errs)
      else
        match call_toLowerCase (login_email b) with
        | Ok lowered =>
            Next {| login_email := JStr (trim lowered);
                    login_password := login_password b |}
        | Err error => Throw error
        end
  end.

Definition profileUpdateErrors (b : ProfileBody) : list string :=
  let name := prof_name b in
  let avatar := prof_avatar b in
  let errs := [] in
  let errs :=
    if defined name then
      if negb (typeof_string name) then errs ++ ["Name must be a string"]
      else if js_length (trim (str name)) =? 0
           then errs ++ ["Name cannot be empty"]
      else if js_length (str name) >? 50
           then errs ++ ["Name must be less than 50 characters"]
      else errs
    else errs in
  let errs :=
    if defined avatar then
      if negb (typeof_string avatar)
      then errs ++ ["Avatar must be a string (URL or base64)"]
      else if js_length (str avatar) >? 19000000
           then errs ++ ["Avatar data is too large (max 19MB)"]
      else errs
    else errs in
  errs.

Definition validateProfileUpdate (b : ProfileBody) : middleware ProfileBody :=
  let errs := profileUpdateErrors b in
  if Z.of_nat (List.length errs) >? 0 then Respond (validationFailed errs)
  else
    match (name <- (if defined (prof_name b)
                    then trimmed <- call_trim (prof_name b) ;; Ok (JStr trimmed)
                    else Ok (prof_name b)) ;;
           avatar <- (if defined (prof_avatar b)
                      then trimmed <- call_trim (prof_avatar b) ;;
                           Ok (JStr trimmed)
                      else Ok (prof_avatar b)) ;;
           Ok {| prof_name := name; prof_avatar := avatar |}) with
    | Ok req => Next req
    | Err error => Throw error
    end.

Definition changePasswordErrors (b : ChangePasswordBody)
  : result Error (list string) :=
  let errs := [] in
  let errs :=
    pushIf (negb (truthy (currentPassword b))) "Current password is required"
           errs in
  passwordValidation <- validatePassword (newPassword b) ;;
  let errs :=
    if negb (isValid passwordValidation)
    then errs ++ map (fun error => replace "Password" "New password" error)
                     (errors passwordValidation)
    else errs in
  let errs :=
    pushIf (strict_eq (currentPassword b) (newPassword b))
           "New password must be different from current password" errs in
  Ok errs.

Definition validateChangePassword (b : ChangePasswordBody)
  : middleware ChangePasswordBody :=
  match changePasswordErrors b with
  | Err error => Throw error
  | Ok errs =>
      if Z.of_nat (List.length errs) >? 0 then Respond (validationFailed errs)
      else Next b
  end.

(** Modelled from the spec: [authenticateToken] of middleware/auth.js is
    not among the sources.  The spec has it verify the bearer token with the
    token codec and nothing else (the service keeps no session state): a
    missing or invalid token ends the request with 401, an expired one with
    403, and a token that verifies becomes [req.user]. *)
Definition authenticateToken (now : Z) (bearer : option Jwt.Token)
  : middleware Jwt.Payload :=
  match bearer with
  | None =>
      Respond (json 401 (Failure "Invalid token"
                           (Some "The provided token is invalid") None))
  | Some token =>
      match verifyToken now token with
      | Ok decoded => Next decoded
      | Err Jwt.TokenExpiredError =>
          Respond (json 403 (Failure "Token expired"
                               (Some "Your session has expired. Please login again.")
                               None))
      | Err Jwt.JsonWebTokenError =>
          Respond (json 401 (Failure "Invalid token"
                               (Some "The provided token is invalid") None))
      end
  end.

(** *** server.js: the global error handler, reached when a middleware
    throws *)

Definition errorHandler (error : Error) : Response :=
  if strict_eq (error_code error) (JStr "P2002") then
    json 409 (Failure "Unique constraint violation"
                (Some "A record with this information already exists") None)
  else if strict_eq (error_code error) (JStr "P2025") then
    json 404 (Failure "Record not found"
                (Some "The requested record could not be found") None)
  else if strict_eq (error_name error) (JStr "JsonWebTokenError") then
    json 401 (Failure "Invalid token"
                (Some "The provided token is invalid") None)
  else if strict_eq (error_name error) (JStr "TokenExpiredError") then
    json 401 (Failure "Token expired"
                (Some "Your session has expired. Please login again.") None)
  else
    json 500 (Failure "Internal server error"
                (Some "An unexpected error occurred") None).

(** *** routes/auth.js *)

(** The answer of a [catch] block. *)
Definition internalError (message : string) : Response :=
  json 500 (Failure "Internal server error" (Some message) None).

Definition invalidCredentials : Response :=
  json 401 (Failure "Invalid credentials"
              (Some "Email or password is incorrect") None).

Definition accountDeactivated : Response :=
  json 401 (Failure "Account deactivated"
              (Some "Your account has been deactivated. Please contact support.")
              None).

Definition userNotFound : Response :=
  json 404 (Failure "User not found"
              (Some "Your account could not be found") None).

(** [router.post('/register', validateRegistration, ...)] *)
Definition post_register (now : Z) (salt : string) (st : Prisma.Store)
           (reqBody : RegisterBody) : Response * Prisma.Store :=
  match validateRegistration reqBody with
  | Respond res => (res, st)
  | Throw error => (errorHandler error, st)
  | Next req =>
      let email := reg_email req in
      let password := reg_password req in
      let name := reg_name req in
      let caught :=
        (internalError "An error occurred while creating your account", st) in
      match Prisma.findUnique_where_email st email with
      | Err _ => caught
      | Ok (Some existingUser) =>
          (json 409 (Failure "User already exists"
                       (Some "A user with this email address already exists")
                       None), st)
      | Ok None =>
          match hashPassword salt password with
          | Err _ => caught
          | Ok hashedPassword =>
              match Prisma.create now st
                      {| Prisma.c_email := email;
                         Prisma.c_password := hashedPassword;
                         Prisma.c_name := if truthy name then name else JNull |}
              with
              | Err _ => caught
              | Ok (user, st') =>
                  let token :=
                    generateToken now
                      {| Jwt.userId := Prisma.id user;
                         Jwt.email := Prisma.email user |} None in
                  let sanitizedUser := sanitizeUser user in
                  (json 201 (Success (Some "User registered successfully")
                               (Some {| data_user := Some sanitizedUser;
                                        data_token := Some token |})), st')
              end
          end
      end
  end.

(** [router.post('/login', validateLogin, ...)] *)
Definition post_login (now : Z) (st : Prisma.Store) (reqBody : LoginBody)
  : Response * Prisma.Store :=
  match validateLogin reqBody with
  | Respond res => (res, st)
  | Throw error => (errorHandler error, st)
  | Next req =>
      let email := login_email req in
      let password := login_password req in
      let caught :=
        (internalError "An error occurred while logging you in", st) in
      match Prisma.findUnique_where_email st email with
      | Err _ => caught
      | Ok None => (invalidCredentials, st)
      | Ok (Some user) =>
          if negb (Prisma.isActive user) then (accountDeactivated, st)
          else
            match comparePassword password (Prisma.password user) with
            | Err _ => caught
            | Ok isPasswordValid =>
                if negb isPasswordValid then (invalidCredentials, st)
                else
                  let token :=
                    generateToken now
                      {| Jwt.userId := Prisma.id user;
                         Jwt.email := Prisma.email user |} None in
                  let sanitizedUser := sanitizeUser user in
                  (json 200 (Success (Some "Login successful")
                               (Some {| data_user := Some sanitizedUser;
                                        data_token := Some token |})), st)
            end
      end
  end.

(** [router.get('/me', authenticateToken, ...)], from [req.user] on. *)
Definition get_me (st : Prisma.Store) (reqUser : Jwt.Payload)
  : Response * Prisma.Store :=
  match Prisma.findUnique_where_id st (Jwt.userId (Jwt.claims reqUser)) with
  | Err _ =>
      (internalError "An error occurred while fetching your profile", st)
  | Ok None => (userNotFound, st)
  | Ok (Some user) =>
      let sanitizedUser := sanitizeUser user in
      (json 200 (Success None
                   (Some {| data_user := Some sanitizedUser;
                            data_token := None |})), st)
  end.

(** [router.put('/profile', authenticateToken, validateProfileUpdate, ...)],
    from [req.user] on. *)
Definition put_profile (now : Z) (st : Prisma.Store) (reqUser : Jwt.Payload)
           (reqBody : ProfileBody) : Response * Prisma.Store :=
  match validateProfileUpdate reqBody with
  | Respond res => (res, st)
  | Throw error => (errorHandler error, st)
  | Next req =>
      let name := prof_name req in
      let avatar := prof_avatar req in
      match Prisma.update now st (Jwt.userId (Jwt.claims reqUser))
              {| Prisma.d_name := if defined name then name else JUndefined;
                 Prisma.d_avatar := if defined avatar then avatar else JUndefined;
                 Prisma.d_password := None |} with
      | Err _ =>
          (internalError "An error occurred while updating your profile", st)
      | Ok (updatedUser, st') =>
          let sanitizedUser := sanitizeUser updatedUser in
          (json 200 (Success (Some "Profile updated successfully")
                       (Some {| data_user := Some sanitizedUser;
                                data_token := None |})), st')
      end
  end.

(** [router.put('/change-password', authenticateToken,
    validateChangePassword, ...)], from [req.user] on. *)
Definition put_change_password (now : Z) (salt : string) (st : Prisma.Store)
           (reqUser : Jwt.Payload) (reqBody : ChangePasswordBody)
  : Response * Prisma.Store :=
  match validateChangePassword reqBody with
  | Respond res => (res, st)
  | Throw error => (errorHandler error, st)
  | Next req =>
      let userId := Jwt.userId (Jwt.claims reqUser) in
      let caught :=
        (internalError "An error occurred while changing your password", st) in
      match Prisma.findUnique_where_id st userId with
      | Err _ => caught
      | Ok None => (userNotFound, st)
      | Ok (Some user) =>
          match comparePassword (currentPassword req) (Prisma.password user) with
          | Err _ => caught
          | Ok isCurrentPasswordValid =>
              if negb isCurrentPasswordValid then
                (json 400 (Failure "Invalid current password"
                             (Some "The current password you entered is incorrect")
                             None), st)
              else
                match hashPassword salt (newPassword req) with
                | Err _ => caught
                | Ok hashedNewPassword =>
                    match Prisma.update now st userId
                            {| Prisma.d_name := JUndefined;
                               Prisma.d_avatar := JUndefined;
                               Prisma.d_password := Some hashedNewPassword |} with
                    | Err _ => caught
                    | Ok (_, st') =>
                        (json 200 (Success (Some "Password changed successfully")
                                     None), st')
                    end
                end
          end
      end
  end.

(** [router.post('/refresh', authenticateToken, ...)], from [req.user] on. *)
Definition post_refresh (now : Z) (st : Prisma.Store) (reqUser : Jwt.Payload)
  : Response * Prisma.Store :=
  let newToken :=
    generateToken now
      {| Jwt.userId := Jwt.userId (Jwt.claims reqUser);
         Jwt.email := Jwt.email (Jwt.claims reqUser) |} None in
  (json 200 (Success (Some "Token refreshed successfully")
               (Some {| data_user := None; data_token := Some newToken |})), st).

(** [router.post('/logout', authenticateToken, ...)], from [req.user] on. *)
Definition post_logout (st : Prisma.Store) (reqUser : Jwt.Payload)
  : Response * Prisma.Store :=
  (json 200 (Success (Some "Logged out successfully") None), st).

(** A protected route: [authenticateToken] first, then the rest. *)
Definition protected (now : Z) (st : Prisma.Store) (bearer : option Jwt.Token)
           (rest : Jwt.Payload -> Response * Prisma.Store)
  : Response * Prisma.Store :=
  match authenticateToken now bearer with
  | Respond res => (res, st)
  | Throw error => (errorHandler error, st)
  | Next reqUser => rest reqUser
  end.

Definition route_refresh (now : Z) (st : Prisma.Store)
           (bearer : option Jwt.Token) : Response * Prisma.Store :=
  protected now st bearer (post_refresh now st).

(** ** What the routes keep true of the table *)

(** Ids are distinct and below the next value of the sequence. *)
Definition ids_ok (st : Prisma.Store) : Prop :=
  NoDup (map Prisma.id (Prisma.users st))
  /\ (forall u, In u (Prisma.users st) -> Prisma.id u < Prisma.nextId st).

(** Emails are distinct, of the accepted shape and in lower case. *)
Definition emails_ok (st : Prisma.Store) : Prop :=
  NoDup (map Prisma.email (Prisma.users st))
  /\ (forall u, In u (Prisma.users st) ->
                Regex.test emailRegex (Prisma.email u) = true
                /\ toLowerCase (Prisma.email u) = Prisma.email u).

(** A name, when there is one, has between 1 and 50 characters and no white
    space around it. *)
Definition names_ok (st : Prisma.Store) : Prop :=
  forall u n, In u (Prisma.users st) -> Prisma.name u = Some n ->
              0 < js_length n <= 50 /\ trim n = n.

Definition store_ok (st : Prisma.Store) : Prop :=
  ids_ok st /\ emails_ok st /\ names_ok st.

(** ** Lemmas on the table and on the validators *)

Set Default Proof Using "Type".
Set Proof Using Clear Unused.

Lemma find_email_none_not_in (st : Prisma.Store) (e : string) (u : Prisma.User) :
  Prisma.findUnique_email st e = None ->
  In u (Prisma.users st) ->
  Prisma.email u <> e.
Proof.
  unfold Prisma.findUnique_email. intros Hnone Hin Heq.
  apply (find_none _ _ Hnone) in Hin.
  rewrite Heq, String.eqb_refl in Hin. discriminate.
Qed.

Lemma find_email_in (st : Prisma.Store) (e : string) (u : Prisma.User) :
  In u (Prisma.users st) ->
  Prisma.email u = e ->
  exists existing,
    Prisma.findUnique_email st e = Some existing
    /\ In existing (Prisma.users st)
    /\ Prisma.email existing = e.
Proof.
  unfold Prisma.findUnique_email. intros Hin Heq.
  destruct (find (fun u0 => String.eqb (Prisma.email u0) e) (Prisma.users st))
    as [x|] eqn:Hfind.
  - exists x. apply find_some in Hfind. destruct Hfind as [Hx Hex].
    apply String.eqb_eq in Hex. auto.
  - apply (find_none _ _ Hfind) in Hin.
    rewrite Heq, String.eqb_refl in Hin. discriminate.
Qed.

Lemma find_id_replace_row (i : Z) (row : Prisma.User) (rows : list Prisma.User)
      (u : Prisma.User) :
  find (fun x => Prisma.id x =? i) rows = Some u ->
  Prisma.id row = i ->
  find (fun x => Prisma.id x =? i) (Prisma.replace_row i row rows) = Some row.
Proof.
  intros Hfind Hid. induction rows as [|x rest IH]; simpl in *.
  - discriminate.
  - destruct (Prisma.id x =? i) eqn:Hx; simpl.
    + rewrite Hid, Z.eqb_refl. reflexivity.
    + rewrite Hx. apply IH. exact Hfind.
Qed.

Lemma find_id_some (st : Prisma.Store) (i : Z) (u : Prisma.User) :
  Prisma.findUnique_id st i = Some u ->
  In u (Prisma.users st) /\ Prisma.id u = i.
Proof.
  unfold Prisma.findUnique_id. intros H. apply find_some in H.
  destruct H as [Hin Hid]. apply Z.eqb_eq in Hid. auto.
Qed.

Lemma pushed_nonempty (errs : list string) (e : string) :
  (Z.of_nat (List.length (errs ++ [e])) >? 0) = true.
Proof.
  rewrite length_app. simpl. apply Z.gtb_lt. lia.
Qed.

Lemma nonempty_gtb (errs : list string) :
  errs <> [] -> (Z.of_nat (List.length errs) >? 0) = true.
Proof.
  destruct errs as [|e l]; [congruence|]. intros _. reflexivity.
Qed.

Lemma gtb_nonempty (errs : list string) :
  (Z.of_nat (List.length errs) >? 0) = false -> errs = [].
Proof.
  destruct errs as [|e l]; [reflexivity|]. intros H. discriminate H.
Qed.

(** A request that [validateRegistration] passes on has a string for email,
    no error, and is normalized. *)
Lemma validateRegistration_next (b req : RegisterBody) :
  validateRegistration b = Next req ->
  exists e,
    reg_email b = JStr e
    /\ registrationErrors b = Ok []
    /\ req = {| reg_email := JStr (trim (toLowerCase e));
                reg_password := reg_password b;
                reg_name := if truthy (reg_name b)
                            then JStr (trim (str (reg_name b)))
                            else reg_name b |}.
Proof.
  unfold validateRegistration. intros H.
  destruct (registrationErrors b) as [errs|error] eqn:He; [|discriminate H].
  destruct (Z.of_nat (List.length errs) >? 0) eqn:Hlen; [discriminate H|].
  apply gtb_nonempty in Hlen. subst errs.
  destruct (reg_email b) as [| | | |e| |] eqn:Hemail;
    cbn [call_toLowerCase bind] in H; try discriminate H.
  exists e. split; [reflexivity|]. split; [reflexivity|].
  destruct (truthy (reg_name b)) eqn:Hn.
  - destruct (reg_name b) eqn:Hname; cbn [call_trim bind] in H;
      try discriminate H.
    inversion H. reflexivity.
  - cbn [bind] in H. inversion H. reflexivity.
Qed.

Lemma validateLogin_next (b req : LoginBody) :
  validateLogin b = Next req ->
  exists e,
    login_email b = JStr e
    /\ loginErrors b = Ok []
    /\ req = {| login_email := JStr (trim (toLowerCase e));
                login_password := login_password b |}.
Proof.
  unfold validateLogin. intros H.
  destruct (loginErrors b) as [errs|error] eqn:He; [|discriminate H].
  destruct (Z.of_nat (List.length errs) >? 0) eqn:Hlen; [discriminate H|].
  apply gtb_nonempty in Hlen. subst errs.
  destruct (login_email b) as [| | | |e| |] eqn:Hemail;
    cbn [call_toLowerCase] in H; try discriminate H.
  exists e. inversion H. auto.
Qed.

Lemma token_verifies_until_expiry (issued later : Z) (payload : Jwt.Claims) :
  Jwt.clockTimestamp later < Jwt.clockTimestamp issued + 7 * 86400 ->
  verifyToken later (generateToken issued payload None)
  = Ok (Jwt.payload (generateToken issued payload None)).
Proof.
  intros Hlt. unfold verifyToken, generateToken, Jwt.verify, Jwt.sign. simpl.
  rewrite String.eqb_refl. simpl.
  match goal with
  | |- context [?a <=? ?b] => destruct (Z.leb_spec a b) as [Hle|_]
  end.
  - lia.
  - reflexivity.
Qed.

(** ** The claims *)

(** C4. A token issued with the default expiry of seven days carries
    [exp = iat + 7 days].  Verified when the clock reads one second past
    that instant it is refused with [TokenExpiredError]; verified one second
    before it, the verification succeeds and returns the payload of the
    token, in which the claims given at issuance are found. *)
Theorem token_expiry_window (issued late early : Z) (payload : Jwt.Claims) :
  let token := generateToken issued payload None in
  let issuedAt := Jwt.iat (Jwt.payload token) in
  Jwt.clockTimestamp late = issuedAt + 7 * 86400 + 1 ->
  Jwt.clockTimestamp early = issuedAt + 7 * 86400 - 1 ->
  verifyToken late token = Err Jwt.TokenExpiredError
  /\ verifyToken early token = Ok (Jwt.payload token)
  /\ Jwt.claims (Jwt.payload token) = payload
  /\ Jwt.exp (Jwt.payload token) = issuedAt + 7 * 86400.
Proof.
  intros token issuedAt Hlate Hearly.
  assert (Hiat : issuedAt = Jwt.clockTimestamp issued) by reflexivity.
  repeat split.
  - unfold verifyToken, Jwt.verify. subst token. unfold generateToken, Jwt.sign.
    simpl. rewrite String.eqb_refl. simpl.
    match goal with
    | |- context [?a <=? ?b] => destruct (Z.leb_spec a b) as [_|Hlt]
    end.
    + reflexivity.
    + rewrite Hlate, Hiat in Hlt. lia.
  - apply token_verifies_until_expiry. rewrite Hearly, Hiat. lia.
Qed.

(** C1, at the requests for which it fails.  A register request whose
    password is not a string can pass validation (a number does: it is
    truthy and has no [length]); its normalized email being that of no row,
    the handler then calls [hashPassword], which bcrypt rejects, and the
    [catch] block answers 500 [Internal server error]: no row is created and
    no token is issued. *)
Theorem register_non_string_password_fails
        (now : Z) (salt : string) (st : Prisma.Store)
        (reqBody req : RegisterBody) :
  validateRegistration reqBody = Next req ->
  Prisma.findUnique_email st (str (reg_email req)) = None ->
  typeof_string (reg_password reqBody) = false ->
  post_register now salt st reqBody
  = (json 500 (Failure "Internal server error"
                 (Some "An error occurred while creating your account") None),
     st).
Proof.
  intros Hval Hnew Hpw.
  destruct (validateRegistration_next _ _ Hval) as [e [Hemail [_ Hreq]]].
  unfold post_register. rewrite Hval. cbv zeta.
  rewrite Hreq in *. cbn [reg_email reg_password str] in *.
  cbn [Prisma.findUnique_where_email]. rewrite Hnew.
  destruct (reg_password reqBody); try discriminate Hpw; reflexivity.
Qed.

(** C2. When the table already has a user whose email is the normalized
    (lowercased, trimmed) email that validation leaves in a second register
    request, that request is answered 409 and the table is what it was: no
    row is added and the row of the existing user is still there, with all
    its fields. *)
Theorem register_duplicate_email_conflict
        (now : Z) (salt : string) (st : Prisma.Store)
        (reqBody req : RegisterBody) (existing : Prisma.User) :
  validateRegistration reqBody = Next req ->
  In existing (Prisma.users st) ->
  Prisma.email existing = trim (toLowerCase (str (reg_email reqBody))) ->
  post_register now salt st reqBody
  = (json 409 (Failure "User already exists"
                 (Some "A user with this email address already exists") None),
     st)
  /\ snd (post_register now salt st reqBody) = st
  /\ In existing (Prisma.users (snd (post_register now salt st reqBody))).
Proof.
  intros Hval Hin Hemail.
  destruct (validateRegistration_next _ _ Hval) as [e [He [_ Hreq]]].
  rewrite He in Hemail. cbn [str] in Hemail.
  destruct (find_email_in st _ existing Hin Hemail) as [found [Hfind _]].
  assert (Hrun : post_register now salt st reqBody
                 = (json 409 (Failure "User already exists"
                                (Some "A user with this email address already exists")
                                None), st)).
  { unfold post_register. rewrite Hval. cbv zeta.
    rewrite Hreq. cbn [reg_email Prisma.findUnique_where_email].
    rewrite Hfind. reflexivity. }
  rewrite Hrun. auto.
Qed.

(** C3, at the requests for which it fails.  Of two login requests that
    pass validation with the same password, a number, the one whose email is
    the email of no stored user is answered 401 [Invalid credentials], and
    the one whose email is that of a stored, active user is answered 500
    [Internal server error]: bcrypt rejects the comparison of a value that
    is not a string, and the [catch] block answers.  The two responses
    differ, in status and in body. *)
Theorem login_non_string_password_reveals_account
        (now : Z) (st : Prisma.Store) (unknownBody knownBody : LoginBody)
        (unknown known : LoginBody) (user : Prisma.User) :
  validateLogin unknownBody = Next unknown ->
  validateLogin knownBody = Next known ->
  Prisma.findUnique_email st (str (login_email unknown)) = None ->
  Prisma.findUnique_email st (str (login_email known)) = Some user ->
  Prisma.isActive user = true ->
  typeof_string (login_password knownBody) = false ->
  post_login now st unknownBody
  = (json 401 (Failure "Invalid credentials"
                 (Some "Email or password is incorrect") None), st)
  /\ post_login now st knownBody
     = (json 500 (Failure "Internal server error"
                    (Some "An error occurred while logging you in") None), st)
  /\ status (fst (post_login now st unknownBody))
     <> status (fst (post_login now st knownBody))
  /\ body (fst (post_login now st unknownBody))
     <> body (fst (post_login now st knownBody)).
Proof.
  intros Hu Hk Hnone Hsome Hactive Hpw.
  destruct (validateLogin_next _ _ Hu) as [eu [_ [_ Hrequ]]].
  destruct (validateLogin_next _ _ Hk) as [ek [_ [_ Hreqk]]].
  assert (H1 : post_login now st unknownBody = (invalidCredentials, st)).
  { unfold post_login. rewrite Hu. cbv zeta.
    rewrite Hrequ in *. cbn [login_email str] in *.
    cbn [Prisma.findUnique_where_email]. rewrite Hnone. reflexivity. }
  assert (H2 : post_login now st knownBody
               = (internalError "An error occurred while logging you in", st)).
  { unfold post_login. rewrite Hk. cbv zeta.
    rewrite Hreqk in *. cbn [login_email login_password str] in *.
    cbn [Prisma.findUnique_where_email]. rewrite Hsome, Hactive.
    destruct (login_password knownBody); try discriminate Hpw; reflexivity. }
  rewrite H1, H2. repeat split.
  - simpl. intros H. inversion H.
  - simpl. intros H. discriminate H.
Qed.

(** C8. A login request that passes validation and whose email is that of
    a stored user with [isActive = false] is answered 401 with the error
    [Account deactivated] and its own message, a body that differs from the
    one of invalid credentials; the password is not looked at, so the answer
    is the same whether or not it verifies against the stored hash. *)
Theorem login_inactive_account_rejected
        (now : Z) (st : Prisma.Store) (reqBody req : LoginBody)
        (user : Prisma.User) :
  validateLogin reqBody = Next req ->
  Prisma.findUnique_email st (str (login_email req)) = Some user ->
  Prisma.isActive user = false ->
  post_login now st reqBody
  = (json 401 (Failure "Account deactivated"
                 (Some "Your account has been deactivated. Please contact support.")
                 None), st)
  /\ body (fst (post_login now st reqBody)) <> body invalidCredentials.
Proof.
  intros Hval Hfind Hinactive.
  destruct (validateLogin_next _ _ Hval) as [e [_ [_ Hreq]]].
  assert (Hrun : post_login now st reqBody = (accountDeactivated, st)).
  { unfold post_login. rewrite Hval. cbv zeta.
    rewrite Hreq in *. cbn [login_email str] in *.
    cbn [Prisma.findUnique_where_email]. rewrite Hfind, Hinactive.
    reflexivity. }
  rewrite Hrun. split.
  - reflexivity.
  - simpl. intros Heq. discriminate Heq.
Qed.

(** What [validatePassword] answers on a string. *)
Lemma validatePassword_string (s : string) :
  validatePassword (JStr s)
  = Ok (if String.eqb s "" then
          {| isValid := false; errors := ["Password is required"] |}
        else
          let r := {| isValid := true; errors := [] |} in
          let r := if js_length s <? 6
                   then reject r "Password must be at least 6 characters long"
                   else r in
          if js_length s >? 100
          then reject r "Password must be less than 100 characters"
          else r).
Proof.
  unfold validatePassword. cbn [truthy].
  destruct (String.eqb s ""); reflexivity.
Qed.

(** On a value that is neither a string, an array nor an object. *)
Lemma validatePassword_other (v : jsval) :
  match v with
  | JStr _ | JArr _ | JObj _ => True
  | _ =>
      validatePassword v
      = Ok (if truthy v then {| isValid := true; errors := [] |}
            else {| isValid := false; errors := ["Password is required"] |})
  end.
Proof.
  destruct v as [| |b|n| | |]; try exact I; unfold validatePassword;
    cbn [truthy negb]; try reflexivity.
  - destruct b; reflexivity.
  - destruct (n =? 0); reflexivity.
Qed.

(** Whatever [validatePassword] returns is valid exactly when it lists no
    error. *)
Lemma validatePassword_valid (password : jsval) (r : PasswordValidation) :
  validatePassword password = Ok r ->
  (isValid r = true <-> errors r = []).
Proof.
  unfold validatePassword, bind. intros H.
  destruct (truthy password); cbn [negb] in H.
  - destruct (getLength password) as [len|]; [|discriminate H].
    destruct (lessThan len 6) as [short|]; [|discriminate H].
    destruct (greaterThan len 100) as [long|]; [|discriminate H].
    inversion H. destruct short, long; cbn; intuition congruence.
  - inversion H. cbn. intuition congruence.
Qed.

Lemma strict_eq_strings (a b : jsval) :
  strict_eq a b = true -> typeof_string a = typeof_string b.
Proof.
  destruct a, b; simpl; intros H; try discriminate H; reflexivity.
Qed.

(** Two values that are [===] are primitives, and equal. *)
Lemma strict_eq_eq (a b : jsval) : strict_eq a b = true -> a = b.
Proof.
  destruct a, b; simpl; intros H; try discriminate H; try reflexivity.
  - apply Bool.eqb_prop in H. congruence.
  - apply Z.eqb_eq in H. congruence.
  - apply String.eqb_eq in H. congruence.
Qed.

(** On a value that is [===] to some value (so neither an array nor an
    object), [validatePassword] does not throw. *)
Lemma validatePassword_primitive (v w : jsval) :
  strict_eq w v = true -> exists r, validatePassword v = Ok r.
Proof.
  intros H. pose proof (validatePassword_other v) as Ho.
  destruct v as [| |b|n|s| |]; try (eexists; exact Ho).
  - eexists. apply validatePassword_string.
  - destruct w; discriminate H.
  - destruct w; discriminate H.
Qed.

(** C5. A change-password request whose [newPassword] is [===] to its
    [currentPassword] is stopped by the validator: it is answered 400 with
    [Validation failed] and, among the details, the error that the new
    password must differ from the current one.  The handler is not reached,
    so the table is what it was, whatever the stored hash is and whether or
    not the current password verifies against it. *)
Theorem change_password_same_password_rejected
        (now : Z) (salt : string) (st : Prisma.Store) (reqUser : Jwt.Payload)
        (reqBody : ChangePasswordBody) :
  strict_eq (currentPassword reqBody) (newPassword reqBody) = true ->
  exists details,
    put_change_password now salt st reqUser reqBody
    = (json 400 (Failure "Validation failed" None (Some details)), st)
    /\ In "New password must be different from current password" details
    /\ snd (put_change_password now salt st reqUser reqBody) = st.
Proof.
  intros Hsame.
  destruct (validatePassword_primitive _ _ Hsame) as [r Hr].
  assert (Herrs : exists errs,
             changePasswordErrors reqBody
             = Ok (errs ++ ["New password must be different from current password"])).
  { unfold changePasswordErrors. rewrite Hr, Hsame. cbn [bind].
    unfold pushIf at 1. eexists. reflexivity. }
  destruct Herrs as [errs Herrs].
  exists (errs ++ ["New password must be different from current password"]).
  assert (Hrun : put_change_password now salt st reqUser reqBody
                 = (validationFailed
                      (errs ++ ["New password must be different from current password"]),
                    st)).
  { unfold put_change_password, validateChangePassword.
    rewrite Herrs, pushed_nonempty. reflexivity. }
  rewrite Hrun. repeat split.
  apply in_or_app. right. left. reflexivity.
Qed.

(** A request that [validateProfileUpdate] passes on has strings for the
    fields it gives, and is trimmed. *)
Lemma validateProfileUpdate_next (b req : ProfileBody) :
  validateProfileUpdate b = Next req ->
  profileUpdateErrors b = []
  /\ (defined (prof_name b) = true -> typeof_string (prof_name b) = true)
  /\ (defined (prof_avatar b) = true -> typeof_string (prof_avatar b) = true)
  /\ req = {| prof_name := if defined (prof_name b)
                           then JStr (trim (str (prof_name b)))
                           else prof_name b;
              prof_avatar := if defined (prof_avatar b)
                             then JStr (trim (str (prof_avatar b)))
                             else prof_avatar b |}.
Proof.
  unfold validateProfileUpdate. cbv zeta. intros H.
  destruct (Z.of_nat (List.length (profileUpdateErrors b)) >? 0) eqn:Hlen;
    [discriminate H|].
  apply gtb_nonempty in Hlen. split; [exact Hlen|].
  destruct (prof_name b) as [| | | |n| |] eqn:Hname;
    cbn [defined call_trim bind] in H; try discriminate H;
    destruct (prof_avatar b) as [| | | |a| |] eqn:Havatar;
    cbn [defined call_trim bind] in H; try discriminate H;
    inversion H; cbn [defined typeof_string str]; auto.
Qed.

(** C6, as the code has it.  An authenticated profile update that passes
    validation and supplies [name], [avatar] or both, for a user the table
    has, is answered 200 with the updated user.  A field the request leaves
    out keeps its stored value: with only [name] the avatar is unchanged,
    with only [avatar] the name is unchanged; a field it supplies is stored
    trimmed.  [id], [email], the password hash, [isActive] and [createdAt]
    are unchanged.  [updatedAt] becomes the clock reading of the update, so
    it is strictly greater than before when that reading is later than the
    stored [updatedAt]. *)
Theorem profile_update_partial
        (now : Z) (st : Prisma.Store) (reqUser : Jwt.Payload)
        (reqBody req : ProfileBody) (user : Prisma.User) :
  validateProfileUpdate reqBody = Next req ->
  defined (prof_name reqBody) || defined (prof_avatar reqBody) = true ->
  Prisma.in_int_range (Jwt.userId (Jwt.claims reqUser)) = true ->
  Prisma.findUnique_id st (Jwt.userId (Jwt.claims reqUser)) = Some user ->
  exists (updated : Prisma.User) (st' : Prisma.Store),
    put_profile now st reqUser reqBody
    = (json 200 (Success (Some "Profile updated successfully")
                   (Some {| data_user := Some (sanitizeUser updated);
                            data_token := None |})), st')
    /\ Prisma.findUnique_id st' (Jwt.userId (Jwt.claims reqUser)) = Some updated
    /\ (prof_avatar reqBody = JUndefined ->
        Prisma.avatar updated = Prisma.avatar user)
    /\ (prof_name reqBody = JUndefined ->
        Prisma.name updated = Prisma.name user)
    /\ (forall n, prof_name reqBody = JStr n ->
                  Prisma.name updated = Some (trim n))
    /\ (forall a, prof_avatar reqBody = JStr a ->
                  Prisma.avatar updated = Some (trim a))
    /\ Prisma.id updated = Prisma.id user
    /\ Prisma.email updated = Prisma.email user
    /\ Prisma.password updated = Prisma.password user
    /\ Prisma.isActive updated = Prisma.isActive user
    /\ Prisma.createdAt updated = Prisma.createdAt user
    /\ Prisma.updatedAt updated = now
    /\ (Prisma.updatedAt user < now ->
        Prisma.updatedAt user < Prisma.updatedAt updated).
Proof.
  intros Hval Hgiven Hrange Hfind.
  destruct (validateProfileUpdate_next _ _ Hval) as [_ [Hn [Ha Hreq]]].
  destruct (find_id_some _ _ _ Hfind) as [_ Hid].
  unfold put_profile. rewrite Hval. cbv zeta.
  unfold Prisma.update. rewrite Hrange. cbn [negb].
  rewrite Hreq. cbn [prof_name prof_avatar].
  destruct (prof_name reqBody) as [| | | |n| |] eqn:Hname;
    cbn [defined typeof_string] in Hn; try (discriminate (Hn eq_refl));
    destruct (prof_avatar reqBody) as [| | | |a| |] eqn:Havatar;
    cbn [defined typeof_string] in Ha; try (discriminate (Ha eq_refl));
    cbn [defined orb] in Hgiven; try discriminate Hgiven;
    cbn [defined str Prisma.d_name Prisma.d_avatar Prisma.d_password
         Prisma.column_arg andb negb Prisma.no_data];
    rewrite Hfind;
    (eexists; eexists; split; [reflexivity|]);
    (split;
     [ unfold Prisma.findUnique_id; cbn [Prisma.users];
       apply (find_id_replace_row _ _ _ user);
       [exact Hfind | cbn [Prisma.apply Prisma.id]; exact Hid]
     | cbn [Prisma.apply Prisma.set_column Prisma.id Prisma.email
            Prisma.password Prisma.name Prisma.avatar Prisma.isActive
            Prisma.createdAt Prisma.updatedAt Prisma.d_name Prisma.d_avatar
            Prisma.d_password];
       repeat split; intros; try congruence; try assumption ]).
Qed.

(** C7, at a request for which it fails.  A register request with no email
    and with the empty string for [name] breaks two rules of the
    registration contract: email is required, and a name that is present is
    not empty.  It is answered 400 with one detail, [Email is required]:
    both tests on [name] are behind [name &&], which the empty string does
    not pass, so the second violation is not reported. *)
Theorem registration_empty_name_not_reported
        (now : Z) (salt : string) (st : Prisma.Store) :
  validateRegistration
    {| reg_email := JUndefined;
       reg_password := JStr "password123";
       reg_name := JStr "" |}
  = Respond (json 400 (Failure "Validation failed" None
                         (Some ["Email is required"])))
  /\ post_register now salt st
       {| reg_email := JUndefined;
          reg_password := JStr "password123";
          reg_name := JStr "" |}
     = (json 400 (Failure "Validation failed" None
                    (Some ["Email is required"])), st).
Proof.
  assert (Hval : validateRegistration
                   {| reg_email := JUndefined;
                      reg_password := JStr "password123";
                      reg_name := JStr "" |}
                 = Respond (json 400 (Failure "Validation failed" None
                                        (Some ["Email is required"]))))
    by (vm_compute; reflexivity).
  split; [exact Hval|].
  unfold post_register. rewrite Hval. reflexivity.
Qed.

(** C9.  A refresh request whose bearer token verifies is answered 200 with
    a token issued at the time of the request from the [userId] and [email]
    that the presented token carries.  [authenticateToken] and the handler
    read nothing from the table: the response is the same whatever the
    table holds (so also when the row of the user is gone or has
    [isActive = false]) and the table is left as it was.  The new token
    verifies and carries the claims of the presented one. *)
Theorem refresh_uses_token_claims_only
        (now : Z) (st : Prisma.Store) (token : Jwt.Token)
        (decoded : Jwt.Payload) :
  verifyToken now token = Ok decoded ->
  exists newToken : Jwt.Token,
    newToken
    = generateToken now
        {| Jwt.userId := Jwt.userId (Jwt.claims decoded);
           Jwt.email := Jwt.email (Jwt.claims decoded) |} None
    /\ route_refresh now st (Some token)
       = (json 200 (Success (Some "Token refreshed successfully")
                      (Some {| data_user := None;
                               data_token := Some newToken |})), st)
    /\ (forall st' : Prisma.Store,
          fst (route_refresh now st' (Some token))
          = fst (route_refresh now st (Some token)))
    /\ verifyToken now newToken = Ok (Jwt.payload newToken)
    /\ Jwt.claims (Jwt.payload newToken) = Jwt.claims decoded
    /\ Jwt.iat (Jwt.payload newToken) = Jwt.clockTimestamp now.
Proof.
  intros Hverify.
  eexists. split; [reflexivity|].
  assert (Hrun : forall s,
             route_refresh now s (Some token)
             = post_refresh now s decoded).
  { intros s. unfold route_refresh, protected, authenticateToken.
    rewrite Hverify. reflexivity. }
  split; [rewrite Hrun; reflexivity|].
  split; [intros st'; rewrite !Hrun; reflexivity|].
  split; [apply token_verifies_until_expiry; lia|].
  split; [|reflexivity].
  destruct decoded as [[uid mail] i e]. reflexivity.
Qed.

(** C10, at a request for which it fails.  A register request whose [name]
    is the empty string passes validation with the name as it came, and, on
    an empty table, is answered 201 with a user whose name is [null]: the
    tests on [name] are behind [name &&] and the handler stores
    [name || null].  The same validator refuses a name of white space with
    [Name must be a non-empty string], and [validateProfileUpdate] refuses
    the empty name with [Name cannot be empty]. *)
Theorem registration_accepts_empty_name (now : Z) (salt : string) :
  validateRegistration
    {| reg_email := JStr "carol@example.com";
       reg_password := JStr "password123";
       reg_name := JStr "" |}
  = Next {| reg_email := JStr "carol@example.com";
            reg_password := JStr "password123";
            reg_name := JStr "" |}
  /\ (exists (user : Prisma.User) (token : Jwt.Token),
        post_register now salt Demo.emptyStore
          {| reg_email := JStr "carol@example.com";
             reg_password := JStr "password123";
             reg_name := JStr "" |}
        = (json 201 (Success (Some "User registered successfully")
                       (Some {| data_user := Some (sanitizeUser user);
                                data_token := Some token |})),
           {| Prisma.users := [user]; Prisma.nextId := 2 |})
        /\ Prisma.email user = "carol@example.com"
        /\ Prisma.name user = None)
  /\ validateRegistration
       {| reg_email := JStr "carol@example.com";
          reg_password := JStr "password123";
          reg_name := JStr "   " |}
     = Respond (json 400 (Failure "Validation failed" None
                            (Some ["Name must be a non-empty string"])))
  /\ validateProfileUpdate {| prof_name := JStr ""; prof_avatar := JUndefined |}
     = Respond (json 400 (Failure "Validation failed" None
                            (Some ["Name cannot be empty"]))).
Proof.
  assert (Hval : validateRegistration
                   {| reg_email := JStr "carol@example.com";
                      reg_password := JStr "password123";
                      reg_name := JStr "" |}
                 = Next {| reg_email := JStr "carol@example.com";
                           reg_password := JStr "password123";
                           reg_name := JStr "" |})
    by (vm_compute; reflexivity).
  split; [exact Hval|].
  split; [|split; vm_compute; reflexivity].
  unfold post_register. rewrite Hval. cbv zeta.
  cbn [reg_email reg_password reg_name Prisma.findUnique_where_email
       Prisma.findUnique_email Demo.emptyStore Prisma.users find
       hashPassword truthy String.eqb negb].
  unfold Prisma.create.
  cbn [Prisma.c_email Prisma.c_name Prisma.c_password Prisma.nullable_string
       Prisma.findUnique_email Prisma.users find Prisma.nextId
       Prisma.in_int_range Z.leb Z.compare Pos.compare Pos.compare_cont
       andb Z.opp app Z.add Pos.add Pos.succ].
  eexists. eexists. split; [reflexivity|]. split; reflexivity.
Qed.

(** ** Beyond the claims: the email pattern and the string helpers *)

Import Regex.

(** *** The matcher accepts the strings of the expression *)

Lemma str_append_empty_r (s : string) : (s ++ "")%string = s.
Proof. induction s; simpl; congruence. Qed.

Lemma str_append_assoc (a b c : string) : ((a ++ b) ++ c = a ++ (b ++ c))%string.
Proof. induction a; simpl; congruence. Qed.

Lemma str_append_eq_empty (a b : string) : (a ++ b)%string = "" -> a = "" /\ b = "".
Proof. destruct a; simpl; intros H; [auto | discriminate]. Qed.

Lemma nullable_spec (r : regex) : nullable r = true <-> Matches r "".
Proof.
  split.
  - induction r; simpl; intros H; try discriminate.
    + constructor.
    + apply andb_true_iff in H. destruct H as [H1 H2].
      change "" with ("" ++ "")%string. constructor; auto.
    + apply orb_true_iff in H. destruct H as [H|H].
      * apply MAltL; auto.
      * apply MAltR; auto.
    + constructor.
  - intros H. remember "" as s eqn:Hs. induction H; simpl; try reflexivity.
    + discriminate.
    + apply str_append_eq_empty in Hs. destruct Hs. apply andb_true_iff. auto.
    + apply orb_true_iff. auto.
    + apply orb_true_iff. auto.
Qed.

Lemma Matches_Void (s : string) : ~ Matches Void s.
Proof. intros H. inversion H. Qed.

Lemma cat_spec (r1 r2 : regex) (s : string) :
  Matches (cat r1 r2) s <-> Matches (Cat r1 r2) s.
Proof.
  assert (HvoidL : forall r, Matches (Cat Void r) s -> False).
  { intros r H. inversion H; subst. eapply Matches_Void; eauto. }
  assert (HvoidR : forall r, Matches (Cat r Void) s -> False).
  { intros r H. inversion H; subst. eapply Matches_Void; eauto. }
  assert (Heps : forall r, Matches r s <-> Matches (Cat Eps r) s).
  { intros r. split; intros H.
    - change s with ("" ++ s)%string. constructor; [constructor | exact H].
    - inversion H; subst. inversion H2; subst. simpl. exact H4. }
  destruct r1, r2; simpl;
    first [ tauto
          | apply Heps
          | split; intros H; exfalso;
            first [ eapply Matches_Void; eassumption
                  | eapply HvoidL; eassumption
                  | eapply HvoidR; eassumption ] ].
Qed.

Lemma alt_spec (r1 r2 : regex) (s : string) :
  Matches (alt r1 r2) s <-> Matches (Alt r1 r2) s.
Proof.
  assert (HL : forall r, Matches r s <-> Matches (Alt Void r) s).
  { intros r. split; intros H.
    - apply MAltR. exact H.
    - inversion H; subst; [exfalso; eapply Matches_Void; eauto | assumption]. }
  assert (HR : forall r, Matches r s <-> Matches (Alt r Void) s).
  { intros r. split; intros H.
    - apply MAltL. exact H.
    - inversion H; subst; [assumption | exfalso; eapply Matches_Void; eauto]. }
  destruct r1, r2; simpl; try tauto; try apply HL; try apply HR.
Qed.

Lemma deriv_sound (c : ascii) (r : regex) :
  forall s, Matches (deriv c r) s -> Matches r (String c s).
Proof.
  induction r; simpl; intros s H.
  - inversion H.
  - inversion H.
  - destruct (p c) eqn:Hp; inversion H; subst. constructor. exact Hp.
  - destruct (nullable r1) eqn:Hn.
    + apply alt_spec in H. inversion H; subst.
      * apply cat_spec in H3. inversion H3; subst.
        change (String c (s1 ++ s2)) with (String c s1 ++ s2)%string.
        constructor; auto.
      * change (String c s) with ("" ++ String c s)%string.
        constructor; [apply nullable_spec; exact Hn | auto].
    + apply cat_spec in H. inversion H; subst.
      change (String c (s1 ++ s2)) with (String c s1 ++ s2)%string.
      constructor; auto.
  - apply alt_spec in H. inversion H; subst.
    + apply MAltL; auto.
    + apply MAltR; auto.
  - apply cat_spec in H. inversion H; subst.
    change (String c (s1 ++ s2)) with (String c s1 ++ s2)%string.
    constructor; auto.
Qed.

Lemma deriv_complete (c : ascii) (r : regex) (s0 : string) :
  Matches r s0 -> forall t, s0 = String c t -> Matches (deriv c r) t.
Proof.
  induction 1; intros t Hs; simpl.
  - discriminate.
  - inversion Hs; subst. rewrite H. constructor.
  - destruct s1 as [|c1 s1'].
    + simpl in Hs. subst s2.
      assert (Hn : nullable r1 = true) by (apply nullable_spec; assumption).
      rewrite Hn. apply alt_spec. apply MAltR. apply IHMatches2. reflexivity.
    + simpl in Hs. inversion Hs; subst.
      assert (Hc : Matches (cat (deriv c r1) r2) (s1' ++ s2)).
      { apply cat_spec. constructor; auto. }
      destruct (nullable r1); [apply alt_spec; apply MAltL|]; exact Hc.
  - apply alt_spec. apply MAltL. auto.
  - apply alt_spec. apply MAltR. auto.
  - discriminate.
  - destruct s1 as [|c1 s1'].
    + simpl in Hs. apply IHMatches2. exact Hs.
    + simpl in Hs. inversion Hs; subst.
      apply cat_spec. constructor; auto.
Qed.

Lemma test_spec (r : regex) (s : string) : test r s = true <-> Matches r s.
Proof.
  revert r. induction s as [|c s IH]; intros r; simpl.
  - apply nullable_spec.
  - rewrite IH. split.
    + apply deriv_sound.
    + intros H. eapply deriv_complete; eauto.
Qed.

(** *** Character classes *)

Lemma Matches_Class (p : ascii -> bool) (s : string) :
  Matches (Class p) s <-> exists c, s = String c "" /\ p c = true.
Proof.
  split.
  - intros H. inversion H; subst. eauto.
  - intros [c [Hs Hp]]. subst. constructor. exact Hp.
Qed.

Lemma Matches_Star_Class (p : ascii -> bool) (s : string) :
  Matches (Star (Class p)) s <-> every p s = true.
Proof.
  split.
  - intros H. remember (Star (Class p)) as r eqn:Hr.
    induction H; try discriminate; inversion Hr; subst.
    + reflexivity.
    + apply Matches_Class in H. destruct H as [c [Hs Hp]]. subst.
      simpl. rewrite Hp. simpl. apply IHMatches2. reflexivity.
  - induction s as [|c rest IH]; simpl; intros H.
    + constructor.
    + apply andb_true_iff in H. destruct H as [Hc Hrest].
      change (String c rest) with (String c "" ++ rest)%string.
      constructor; [constructor; exact Hc | auto].
Qed.

Lemma Matches_Plus_Class (p : ascii -> bool) (s : string) :
  Matches (Plus (Class p)) s <-> s <> "" /\ every p s = true.
Proof.
  unfold Plus. split.
  - intros H. inversion H; subst.
    apply Matches_Class in H2. destruct H2 as [c [Hs Hp]]. subst.
    apply Matches_Star_Class in H4. simpl. rewrite Hp, H4.
    split; [discriminate | reflexivity].
  - intros [Hne H]. destruct s as [|c rest]; [contradiction|].
    simpl in H. apply andb_true_iff in H. destruct H as [Hc Hrest].
    change (String c rest) with (String c "" ++ rest)%string.
    constructor; [constructor; exact Hc | apply Matches_Star_Class; exact Hrest].
Qed.

Lemma Matches_Lit (c : ascii) (s : string) :
  Matches (Lit c) s <-> s = String c "".
Proof.
  unfold Lit. rewrite Matches_Class. split.
  - intros [d [Hs Hd]]. apply Ascii.eqb_eq in Hd. subst. reflexivity.
  - intros Hs. exists c. split; [exact Hs | apply Ascii.eqb_refl].
Qed.

Lemma isValidEmail_test (s : string) :
  isValidEmail (JStr s) = Ok true <-> test emailRegex s = true.
Proof.
  unfold isValidEmail. cbn [toString bind]. split; intros H.
  - inversion H. reflexivity.
  - rewrite H. reflexivity.
Qed.

Lemma emailRegex_shape (s : string) :
  test emailRegex s = true
  <-> exists local domain tld : string,
        s = (local ++ "@" ++ domain ++ "." ++ tld)%string
        /\ local <> "" /\ domain <> "" /\ tld <> ""
        /\ every notSpaceOrAt local = true
        /\ every notSpaceOrAt domain = true
        /\ every notSpaceOrAt tld = true.
Proof.
  rewrite test_spec. unfold emailRegex. split.
  - intros H.
    inversion H as [| |r1 r2 a rest1 Ha Hrest1| | | |]; subst.
    inversion Hrest1 as [| |r1 r2 at_ rest2 Hat Hrest2| | | |]; subst.
    inversion Hrest2 as [| |r1 r2 b rest3 Hb Hrest3| | | |]; subst.
    inversion Hrest3 as [| |r1 r2 dot c Hdot Hc| | | |]; subst.
    apply Matches_Plus_Class in Ha, Hb, Hc.
    apply Matches_Lit in Hat, Hdot. subst.
    exists a, b, c. simpl. tauto.
  - intros (a & b & c & Hs & Ha & Hb & Hc & Pa & Pb & Pc). subst s.
    constructor; [apply Matches_Plus_Class; auto|].
    change ("@" ++ b ++ "." ++ c)%string
      with (String "@" "" ++ (b ++ String "." "" ++ c))%string.
    constructor; [apply Matches_Lit; reflexivity|].
    constructor; [apply Matches_Plus_Class; auto|].
    constructor; [apply Matches_Lit; reflexivity|].
    apply Matches_Plus_Class; auto.
Qed.

(** X1. On a string, [isValidEmail] accepts exactly the strings
    [local@domain.tld] in which the three parts are not empty and hold
    neither white space nor [@]: one [@] in all, and a dot inside what
    follows it (the domain may itself hold dots). *)
Theorem isValidEmail_shape (s : string) :
  isValidEmail (JStr s) = Ok true
  <-> exists local domain tld : string,
        s = (local ++ "@" ++ domain ++ "." ++ tld)%string
        /\ local <> "" /\ domain <> "" /\ tld <> ""
        /\ every notSpaceOrAt local = true
        /\ every notSpaceOrAt domain = true
        /\ every notSpaceOrAt tld = true.
Proof.
  rewrite isValidEmail_test. apply emailRegex_shape.
Qed.

(** *** Strings *)

Lemma str_length_app (a b : string) :
  String.length (a ++ b) = (String.length a + String.length b)%nat.
Proof. induction a; simpl; congruence. Qed.

Lemma every_app (p : ascii -> bool) (a b : string) :
  every p (a ++ b) = every p a && every p b.
Proof.
  induction a as [|c a IH]; simpl.
  - reflexivity.
  - rewrite IH. apply andb_assoc.
Qed.

Lemma rev_onto_spec (s acc : string) :
  rev_onto s acc = (reverse s ++ acc)%string.
Proof.
  unfold reverse. revert acc. induction s as [|c s IH]; intros acc; simpl.
  - reflexivity.
  - rewrite IH. rewrite (IH (String c "")). rewrite str_append_assoc. reflexivity.
Qed.

Lemma reverse_cons (c : ascii) (s : string) :
  reverse (String c s) = (reverse s ++ String c "")%string.
Proof. unfold reverse at 1. simpl. apply rev_onto_spec. Qed.

Lemma reverse_app (a b : string) :
  reverse (a ++ b) = (reverse b ++ reverse a)%string.
Proof.
  induction a as [|c a IH]; simpl.
  - rewrite str_append_empty_r. reflexivity.
  - rewrite !reverse_cons, IH, str_append_assoc. reflexivity.
Qed.

Lemma reverse_involutive (s : string) : reverse (reverse s) = s.
Proof.
  induction s as [|c s IH].
  - reflexivity.
  - rewrite reverse_cons, reverse_app, IH. reflexivity.
Qed.

Lemma every_reverse (p : ascii -> bool) (s : string) :
  every p (reverse s) = every p s.
Proof.
  induction s as [|c s IH].
  - reflexivity.
  - rewrite reverse_cons, every_app, IH. simpl.
    rewrite andb_true_r. apply andb_comm.
Qed.

Lemma length_reverse (s : string) : String.length (reverse s) = String.length s.
Proof.
  induction s as [|c s IH].
  - reflexivity.
  - rewrite reverse_cons, str_length_app, IH. simpl. lia.
Qed.

Lemma trimStart_app (a b : string) :
  trimStart (a ++ b)
  = if every isWhiteSpace a then trimStart b else (trimStart a ++ b)%string.
Proof.
  induction a as [|c a IH]; simpl.
  - reflexivity.
  - destruct (isWhiteSpace c); simpl.
    + exact IH.
    + reflexivity.
Qed.

Lemma trimEnd_cons (c : ascii) (rest : string) :
  trimEnd (String c rest)
  = if every isWhiteSpace rest
    then (if isWhiteSpace c then "" else String c "")
    else String c (trimEnd rest).
Proof.
  unfold trimEnd. rewrite reverse_cons, trimStart_app, every_reverse.
  destruct (every isWhiteSpace rest).
  - simpl. destruct (isWhiteSpace c); reflexivity.
  - rewrite reverse_app. reflexivity.
Qed.

Lemma trimEnd_empty : trimEnd "" = "".
Proof. reflexivity. Qed.

Lemma trimStart_length (s : string) :
  (String.length (trimStart s) <= String.length s)%nat.
Proof.
  induction s as [|c s IH]; simpl.
  - lia.
  - destruct (isWhiteSpace c); simpl; lia.
Qed.

Lemma trimEnd_length (s : string) :
  (String.length (trimEnd s) <= String.length s)%nat.
Proof.
  induction s as [|c s IH].
  - simpl. lia.
  - rewrite trimEnd_cons.
    destruct (every isWhiteSpace s); [destruct (isWhiteSpace c)|]; simpl; lia.
Qed.

Lemma trim_length (s : string) : js_length (trim s) <= js_length s.
Proof.
  unfold js_length, trim.
  pose proof (trimEnd_length (trimStart s)). pose proof (trimStart_length s). lia.
Qed.

Lemma trimStart_headOk (s : string) : headOk (trimStart s) = true.
Proof.
  induction s as [|c s IH]; simpl.
  - reflexivity.
  - destruct (isWhiteSpace c) eqn:Hc; simpl.
    + exact IH.
    + rewrite Hc. reflexivity.
Qed.

Lemma trimStart_noop (s : string) : headOk s = true -> trimStart s = s.
Proof.
  destruct s as [|c s]; simpl; intros H.
  - reflexivity.
  - destruct (isWhiteSpace c); [discriminate | reflexivity].
Qed.

Lemma trimEnd_headOk (s : string) : headOk s = true -> headOk (trimEnd s) = true.
Proof.
  destruct s as [|c s]; intros H.
  - reflexivity.
  - simpl in H. apply negb_true_iff in H. rewrite trimEnd_cons, H.
    destruct (every isWhiteSpace s); simpl; rewrite H; reflexivity.
Qed.

Lemma trimEnd_keeps_ink (s : string) :
  every isWhiteSpace s = false -> every isWhiteSpace (trimEnd s) = false.
Proof.
  induction s as [|c s IH]; intros H.
  - discriminate.
  - rewrite trimEnd_cons. simpl in H.
    destruct (every isWhiteSpace s) eqn:Hs.
    + rewrite andb_true_r in H. rewrite H. simpl. rewrite H. reflexivity.
    + simpl. rewrite IH by reflexivity. apply andb_false_r.
Qed.

Lemma trimEnd_idem (s : string) : trimEnd (trimEnd s) = trimEnd s.
Proof.
  induction s as [|c s IH].
  - reflexivity.
  - rewrite trimEnd_cons.
    destruct (every isWhiteSpace s) eqn:Hs.
    + destruct (isWhiteSpace c) eqn:Hc; [reflexivity|].
      rewrite trimEnd_cons. simpl. rewrite Hc. reflexivity.
    + rewrite trimEnd_cons, (trimEnd_keeps_ink _ Hs), IH. reflexivity.
Qed.

Lemma trim_idem (s : string) : trim (trim s) = trim s.
Proof.
  unfold trim.
  rewrite (trimStart_noop (trimEnd (trimStart s))).
  - apply trimEnd_idem.
  - apply trimEnd_headOk. apply trimStart_headOk.
Qed.

Lemma trimEnd_noop (s : string) : every notWhiteSpace s = true -> trimEnd s = s.
Proof.
  induction s as [|c s IH]; intros H.
  - reflexivity.
  - rewrite trimEnd_cons. simpl in H. apply andb_true_iff in H.
    destruct H as [Hc Hs]. unfold notWhiteSpace in Hc.
    apply negb_true_iff in Hc. rewrite Hc.
    destruct s as [|d s'].
    + reflexivity.
    + simpl in Hs. apply andb_true_iff in Hs. destruct Hs as [Hd Hs'].
      unfold notWhiteSpace in Hd. apply negb_true_iff in Hd.
      simpl. rewrite Hd. simpl. f_equal. apply IH.
      simpl. unfold notWhiteSpace at 1. rewrite Hd. simpl. exact Hs'.
Qed.

Lemma trim_noop (s : string) : every notWhiteSpace s = true -> trim s = s.
Proof.
  intros H. unfold trim. rewrite trimStart_noop.
  - apply trimEnd_noop. exact H.
  - destruct s as [|c s]; simpl in *; [reflexivity|].
    apply andb_true_iff in H. tauto.
Qed.

Lemma every_impl (p q : ascii -> bool) (s : string) :
  (forall c, p c = true -> q c = true) -> every p s = true -> every q s = true.
Proof.
  intros Hpq. induction s as [|c s IH]; simpl; intros H.
  - reflexivity.
  - apply andb_true_iff in H. destruct H as [Hc Hs].
    rewrite (Hpq _ Hc), (IH Hs). reflexivity.
Qed.

Lemma toLowerCase_app (a b : string) :
  toLowerCase (a ++ b) = (toLowerCase a ++ toLowerCase b)%string.
Proof. induction a; simpl; congruence. Qed.

Lemma length_toLowerCase (s : string) :
  String.length (toLowerCase s) = String.length s.
Proof. induction s; simpl; congruence. Qed.

Lemma lowerChar_idem (c : ascii) : lowerChar (lowerChar c) = lowerChar c.
Proof. destruct c as [[] [] [] [] [] [] [] []]; vm_compute; reflexivity. Qed.

Lemma lowerChar_notSpaceOrAt (c : ascii) :
  notSpaceOrAt c = true -> notSpaceOrAt (lowerChar c) = true.
Proof.
  destruct c as [[] [] [] [] [] [] [] []]; vm_compute; intros H;
    first [reflexivity | discriminate H].
Qed.

Lemma toLowerCase_idem (s : string) : toLowerCase (toLowerCase s) = toLowerCase s.
Proof.
  induction s as [|c s IH]; simpl.
  - reflexivity.
  - rewrite lowerChar_idem, IH. reflexivity.
Qed.

Lemma every_toLowerCase (s : string) :
  every notSpaceOrAt s = true -> every notSpaceOrAt (toLowerCase s) = true.
Proof.
  induction s as [|c s IH]; simpl; intros H.
  - reflexivity.
  - apply andb_true_iff in H. destruct H as [Hc Hs].
    rewrite (lowerChar_notSpaceOrAt _ Hc), (IH Hs). reflexivity.
Qed.

Lemma toLowerCase_nonempty (s : string) : s <> "" -> toLowerCase s <> "".
Proof. destruct s; simpl; intros H; [contradiction | discriminate]. Qed.

Lemma emailRegex_no_space (s : string) :
  test emailRegex s = true -> every notWhiteSpace s = true.
Proof.
  intros H. apply emailRegex_shape in H.
  destruct H as (a & b & c & Hs & _ & _ & _ & Pa & Pb & Pc). subst s.
  assert (Himp : forall x, notSpaceOrAt x = true -> notWhiteSpace x = true).
  { intros x. unfold notSpaceOrAt, notWhiteSpace.
    destruct (isWhiteSpace x); simpl; auto. }
  rewrite !every_app.
  rewrite (every_impl _ _ _ Himp Pa), (every_impl _ _ _ Himp Pb),
    (every_impl _ _ _ Himp Pc).
  reflexivity.
Qed.

Lemma emailRegex_normalisation (e : string) :
  test emailRegex e = true ->
  trim (toLowerCase e) = toLowerCase e
  /\ test emailRegex (toLowerCase e) = true
  /\ trim e = e.
Proof.
  intros H.
  assert (Hlow : test emailRegex (toLowerCase e) = true).
  { apply emailRegex_shape in H.
    destruct H as (a & b & c & Hs & Ha & Hb & Hc & Pa & Pb & Pc). subst e.
    apply emailRegex_shape.
    exists (toLowerCase a), (toLowerCase b), (toLowerCase c).
    rewrite !toLowerCase_app. simpl.
    repeat split; auto using toLowerCase_nonempty, every_toLowerCase. }
  split; [|split].
  - apply trim_noop. apply emailRegex_no_space. exact Hlow.
  - exact Hlow.
  - apply trim_noop. apply emailRegex_no_space. exact H.
Qed.

Lemma emailRegex_nonempty (e : string) : test emailRegex e = true -> e <> "".
Proof. intros H He. subst e. vm_compute in H. discriminate H. Qed.

(** X2. On an email that [isValidEmail] accepts, the [trim] that the
    validators apply after [toLowerCase] changes nothing, and the lowered
    email is still accepted: the normalized email is the lower case of the
    one received. *)
Theorem valid_email_normalisation (e : string) :
  isValidEmail (JStr e) = Ok true ->
  trim (toLowerCase e) = toLowerCase e
  /\ isValidEmail (JStr (toLowerCase e)) = Ok true
  /\ trim e = e.
Proof.
  rewrite !isValidEmail_test. apply emailRegex_normalisation.
Qed.

(** ** Beyond the claims: what each validator lets through *)

Lemma js_length_zero (s : string) : js_length s = 0 <-> s = "".
Proof.
  unfold js_length. destruct s; simpl; split; intros H;
    first [reflexivity | discriminate | lia].
Qed.

Lemma js_length_nonneg (s : string) : 0 <= js_length s.
Proof. unfold js_length. lia. Qed.

Lemma truthy_string (s : string) : truthy (JStr s) = true <-> s <> "".
Proof.
  cbn [truthy]. destruct (String.eqb_spec s ""); simpl; split; intros H;
    congruence.
Qed.

Lemma app_one_not_nil (l : list string) (x : string) : l ++ [x] <> [].
Proof. destruct l; discriminate. Qed.

Lemma pushIf_nil (c : bool) (m : string) (errs : list string) :
  pushIf c m errs = [] <-> c = false /\ errs = [].
Proof.
  unfold pushIf. destruct c; split.
  - intros H. exfalso. exact (app_one_not_nil _ _ H).
  - intros [H _]. discriminate H.
  - auto.
  - intros [_ H]. exact H.
Qed.

(** The email checks on a string. *)
Lemma emailErrors_string (e : string) (errs : list string) :
  emailErrors (JStr e) errs
  = Ok (if String.eqb e "" then errs ++ ["Email is required"]
        else if test emailRegex e then errs
             else errs ++ ["Please provide a valid email address"]).
Proof.
  unfold emailErrors, isValidEmail. cbn [truthy toString bind].
  destruct (String.eqb e ""); cbn [negb]; [reflexivity|].
  destruct (test emailRegex e); reflexivity.
Qed.

Lemma emailErrors_string_nil (e : string) :
  emailErrors (JStr e) [] = Ok [] <-> test emailRegex e = true.
Proof.
  rewrite emailErrors_string. split.
  - destruct (String.eqb e ""); [intros H; discriminate H|].
    destruct (test emailRegex e); [reflexivity | intros H; discriminate H].
  - intros H. pose proof (emailRegex_nonempty _ H) as Hne.
    destruct (String.eqb_spec e ""); [contradiction|].
    rewrite H. reflexivity.
Qed.

(** The errors that the password adds to the list. *)
Lemma password_errors_nil (r : PasswordValidation) (errs : list string) :
  (isValid r = true <-> errors r = []) ->
  (if negb (isValid r) then errs ++ errors r else errs) = []
  <-> isValid r = true /\ errs = [].
Proof.
  intros Hr. destruct (isValid r) eqn:Hv; cbn [negb]; split.
  - auto.
  - intros [_ H]. exact H.
  - intros H. apply app_eq_nil in H. destruct H as [_ H].
    apply Hr in H. discriminate H.
  - intros [H _]. discriminate H.
Qed.

(** What [validatePassword] returns when it finds the password valid. *)
Lemma validatePassword_valid_result (password : jsval) (r : PasswordValidation) :
  validatePassword password = Ok r ->
  isValid r = true ->
  r = {| isValid := true; errors := [] |}.
Proof.
  intros H Hv. pose proof (proj1 (validatePassword_valid _ _ H) Hv) as He.
  destruct r as [v es]. cbn in *. subst. reflexivity.
Qed.

(** Settles the case of a password that is neither a string, an array nor
    an object. *)
Ltac primitive_case :=
  cbn [negb isValid]; split;
  [ intros H; first [discriminate H | right; split; reflexivity]
  | intros [[s [H _]]|[_ H]]; first [discriminate H | reflexivity] ].

(** X3. On a value that is not an array or an object, [validatePassword]
    returns (it does not throw), and it reports the password valid exactly
    when its list of errors is empty, and exactly when the value is a string
    of 6 to 100 characters, both bounds included, or a truthy value that is
    not a string: a number other than 0 or [true], which have no [length],
    pass both length tests. *)
Theorem validatePassword_valid_iff (password : jsval) :
  isObject password = false ->
  exists r,
    validatePassword password = Ok r
    /\ (isValid r = true <-> errors r = [])
    /\ (isValid r = true
        <-> (exists s, password = JStr s /\ 6 <= js_length s <= 100)
            \/ (typeof_string password = false /\ truthy password = true)).
Proof.
  intros Hobj.
  assert (Hex : exists r, validatePassword password = Ok r).
  { pose proof (validatePassword_other password) as Ho.
    destruct password; try discriminate Hobj; try (eexists; exact Ho).
    eexists. apply validatePassword_string. }
  destruct Hex as [r Hr]. exists r. split; [exact Hr|].
  split; [exact (validatePassword_valid _ _ Hr)|].
  pose proof (validatePassword_other password) as Ho.
  destruct password as [| |b|n|s| |]; try discriminate Hobj;
    try (rewrite Ho in Hr; inversion Hr; subst r; clear Hr Ho);
    cbn [truthy typeof_string isValid].
  - primitive_case.
  - primitive_case.
  - destruct b; primitive_case.
  - destruct (n =? 0); primitive_case.
  - rewrite validatePassword_string in Hr. inversion Hr; subst r; clear Hr Ho.
    destruct (String.eqb_spec s "") as [He|Hne].
    + subst s. cbn [isValid]. split; [intros H; discriminate H|].
      intros [[s [H Hlen]]|[H _]]; [|discriminate H].
      inversion H; subst s. unfold js_length in Hlen. simpl in Hlen. lia.
    + cbv zeta. unfold reject.
      destruct (Z.ltb_spec (js_length s) 6) as [Hlt|Hge];
        destruct (Z.gtb_spec (js_length s) 100) as [Hgt|Hle];
        cbn [isValid]; split; intros H; try discriminate H; try reflexivity;
        try (destruct H as [[x [Hx Hlen]]|[Hx _]];
             [inversion Hx; subst x; lia | discriminate Hx]).
      left. exists s. split; [reflexivity | lia].
Qed.

Lemma validateLogin_next_iff (b req : LoginBody) :
  validateLogin b = Next req
  <-> exists e,
        login_email b = JStr e /\ test emailRegex e = true
        /\ truthy (login_password b) = true
        /\ req = {| login_email := JStr (toLowerCase e);
                    login_password := login_password b |}.
Proof.
  split.
  - intros H. destruct (validateLogin_next _ _ H) as [e [He [Herrs Hreq]]].
    exists e. split; [exact He|].
    unfold loginErrors in Herrs. rewrite He, emailErrors_string in Herrs.
    cbn [bind] in Herrs. inversion Herrs as [Hnil]. clear Herrs.
    apply pushIf_nil in Hnil. destruct Hnil as [Hp Hnil].
    assert (Ht : test emailRegex e = true).
    { destruct (String.eqb e ""); [discriminate Hnil|].
      destruct (test emailRegex e); [reflexivity | discriminate Hnil]. }
    split; [exact Ht|]. split; [apply negb_false_iff; exact Hp|].
    destruct (emailRegex_normalisation e Ht) as [Htrim _].
    rewrite Hreq, Htrim. reflexivity.
  - intros (e & He & Ht & Hp & Hreq).
    unfold validateLogin, loginErrors. rewrite He.
    rewrite (proj2 (emailErrors_string_nil e) Ht). cbn [bind].
    rewrite Hp. cbn [negb pushIf List.length Z.of_nat Z.gtb Z.compare
                     call_toLowerCase].
    destruct (emailRegex_normalisation e Ht) as [Htrim _].
    rewrite Htrim, Hreq. reflexivity.
Qed.

(** X6. [validateLogin] calls [next()] exactly when the email is a string
    of the accepted shape and the password is truthy: a non-empty string of
    any length, but also a number other than 0, [true], an array or an
    object.  The request then carries the email in lower case and the
    password as it was. *)
Theorem validateLogin_accepts_iff (b req : LoginBody) :
  validateLogin b = Next req
  <-> exists e,
        login_email b = JStr e /\ isValidEmail (JStr e) = Ok true
        /\ truthy (login_password b) = true
        /\ req = {| login_email := JStr (toLowerCase e);
                    login_password := login_password b |}.
Proof.
  rewrite validateLogin_next_iff.
  split; intros (e & He & Ht & H); exists e; (split; [exact He|]);
    (split; [apply isValidEmail_test; exact Ht | exact H]).
Qed.

Lemma validateProfileUpdate_next_iff (b req : ProfileBody) :
  validateProfileUpdate b = Next req
  <-> match prof_name b with
      | JUndefined => True
      | JStr n => 0 < js_length (trim n) /\ js_length n <= 50
      | _ => False
      end
      /\ match prof_avatar b with
         | JUndefined => True
         | JStr a => js_length a <= 19000000
         | _ => False
         end
      /\ req = {| prof_name := match prof_name b with
                               | JStr n => JStr (trim n)
                               | v => v
                               end;
                  prof_avatar := match prof_avatar b with
                                 | JStr a => JStr (trim a)
                                 | v => v
                                 end |}.
Proof.
  unfold validateProfileUpdate, profileUpdateErrors.
  destruct b as [name avatar]. cbn [prof_name prof_avatar].
  assert (Hname :
            forall n,
              (if js_length (trim n) =? 0
               then [] ++ ["Name cannot be empty"]
               else if js_length n >? 50
                    then [] ++ ["Name must be less than 50 characters"]
                    else []) = []
              <-> 0 < js_length (trim n) /\ js_length n <= 50).
  { intros n. pose proof (js_length_nonneg (trim n)).
    destruct (Z.eqb_spec (js_length (trim n)) 0) as [Hz|Hz];
      [|destruct (Z.gtb_spec (js_length n) 50) as [Hg|Hg]];
      simpl; split; intros Hx; try discriminate Hx; try lia; reflexivity. }
  assert (Havatar :
            forall (errs : list string) a,
              (if js_length a >? 19000000
               then errs ++ ["Avatar data is too large (max 19MB)"]
               else errs) = []
              <-> errs = [] /\ js_length a <= 19000000).
  { intros errs a.
    destruct (Z.gtb_spec (js_length a) 19000000) as [Hg|Hg]; split; intros Hx.
    - destruct errs; discriminate Hx.
    - lia.
    - split; [exact Hx | lia].
    - tauto. }
  assert (Hrun :
            forall (errs : list string) (r : middleware ProfileBody),
              (if Z.of_nat (List.length errs) >? 0
               then Respond (validationFailed errs) else r) = Next req
              <-> errs = [] /\ r = Next req).
  { intros errs r. destruct errs as [|x l]; simpl; split; intros Hx.
    - auto.
    - destruct Hx as [_ Hx]. exact Hx.
    - discriminate Hx.
    - destruct Hx as [Hx _]. discriminate Hx. }
  assert (Hnext : forall r : ProfileBody, Next r = Next req <-> req = r).
  { intros r. split; intros Hx; [inversion Hx | subst]; reflexivity. }
  assert (Hsnoc : forall (l : list string) x, l ++ [x] = [] <-> False).
  { intros l x. split; [apply app_one_not_nil | tauto]. }
  destruct name as [| | | |n| |]; destruct avatar as [| | | |a| |];
    cbn [defined typeof_string negb str call_trim bind];
    rewrite Hrun; rewrite ?Havatar; rewrite ?Hname; rewrite ?Hsnoc;
    rewrite ?Hnext; try tauto;
    destruct (js_length (trim n) =? 0);
    try destruct (js_length n >? 50);
    rewrite ?Hsnoc; tauto.
Qed.

(** X7. [validateProfileUpdate] calls [next()] exactly when the name, if
    given, is a string of at most 50 characters with one that is not white
    space, and the avatar, if given, is a string of at most 19,000,000
    characters (it may be empty).  The request then carries both trimmed; a
    field left out stays out. *)
Theorem validateProfileUpdate_accepts_iff (b req : ProfileBody) :
  validateProfileUpdate b = Next req
  <-> match prof_name b with
      | JUndefined => True
      | JStr n => 0 < js_length (trim n) /\ js_length n <= 50
      | _ => False
      end
      /\ match prof_avatar b with
         | JUndefined => True
         | JStr a => js_length a <= 19000000
         | _ => False
         end
      /\ req = {| prof_name := match prof_name b with
                               | JStr n => JStr (trim n)
                               | v => v
                               end;
                  prof_avatar := match prof_avatar b with
                                 | JStr a => JStr (trim a)
                                 | v => v
                                 end |}.
Proof.
  apply validateProfileUpdate_next_iff.
Qed.

Lemma validateChangePassword_next_iff (b req : ChangePasswordBody) :
  validateChangePassword b = Next req
  <-> truthy (currentPassword b) = true
      /\ validatePassword (newPassword b)
         = Ok {| isValid := true; errors := [] |}
      /\ strict_eq (currentPassword b) (newPassword b) = false
      /\ req = b.
Proof.
  unfold validateChangePassword, changePasswordErrors, bind. split.
  - intros H.
    destruct (validatePassword (newPassword b)) as [r|] eqn:Hr;
      [|discriminate H].
    match type of H with
    | (if Z.of_nat (List.length ?errs) >? 0 then _ else _) = _ =>
        destruct (Z.of_nat (List.length errs) >? 0) eqn:Hlen;
        [discriminate H | apply gtb_nonempty in Hlen]
    end.
    inversion H; subst req. clear H.
    apply pushIf_nil in Hlen. destruct Hlen as [Hneq Hlen].
    assert (Hmap : (isValid r = true <-> errors r = [])
                   -> (isValid r = true
                       <-> map (fun error => replace "Password" "New password" error)
                               (errors r) = [])).
    { intros Hx. rewrite Hx. destruct (errors r); simpl; split; intros Hy;
        try reflexivity; discriminate Hy. }
    pose proof (Hmap (validatePassword_valid _ _ Hr)) as Hv.
    destruct (isValid r) eqn:Hvalid; cbn [negb] in Hlen.
    + apply pushIf_nil in Hlen. destruct Hlen as [Hcur _].
      split; [apply negb_false_iff; exact Hcur|].
      split; [|auto].
      f_equal. apply (validatePassword_valid_result _ _ Hr Hvalid).
    + apply app_eq_nil in Hlen. destruct Hlen as [_ Hlen].
      apply Hv in Hlen. discriminate Hlen.
  - intros (Hcur & Hr & Hneq & Hreq). subst req.
    rewrite Hr, Hcur, Hneq. reflexivity.
Qed.

(** X8. [validateChangePassword] calls [next()] exactly when the current
    password is truthy (of any type), [validatePassword] reports the new
    password valid, and the two are not [===].  The request is passed on as
    it was: passwords are not trimmed. *)
Theorem validateChangePassword_accepts_iff (b req : ChangePasswordBody) :
  validateChangePassword b = Next req
  <-> truthy (currentPassword b) = true
      /\ validatePassword (newPassword b)
         = Ok {| isValid := true; errors := [] |}
      /\ strict_eq (currentPassword b) (newPassword b) = false
      /\ req = b.
Proof.
  apply validateChangePassword_next_iff.
Qed.

Lemma Ok_inj {E A : Type} (x y : A) : @Ok E A x = Ok y -> x = y.
Proof. intros H. injection H as H. exact H. Qed.

Lemma email_part_nil (e : string) :
  (if String.eqb e "" then [] ++ ["Email is required"]
   else if test emailRegex e then []
        else [] ++ ["Please provide a valid email address"]) = []
  -> test emailRegex e = true.
Proof.
  destruct (String.eqb e ""); [intros H; discriminate H|].
  destruct (test emailRegex e); [reflexivity | intros H; discriminate H].
Qed.

Lemma validateRegistration_next_iff (b req : RegisterBody) :
  validateRegistration b = Next req
  <-> exists e,
        reg_email b = JStr e /\ test emailRegex e = true
        /\ validatePassword (reg_password b)
           = Ok {| isValid := true; errors := [] |}
        /\ (truthy (reg_name b) = false
            \/ exists n, reg_name b = JStr n
                         /\ 0 < js_length (trim n) /\ js_length n <= 50)
        /\ req = {| reg_email := JStr (toLowerCase e);
                    reg_password := reg_password b;
                    reg_name := if truthy (reg_name b)
                                then JStr (trim (str (reg_name b)))
                                else reg_name b |}.
Proof.
  split.
  - intros H. destruct (validateRegistration_next _ _ H) as [e [He [Herrs Hreq]]].
    exists e. split; [exact He|].
    unfold registrationErrors in Herrs. cbv zeta in Herrs.
    rewrite He, emailErrors_string in Herrs. cbn [bind] in Herrs.
    destruct (validatePassword (reg_password b)) as [r|] eqn:Hr;
      cbn [bind] in Herrs; [|discriminate Herrs].
    pose proof (validatePassword_valid _ _ Hr) as Hvalid.
    assert (Hall : test emailRegex e = true /\ isValid r = true
                   /\ (truthy (reg_name b) = false
                       \/ exists n, reg_name b = JStr n
                                    /\ 0 < js_length (trim n)
                                    /\ js_length n <= 50)).
    { destruct (reg_name b) as [| |x|x|n|items|props] eqn:Hname;
        cbn [truthy getLength bind greaterThan typeof_string negb andb orb str]
          in Herrs;
        try (destruct x; cbn [bind greaterThan andb] in Herrs);
        try (destruct (x =? 0); cbn [negb bind greaterThan andb] in Herrs);
        try (destruct (String.eqb_spec n "") as [Hz|Hnz];
             cbn [negb bind greaterThan andb] in Herrs);
        try (destruct (greaterThan (getProp "length" props) 50) as [long|];
             [cbn [bind] in Herrs | discriminate Herrs]);
        apply Ok_inj in Herrs; rename Herrs into Hnil;
        apply pushIf_nil in Hnil; destruct Hnil as [Hlong Hnil];
        apply pushIf_nil in Hnil; destruct Hnil as [Hblank Hnil];
        try discriminate Hblank;
        (apply password_errors_nil in Hnil; [|exact Hvalid]);
        destruct Hnil as [Hv Hnil]; apply email_part_nil in Hnil;
        (split; [exact Hnil|]); (split; [exact Hv|]);
        try (left; subst; reflexivity).
      right. exists n. split; [reflexivity|].
      apply Z.eqb_neq in Hblank.
      rewrite Z.gtb_ltb in Hlong. apply Z.ltb_ge in Hlong.
      pose proof (js_length_nonneg (trim n)). lia. }
    destruct Hall as [Ht [Hv Hn]].
    split; [exact Ht|].
    split; [f_equal; exact (validatePassword_valid_result _ _ Hr Hv)|].
    split; [exact Hn|].
    destruct (emailRegex_normalisation e Ht) as [Htrim _].
    rewrite Hreq, Htrim. reflexivity.
  - intros (e & He & Ht & Hpw & Hname & Hreq).
    destruct (emailRegex_normalisation e Ht) as [Htrim _].
    assert (Herrs : registrationErrors b = Ok []).
    { unfold registrationErrors. cbv zeta.
      rewrite He, (proj2 (emailErrors_string_nil e) Ht), Hpw.
      cbn [bind isValid negb].
      destruct Hname as [Hfalsy|[n [Hn [Hpos Hlen]]]].
      - rewrite Hfalsy. reflexivity.
      - rewrite Hn. cbn [truthy typeof_string negb orb str getLength bind
                         greaterThan].
        assert (Hne : String.eqb n "" = false).
        { destruct (String.eqb_spec n ""); [|reflexivity].
          subst n. unfold js_length in Hpos. simpl in Hpos. lia. }
        rewrite Hne. cbn [negb andb].
        destruct (Z.eqb_spec (js_length (trim n)) 0) as [Hz|_]; [lia|].
        destruct (Z.gtb_spec (js_length n) 50) as [Hg|_]; [lia|].
        reflexivity. }
    unfold validateRegistration. rewrite Herrs.
    cbn [List.length Z.of_nat Z.gtb Z.compare].
    rewrite He. cbn [call_toLowerCase bind].
    destruct Hname as [Hfalsy|[n [Hn _]]].
    + rewrite Hfalsy in *. cbn [bind]. rewrite Htrim, Hreq. reflexivity.
    + rewrite Hn in *. cbn [truthy str call_trim bind] in *.
      destruct (String.eqb n ""); cbn [negb bind call_trim] in *;
        rewrite Htrim, Hreq; reflexivity.
Qed.

(** X4. [validateRegistration] calls [next()] exactly when the email is a
    string of the accepted shape, [validatePassword] reports the password
    valid, and the name is falsy (absent, [null], empty, 0 or [false]) or a
    string of at most 50 characters with one that is not white space.  The
    request then carries the email in lower case, the password as it was and
    a truthy name trimmed. *)
Theorem validateRegistration_accepts_iff (b req : RegisterBody) :
  validateRegistration b = Next req
  <-> exists e,
        reg_email b = JStr e /\ isValidEmail (JStr e) = Ok true
        /\ validatePassword (reg_password b)
           = Ok {| isValid := true; errors := [] |}
        /\ (truthy (reg_name b) = false
            \/ exists n, reg_name b = JStr n
                         /\ 0 < js_length (trim n) /\ js_length n <= 50)
        /\ req = {| reg_email := JStr (toLowerCase e);
                    reg_password := reg_password b;
                    reg_name := if truthy (reg_name b)
                                then JStr (trim (str (reg_name b)))
                                else reg_name b |}.
Proof.
  rewrite validateRegistration_next_iff.
  split; intros (e & He & Ht & H); exists e; (split; [exact He|]);
    (split; [apply isValidEmail_test; exact Ht | exact H]).
Qed.

(** X5. A register request as [validateRegistration] leaves it passes
    [validateRegistration] again and is left unchanged. *)
Theorem validateRegistration_idempotent (b req : RegisterBody) :
  validateRegistration b = Next req ->
  validateRegistration req = Next req.
Proof.
  intros H. apply validateRegistration_next_iff in H.
  destruct H as (e & He & Ht & Hpw & Hname & Hreq).
  destruct (emailRegex_normalisation e Ht) as [_ [Hlow _]].
  apply validateRegistration_next_iff.
  exists (toLowerCase e). subst req. cbn [reg_email reg_password reg_name].
  split; [reflexivity|]. split; [exact Hlow|]. split; [exact Hpw|].
  rewrite toLowerCase_idem.
  destruct Hname as [Hfalsy|[n [Hn [Hpos Hlen]]]].
  - rewrite Hfalsy. split; [left; exact Hfalsy|].
    rewrite Hfalsy. reflexivity.
  - assert (Hne : truthy (JStr n) = true).
    { apply truthy_string. intros Hz. subst n.
      unfold js_length in Hpos. simpl in Hpos. lia. }
    assert (Hne' : truthy (JStr (trim n)) = true).
    { apply truthy_string. intros Hz. rewrite Hz in Hpos.
      unfold js_length in Hpos. simpl in Hpos. lia. }
    rewrite Hn, Hne. cbn [str].
    split.
    + right. exists (trim n). split; [reflexivity|].
      rewrite trim_idem. pose proof (trim_length n). lia.
    + rewrite Hne'. cbn [str]. rewrite trim_idem. reflexivity.
Qed.

Lemma validateLogin_idempotent (b req : LoginBody) :
  validateLogin b = Next req -> validateLogin req = Next req.
Proof.
  intros H. apply validateLogin_next_iff in H.
  destruct H as (e & He & Ht & Hp & Hreq).
  destruct (emailRegex_normalisation e Ht) as [_ [Hlow _]].
  apply validateLogin_next_iff.
  exists (toLowerCase e). subst req. cbn [login_email login_password].
  rewrite toLowerCase_idem. auto.
Qed.

Lemma validateProfileUpdate_idempotent (b req : ProfileBody) :
  validateProfileUpdate b = Next req -> validateProfileUpdate req = Next req.
Proof.
  intros H. apply validateProfileUpdate_next_iff in H.
  destruct H as (Hn & Ha & Hreq).
  apply validateProfileUpdate_next_iff.
  subst req. cbn [prof_name prof_avatar].
  destruct (prof_name b) as [| | | |n| |]; try contradiction;
    destruct (prof_avatar b) as [| | | |a| |]; try contradiction;
    rewrite ?trim_idem;
    repeat split; auto;
    try (pose proof (trim_length n); lia);
    try (pose proof (trim_length a); lia).
Qed.

(** X25. The case the registration contract singles out: no email (any
    falsy value) and a string password of fewer than six characters.  The
    request is answered 400 and both fields are reported in the details,
    whatever the name is, unless testing the name throws; an empty password
    is reported as missing, a shorter one as too short. *)
Theorem registration_missing_email_short_password
        (b : RegisterBody) (p : string) (errs : list string) :
  truthy (reg_email b) = false ->
  reg_password b = JStr p ->
  js_length p < 6 ->
  registrationErrors b = Ok errs ->
  validateRegistration b
  = Respond (json 400 (Failure "Validation failed" None (Some errs)))
  /\ In "Email is required" errs
  /\ In (if String.eqb p ""
         then "Password is required"
         else "Password must be at least 6 characters long") errs.
Proof.
  intros Hemail Hpw Hshort Herrs.
  assert (Hin : In "Email is required" errs
                /\ In (if String.eqb p ""
                       then "Password is required"
                       else "Password must be at least 6 characters long") errs).
  { unfold registrationErrors, emailErrors in Herrs. cbv zeta in Herrs.
    rewrite Hemail, Hpw, validatePassword_string in Herrs.
    cbn [negb bind] in Herrs.
    match type of Herrs with
    | bind ?m _ = _ => destruct m as [long|]; [|discriminate Herrs]
    end.
    cbn [bind] in Herrs. apply Ok_inj in Herrs. subst errs.
    unfold pushIf.
    assert (Hgrow : forall (c : bool) (x m : string) (l : list string),
               In x l -> In x (if c then l ++ [m] else l)).
    { intros c x m l Hx. destruct c; [apply in_or_app; left|]; exact Hx. }
    split; apply Hgrow; apply Hgrow.
    - destruct (String.eqb p ""); cbn [isValid negb errors app In]; [auto|].
      cbv zeta. unfold reject.
      destruct (js_length p <? 6); destruct (js_length p >? 100);
        cbn [isValid negb errors app In]; auto.
    - destruct (String.eqb p ""); cbn [isValid negb errors app In]; [auto|].
      cbv zeta. unfold reject.
      destruct (Z.ltb_spec (js_length p) 6) as [_|Hge]; [|lia].
      destruct (js_length p >? 100); cbn [isValid negb errors app In]; auto. }
  split; [|exact Hin].
  unfold validateRegistration. rewrite Herrs.
  rewrite nonempty_gtb; [reflexivity|].
  intros Hnil. subst errs. destruct Hin as [[] _].
Qed.

(** ** Beyond the claims: the routes *)

Lemma find_app_last {A : Type} (f : A -> bool) (l : list A) (x : A) :
  find f l = None -> f x = true -> find f (l ++ [x]) = Some x.
Proof.
  intros Hnone Hx. induction l as [|y l IH]; simpl in *.
  - rewrite Hx. reflexivity.
  - destruct (f y); [discriminate | auto].
Qed.

Lemma find_id_fresh (st : Prisma.Store) :
  (forall u, In u (Prisma.users st) -> Prisma.id u < Prisma.nextId st) ->
  find (fun u => Prisma.id u =? Prisma.nextId st) (Prisma.users st) = None.
Proof.
  intros Hbelow.
  destruct (find (fun u => Prisma.id u =? Prisma.nextId st) (Prisma.users st))
    as [u|] eqn:Hfind; [|reflexivity].
  apply find_some in Hfind. destruct Hfind as [Hin Heq].
  apply Z.eqb_eq in Heq. specialize (Hbelow u Hin). lia.
Qed.

(** The name of a request that passed validation, as the handler hands it to
    [create]: a trimmed string, or [null]. *)
Lemma validated_name (b req : RegisterBody) :
  validateRegistration b = Next req ->
  Prisma.nullable_string (if truthy (reg_name req) then reg_name req else JNull)
  = Ok (if truthy (reg_name b) then Some (trim (str (reg_name b))) else None).
Proof.
  intros H. apply validateRegistration_next_iff in H.
  destruct H as (e & _ & _ & _ & Hname & Hreq). subst req. cbn [reg_name].
  destruct Hname as [Hfalsy|[n [Hn [Hpos _]]]].
  - rewrite Hfalsy, Hfalsy. reflexivity.
  - assert (Hne : truthy (JStr n) = true).
    { apply truthy_string. intros Hz. subst n.
      unfold js_length in Hpos. simpl in Hpos. lia. }
    assert (Hne' : truthy (JStr (trim n)) = true).
    { apply truthy_string. intros Hz. rewrite Hz in Hpos.
      unfold js_length in Hpos. simpl in Hpos. lia. }
    rewrite Hn, Hne. cbn [str]. rewrite Hne'. reflexivity.
Qed.

(** What a registration that goes through answers and writes. *)
Lemma post_register_new (now : Z) (salt : string) (st : Prisma.Store)
      (reqBody req : RegisterBody) (p : string) :
  validateRegistration reqBody = Next req ->
  Prisma.findUnique_email st (str (reg_email req)) = None ->
  reg_password reqBody = JStr p ->
  Prisma.in_int_range (Prisma.nextId st) = true ->
  post_register now salt st reqBody
  = (json 201
       (Success (Some "User registered successfully")
          (Some {| data_user :=
                     Some (sanitizeUser
                             {| Prisma.id := Prisma.nextId st;
                                Prisma.email := str (reg_email req);
                                Prisma.password := bcrypt_hash p 12 salt;
                                Prisma.name :=
                                  if truthy (reg_name reqBody)
                                  then Some (trim (str (reg_name reqBody)))
                                  else None;
                                Prisma.avatar := None;
                                Prisma.isActive := true;
                                Prisma.createdAt := now;
                                Prisma.updatedAt := now |});
                   data_token :=
                     Some (generateToken now
                             {| Jwt.userId := Prisma.nextId st;
                                Jwt.email := str (reg_email req) |} None) |})),
     {| Prisma.users :=
          Prisma.users st
          ++ [{| Prisma.id := Prisma.nextId st;
                 Prisma.email := str (reg_email req);
                 Prisma.password := bcrypt_hash p 12 salt;
                 Prisma.name := if truthy (reg_name reqBody)
                                then Some (trim (str (reg_name reqBody)))
                                else None;
                 Prisma.avatar := None;
                 Prisma.isActive := true;
                 Prisma.createdAt := now;
                 Prisma.updatedAt := now |}];
        Prisma.nextId := Prisma.nextId st + 1 |}).
Proof.
  intros Hval Hnew Hpw Hrange.
  pose proof (validated_name _ _ Hval) as Hname.
  destruct (validateRegistration_next _ _ Hval) as [e [He [_ Hreq]]].
  assert (Hemail : reg_email req = JStr (str (reg_email req)))
    by (rewrite Hreq; reflexivity).
  assert (Hpw' : reg_password req = JStr p)
    by (rewrite Hreq; exact Hpw).
  unfold post_register. rewrite Hval. cbv zeta.
  rewrite Hemail at 1. cbn [Prisma.findUnique_where_email]. rewrite Hnew.
  rewrite Hpw'. cbn [hashPassword].
  unfold Prisma.create. cbn [Prisma.c_email Prisma.c_name Prisma.c_password].
  rewrite Hname. rewrite Hemail at 1. rewrite Hnew, Hrange. reflexivity.
Qed.

(** X23. A register request that passes validation with a string for
    password, whose normalized email no row of the table has, the sequence
    of ids not being exhausted, creates one row and is answered 201 with
    that row sanitized (every column but the password hash) and a token.
    The row holds the next id, the normalized email, the hash of the
    password, the trimmed name or [null], no avatar, [isActive = true] and
    the clock reading in both timestamps.  Verifying the token, at the time
    of the request or at any time before its expiry, succeeds, and the
    [userId] it carries is the id of the created row. *)
Theorem register_new_email_created
        (now later : Z) (salt : string) (st : Prisma.Store)
        (reqBody req : RegisterBody) (p : string) :
  validateRegistration reqBody = Next req ->
  Prisma.findUnique_email st (str (reg_email req)) = None ->
  reg_password reqBody = JStr p ->
  Prisma.in_int_range (Prisma.nextId st) = true ->
  Jwt.clockTimestamp later < Jwt.clockTimestamp now + 7 * 86400 ->
  exists (user : Prisma.User) (token : Jwt.Token),
    post_register now salt st reqBody
    = (json 201 (Success (Some "User registered successfully")
                   (Some {| data_user := Some (sanitizeUser user);
                            data_token := Some token |})),
       {| Prisma.users := Prisma.users st ++ [user];
          Prisma.nextId := Prisma.nextId st + 1 |})
    /\ ~ In user (Prisma.users st)
    /\ user = {| Prisma.id := Prisma.nextId st;
                 Prisma.email := trim (toLowerCase (str (reg_email reqBody)));
                 Prisma.password := bcrypt_hash p 12 salt;
                 Prisma.name := if truthy (reg_name reqBody)
                                then Some (trim (str (reg_name reqBody)))
                                else None;
                 Prisma.avatar := None;
                 Prisma.isActive := true;
                 Prisma.createdAt := now;
                 Prisma.updatedAt := now |}
    /\ hashPassword salt (reg_password reqBody) = Ok (Prisma.password user)
    /\ sanitizeUser user
       = {| su_id := Prisma.nextId st;
            su_email := trim (toLowerCase (str (reg_email reqBody)));
            su_name := if truthy (reg_name reqBody)
                       then Some (trim (str (reg_name reqBody)))
                       else None;
            su_avatar := None;
            su_isActive := true;
            su_createdAt := now;
            su_updatedAt := now |}
    /\ (exists decoded,
          verifyToken now token = Ok decoded
          /\ verifyToken later token = Ok decoded
          /\ Jwt.userId (Jwt.claims decoded) = Prisma.id user
          /\ Jwt.email (Jwt.claims decoded) = Prisma.email user).
Proof.
  intros Hval Hnew Hpw Hrange Hlater.
  rewrite (post_register_new now salt st _ _ p Hval Hnew Hpw Hrange).
  destruct (validateRegistration_next _ _ Hval) as [e [He [_ Hreq]]].
  assert (Hemail : str (reg_email req)
                   = trim (toLowerCase (str (reg_email reqBody))))
    by (rewrite Hreq, He; reflexivity).
  eexists. eexists. split; [reflexivity|].
  split.
  { intros Hin. apply (find_email_none_not_in _ _ _ Hnew) in Hin.
    apply Hin. reflexivity. }
  split; [rewrite Hemail; reflexivity|].
  split; [rewrite Hpw; reflexivity|].
  split; [unfold sanitizeUser; cbn; rewrite Hemail; reflexivity|].
  eexists. split; [|split; [|split]].
  - apply token_verifies_until_expiry. lia.
  - apply token_verifies_until_expiry. exact Hlater.
  - reflexivity.
  - reflexivity.
Qed.

(** X24. Two login requests that pass validation, one whose email is the
    email of no stored user, the other whose email is that of a stored,
    active user and whose password, a string, bcrypt finds not to match the
    stored hash, receive the same response: 401 with the error
    [Invalid credentials] and the message [Email or password is incorrect].
    Neither changes the table. *)
Theorem login_failures_indistinguishable
        (now : Z) (st : Prisma.Store) (unknownBody wrongBody : LoginBody)
        (unknown wrong : LoginBody) (user : Prisma.User) :
  validateLogin unknownBody = Next unknown ->
  validateLogin wrongBody = Next wrong ->
  Prisma.findUnique_email st (str (login_email unknown)) = None ->
  Prisma.findUnique_email st (str (login_email wrong)) = Some user ->
  Prisma.isActive user = true ->
  comparePassword (login_password wrong) (Prisma.password user) = Ok false ->
  post_login now st unknownBody = post_login now st wrongBody
  /\ post_login now st unknownBody
     = (json 401 (Failure "Invalid credentials"
                    (Some "Email or password is incorrect") None), st).
Proof.
  intros Hu Hw Hnone Hsome Hactive Hcmp.
  destruct (validateLogin_next _ _ Hu) as [eu [_ [_ Hrequ]]].
  destruct (validateLogin_next _ _ Hw) as [ew [_ [_ Hreqw]]].
  assert (H1 : post_login now st unknownBody = (invalidCredentials, st)).
  { unfold post_login. rewrite Hu. cbv zeta.
    rewrite Hrequ in *. cbn [login_email str] in *.
    cbn [Prisma.findUnique_where_email]. rewrite Hnone. reflexivity. }
  assert (H2 : post_login now st wrongBody = (invalidCredentials, st)).
  { unfold post_login. rewrite Hw. cbv zeta.
    rewrite Hreqw in *. cbn [login_email login_password str] in *.
    cbn [Prisma.findUnique_where_email]. rewrite Hsome, Hactive, Hcmp.
    reflexivity. }
  rewrite H1, H2. split; reflexivity.
Qed.

(** What a login that goes through answers. *)
Lemma post_login_ok
      (now : Z) (st : Prisma.Store) (reqBody req : LoginBody)
      (user : Prisma.User) :
  validateLogin reqBody = Next req ->
  Prisma.findUnique_email st (str (login_email req)) = Some user ->
  Prisma.isActive user = true ->
  comparePassword (login_password req) (Prisma.password user) = Ok true ->
  post_login now st reqBody
  = (json 200 (Success (Some "Login successful")
                 (Some {| data_user := Some (sanitizeUser user);
                          data_token :=
                            Some (generateToken now
                                    {| Jwt.userId := Prisma.id user;
                                       Jwt.email := Prisma.email user |}
                                    None) |})), st).
Proof.
  intros Hval Hfind Hactive Hcmp.
  destruct (validateLogin_next _ _ Hval) as [e [_ [_ Hreq]]].
  unfold post_login. rewrite Hval. cbv zeta.
  rewrite Hreq in *. cbn [login_email login_password str] in *.
  cbn [Prisma.findUnique_where_email]. rewrite Hfind, Hactive, Hcmp.
  reflexivity.
Qed.

(** X9. Login with the right password.  A login request that passes
    validation, for a stored, active user whose hash the password verifies
    against, is answered 200 with the sanitized user and a token issued at the
    time of the request for the id and email of that user; the token verifies
    and the table is left as it was. *)
Theorem login_success
        (now : Z) (st : Prisma.Store) (reqBody req : LoginBody)
        (user : Prisma.User) :
  validateLogin reqBody = Next req ->
  Prisma.findUnique_email st (str (login_email req)) = Some user ->
  Prisma.isActive user = true ->
  comparePassword (login_password req) (Prisma.password user) = Ok true ->
  exists token : Jwt.Token,
    token = generateToken now {| Jwt.userId := Prisma.id user;
                                 Jwt.email := Prisma.email user |} None
    /\ post_login now st reqBody
       = (json 200 (Success (Some "Login successful")
                      (Some {| data_user := Some (sanitizeUser user);
                               data_token := Some token |})), st)
    /\ verifyToken now token = Ok (Jwt.payload token)
    /\ Jwt.userId (Jwt.claims (Jwt.payload token)) = Prisma.id user
    /\ Jwt.email (Jwt.claims (Jwt.payload token)) = Prisma.email user.
Proof.
  intros Hval Hfind Hactive Hcmp.
  eexists. split; [reflexivity|]. split.
  - apply (post_login_ok _ _ _ req); assumption.
  - split; [apply token_verifies_until_expiry; lia|]. split; reflexivity.
Qed.

(** X10. Register, then log in.  After a registration that goes through, a
    login with the registered password and with the registered email written
    in any mix of upper and lower case is answered 200 with the user that the
    registration created, provided bcrypt verifies the password against the
    hash it made of it. *)
Theorem register_then_login
        (now later : Z) (salt : string) (st : Prisma.Store)
        (regBody req : RegisterBody) (loginEmail p : string) :
  validateRegistration regBody = Next req ->
  Prisma.findUnique_email st (str (reg_email req)) = None ->
  reg_password regBody = JStr p ->
  Prisma.in_int_range (Prisma.nextId st) = true ->
  isValidEmail (JStr loginEmail) = Ok true ->
  toLowerCase loginEmail = str (reg_email req) ->
  bcrypt_compare p (bcrypt_hash p 12 salt) = true ->
  exists (user : Prisma.User) (token : Jwt.Token),
    fst (post_register now salt st regBody)
    = json 201 (Success (Some "User registered successfully")
                  (Some {| data_user := Some (sanitizeUser user);
                           data_token := Some token |}))
    /\ post_login later (snd (post_register now salt st regBody))
         {| login_email := JStr loginEmail;
            login_password := reg_password regBody |}
       = (json 200
            (Success (Some "Login successful")
               (Some {| data_user := Some (sanitizeUser user);
                        data_token :=
                          Some (generateToken later
                                  {| Jwt.userId := Prisma.id user;
                                     Jwt.email := Prisma.email user |}
                                  None) |})),
          snd (post_register now salt st regBody)).
Proof.
  intros Hval Hnew Hpw Hrange Hvalid Hlower Hbcrypt.
  rewrite (post_register_new now salt st _ _ p Hval Hnew Hpw Hrange).
  cbn [fst snd].
  apply isValidEmail_test in Hvalid.
  pose proof Hval as Hacc. apply validateRegistration_next_iff in Hacc.
  destruct Hacc as (e & He & Hv & Hvp & _ & Hreq).
  assert (Hpne : truthy (JStr p) = true).
  { rewrite Hpw, validatePassword_string in Hvp.
    cbn [truthy]. destruct (String.eqb p ""); [|reflexivity].
    inversion Hvp. }
  assert (Hlogin :
            validateLogin {| login_email := JStr loginEmail;
                             login_password := reg_password regBody |}
            = Next {| login_email := JStr (toLowerCase loginEmail);
                      login_password := JStr p |}).
  { apply validateLogin_next_iff. exists loginEmail.
    cbn [login_email login_password]. rewrite Hpw. auto. }
  eexists. eexists. split; [reflexivity|].
  apply (post_login_ok _ _ _ _ _ Hlogin); cbn [login_email login_password str].
  - rewrite Hlower. unfold Prisma.findUnique_email. cbn [Prisma.users].
    apply (find_app_last _ _ _ Hnew). cbn [Prisma.email].
    apply String.eqb_refl.
  - reflexivity.
  - cbn [comparePassword Prisma.password]. rewrite Hbcrypt. reflexivity.
Qed.

(** X11. Register, then ask for the profile.  When the ids of the table are
    below the next value of the sequence, the token answered by a registration
    that goes through verifies, and [/me] called with what it carries answers
    200 with the very user the registration answered. *)
Theorem register_then_me
        (now : Z) (salt : string) (st : Prisma.Store)
        (regBody req : RegisterBody) (p : string) :
  validateRegistration regBody = Next req ->
  Prisma.findUnique_email st (str (reg_email req)) = None ->
  reg_password regBody = JStr p ->
  Prisma.in_int_range (Prisma.nextId st) = true ->
  (forall u, In u (Prisma.users st) -> Prisma.id u < Prisma.nextId st) ->
  exists (user : Prisma.User) (token : Jwt.Token) (decoded : Jwt.Payload),
    fst (post_register now salt st regBody)
    = json 201 (Success (Some "User registered successfully")
                  (Some {| data_user := Some (sanitizeUser user);
                           data_token := Some token |}))
    /\ verifyToken now token = Ok decoded
    /\ get_me (snd (post_register now salt st regBody)) decoded
       = (json 200 (Success None
                      (Some {| data_user := Some (sanitizeUser user);
                               data_token := None |})),
          snd (post_register now salt st regBody)).
Proof.
  intros Hval Hnew Hpw Hrange Hbelow.
  rewrite (post_register_new now salt st _ _ p Hval Hnew Hpw Hrange).
  cbn [fst snd].
  eexists. eexists. eexists. split; [reflexivity|].
  split; [apply token_verifies_until_expiry; lia|].
  unfold get_me, Prisma.findUnique_where_id, Prisma.findUnique_id,
    generateToken, Jwt.sign.
  cbn [Prisma.users Jwt.payload Jwt.claims Jwt.userId].
  rewrite Hrange.
  rewrite (find_app_last _ _ _ (find_id_fresh st Hbelow))
    by (cbn [Prisma.id]; apply Z.eqb_refl).
  reflexivity.
Qed.

(** X12. The routes that only read.  Login, [/me], refresh and logout return
    the table they were given, whatever the request and whatever they
    answer. *)
Theorem read_only_routes
        (now : Z) (st : Prisma.Store) (loginBody : LoginBody)
        (reqUser : Jwt.Payload) :
  snd (post_login now st loginBody) = st
  /\ snd (get_me st reqUser) = st
  /\ snd (post_refresh now st reqUser) = st
  /\ snd (post_logout st reqUser) = st.
Proof.
  repeat split.
  - unfold post_login.
    destruct (validateLogin loginBody) as [req|res|error]; try reflexivity.
    cbv zeta.
    destruct (Prisma.findUnique_where_email st (login_email req))
      as [[user|]|err]; try reflexivity.
    destruct (negb (Prisma.isActive user)); [reflexivity|].
    destruct (comparePassword (login_password req) (Prisma.password user))
      as [ok|err]; [|reflexivity].
    destruct (negb ok); reflexivity.
  - unfold get_me.
    destruct (Prisma.findUnique_where_id st (Jwt.userId (Jwt.claims reqUser)))
      as [[user|]|err]; reflexivity.
Qed.

(** X13. A write needs a success.  Registration changes the table only when it
    answers 201; profile update and change of password only when they answer
    200.  Every other answer (400, 404, 409, 500) comes with the table as it
    was. *)
Theorem writes_only_on_success
        (now : Z) (salt : string) (st : Prisma.Store)
        (regBody : RegisterBody) (reqUser : Jwt.Payload)
        (profBody : ProfileBody) (cpBody : ChangePasswordBody) :
  (snd (post_register now salt st regBody) = st
   \/ status (fst (post_register now salt st regBody)) = 201)
  /\ (snd (put_profile now st reqUser profBody) = st
      \/ status (fst (put_profile now st reqUser profBody)) = 200)
  /\ (snd (put_change_password now salt st reqUser cpBody) = st
      \/ status (fst (put_change_password now salt st reqUser cpBody)) = 200).
Proof.
  split; [|split].
  - unfold post_register.
    destruct (validateRegistration regBody) as [req|res|error];
      try (left; reflexivity).
    cbv zeta.
    destruct (Prisma.findUnique_where_email st (reg_email req))
      as [[existing|]|err]; try (left; reflexivity).
    destruct (hashPassword salt (reg_password req)) as [hashed|err];
      [|left; reflexivity].
    destruct (Prisma.create _ _ _) as [[user st']|err];
      [right | left]; reflexivity.
  - unfold put_profile.
    destruct (validateProfileUpdate profBody) as [req|res|error];
      try (left; reflexivity).
    cbv zeta.
    destruct (Prisma.update _ _ _ _) as [[user st']|err];
      [right | left]; reflexivity.
  - unfold put_change_password.
    destruct (validateChangePassword cpBody) as [req|res|error];
      try (left; reflexivity).
    cbv zeta.
    destruct (Prisma.findUnique_where_id st (Jwt.userId (Jwt.claims reqUser)))
      as [[user|]|err]; try (left; reflexivity).
    destruct (comparePassword _ _) as [ok|err]; [|left; reflexivity].
    destruct (negb ok); [left; reflexivity|].
    destruct (hashPassword salt (newPassword req)) as [hashed|err];
      [|left; reflexivity].
    destruct (Prisma.update _ _ _ _) as [[user' st']|err];
      [right | left]; reflexivity.
Qed.

(** X14. A token whose user is gone.  When the id the token carries fits the
    [Int] column and no row has it, [/me] answers 404 and so does a change
    of password that passes validation, while a profile update that passes
    validation answers 500: the update of the missing row fails and the
    handler reports it as an internal error.  None of them writes. *)
Theorem vanished_user
        (now : Z) (salt : string) (st : Prisma.Store) (reqUser : Jwt.Payload)
        (profBody profReq : ProfileBody) (cpBody cpReq : ChangePasswordBody) :
  Prisma.in_int_range (Jwt.userId (Jwt.claims reqUser)) = true ->
  Prisma.findUnique_id st (Jwt.userId (Jwt.claims reqUser)) = None ->
  validateProfileUpdate profBody = Next profReq ->
  validateChangePassword cpBody = Next cpReq ->
  get_me st reqUser
  = (json 404 (Failure "User not found"
                 (Some "Your account could not be found") None), st)
  /\ put_change_password now salt st reqUser cpBody
     = (json 404 (Failure "User not found"
                    (Some "Your account could not be found") None), st)
  /\ put_profile now st reqUser profBody
     = (json 500 (Failure "Internal server error"
                    (Some "An error occurred while updating your profile")
                    None), st).
Proof.
  intros Hrange Hnone Hprof Hcp. split; [|split].
  - unfold get_me, Prisma.findUnique_where_id. rewrite Hrange, Hnone.
    reflexivity.
  - unfold put_change_password, Prisma.findUnique_where_id.
    rewrite Hcp. cbv zeta. rewrite Hrange, Hnone. reflexivity.
  - destruct (validateProfileUpdate_next _ _ Hprof) as [_ [Hn [Ha Hreq]]].
    unfold put_profile. rewrite Hprof. cbv zeta.
    unfold Prisma.update. rewrite Hrange, Hnone. cbn [negb].
    rewrite Hreq. cbn [prof_name prof_avatar Prisma.d_name Prisma.d_avatar].
    destruct (prof_name profBody); cbn [defined typeof_string] in *;
      try (discriminate (Hn eq_refl));
      destruct (prof_avatar profBody); cbn [defined typeof_string] in *;
      try (discriminate (Ha eq_refl)); reflexivity.
Qed.

(** X26. A token whose id does not fit the [Int] column.  The lookup by id
    throws, and the [catch] blocks answer 500: [/me], and a change of
    password or a profile update that passes validation.  None of them
    writes. *)
Theorem out_of_range_user
        (now : Z) (salt : string) (st : Prisma.Store) (reqUser : Jwt.Payload)
        (profBody profReq : ProfileBody) (cpBody cpReq : ChangePasswordBody) :
  Prisma.in_int_range (Jwt.userId (Jwt.claims reqUser)) = false ->
  validateProfileUpdate profBody = Next profReq ->
  validateChangePassword cpBody = Next cpReq ->
  get_me st reqUser
  = (json 500 (Failure "Internal server error"
                 (Some "An error occurred while fetching your profile") None),
     st)
  /\ put_change_password now salt st reqUser cpBody
     = (json 500 (Failure "Internal server error"
                    (Some "An error occurred while changing your password")
                    None), st)
  /\ put_profile now st reqUser profBody
     = (json 500 (Failure "Internal server error"
                    (Some "An error occurred while updating your profile")
                    None), st).
Proof.
  intros Hrange Hprof Hcp. split; [|split].
  - unfold get_me, Prisma.findUnique_where_id. rewrite Hrange. reflexivity.
  - unfold put_change_password, Prisma.findUnique_where_id.
    rewrite Hcp. cbv zeta. rewrite Hrange. reflexivity.
  - unfold put_profile. rewrite Hprof. cbv zeta.
    unfold Prisma.update. rewrite Hrange. reflexivity.
Qed.

Lemma find_id_replace_row_other (i j : Z) (row : Prisma.User)
      (rows : list Prisma.User) :
  j <> i ->
  Prisma.id row = i ->
  find (fun x => Prisma.id x =? j) (Prisma.replace_row i row rows)
  = find (fun x => Prisma.id x =? j) rows.
Proof.
  intros Hneq Hid. induction rows as [|x rest IH]; simpl.
  - reflexivity.
  - destruct (Prisma.id x =? i) eqn:Hx; simpl.
    + apply Z.eqb_eq in Hx.
      assert (Hr : (Prisma.id row =? j) = false) by (apply Z.eqb_neq; lia).
      assert (Hxj : (Prisma.id x =? j) = false) by (apply Z.eqb_neq; lia).
      rewrite Hr, Hxj. reflexivity.
    + rewrite IH. reflexivity.
Qed.

Lemma find_email_replace_row (i : Z) (e : string) (row u : Prisma.User)
      (rows : list Prisma.User) :
  find (fun x => Prisma.id x =? i) rows = Some u ->
  find (fun x => String.eqb (Prisma.email x) e) rows = Some u ->
  Prisma.email row = e ->
  find (fun x => String.eqb (Prisma.email x) e) (Prisma.replace_row i row rows)
  = Some row.
Proof.
  intros Hid Hemail Hrow. induction rows as [|x rest IH]; simpl in *.
  - discriminate.
  - destruct (Prisma.id x =? i) eqn:Hx; simpl.
    + rewrite Hrow, String.eqb_refl. reflexivity.
    + destruct (String.eqb (Prisma.email x) e) eqn:Hxe.
      * exfalso. inversion Hemail; subst x.
        apply find_some in Hid. destruct Hid as [_ Hid]. congruence.
      * apply IH; assumption.
Qed.

Lemma in_replace_row (i : Z) (row x : Prisma.User) (rows : list Prisma.User) :
  In x (Prisma.replace_row i row rows) -> x = row \/ In x rows.
Proof.
  induction rows as [|y rest IH]; simpl.
  - intros [].
  - destruct (Prisma.id y =? i); simpl.
    + intros [H|H]; auto.
    + intros [H|H]; auto. destruct (IH H); auto.
Qed.

Lemma map_replace_row {A : Type} (f : Prisma.User -> A) (i : Z)
      (row u : Prisma.User) (rows : list Prisma.User) :
  find (fun x => Prisma.id x =? i) rows = Some u ->
  f row = f u ->
  map f (Prisma.replace_row i row rows) = map f rows.
Proof.
  intros Hfind Hf. induction rows as [|x rest IH]; simpl in *.
  - reflexivity.
  - destruct (Prisma.id x =? i); simpl.
    + inversion Hfind; subst. rewrite Hf. reflexivity.
    + rewrite IH by assumption. reflexivity.
Qed.

(** What a change of password that goes through answers and writes. *)
Lemma put_change_password_ok
      (now : Z) (salt : string) (st : Prisma.Store) (reqUser : Jwt.Payload)
      (reqBody req : ChangePasswordBody) (user : Prisma.User) (p : string) :
  validateChangePassword reqBody = Next req ->
  Prisma.in_int_range (Jwt.userId (Jwt.claims reqUser)) = true ->
  Prisma.findUnique_id st (Jwt.userId (Jwt.claims reqUser)) = Some user ->
  comparePassword (currentPassword reqBody) (Prisma.password user) = Ok true ->
  newPassword reqBody = JStr p ->
  put_change_password now salt st reqUser reqBody
  = (json 200 (Success (Some "Password changed successfully") None),
     {| Prisma.users :=
          Prisma.replace_row (Jwt.userId (Jwt.claims reqUser))
            (Prisma.apply now
               {| Prisma.d_name := JUndefined;
                  Prisma.d_avatar := JUndefined;
                  Prisma.d_password := Some (bcrypt_hash p 12 salt) |}
               user)
            (Prisma.users st);
        Prisma.nextId := Prisma.nextId st |}).
Proof.
  intros Hval Hrange Hfind Hcmp Hnew.
  assert (Hreq : req = reqBody).
  { apply validateChangePassword_next_iff in Hval.
    destruct Hval as (_ & _ & _ & H). exact H. }
  subst req.
  unfold put_change_password. rewrite Hval. cbv zeta.
  unfold Prisma.findUnique_where_id. rewrite Hrange, Hfind, Hcmp.
  cbn [negb]. rewrite Hnew. cbn [hashPassword].
  unfold Prisma.update. rewrite Hrange, Hfind. reflexivity.
Qed.

(** X15. A change of password that goes through.  For a request that passes
    validation with a string for the new password, a stored user and a
    current password that bcrypt finds to match, the answer is 200 without a
    token; the row of the user now holds the hash of the new password and
    the clock reading as [updatedAt], and its [id], [email], [name],
    [avatar], [isActive] and [createdAt] are what they were.  No row is
    added or removed. *)
Theorem change_password_success
        (now : Z) (salt : string) (st : Prisma.Store) (reqUser : Jwt.Payload)
        (reqBody req : ChangePasswordBody) (user : Prisma.User) (p : string) :
  validateChangePassword reqBody = Next req ->
  Prisma.in_int_range (Jwt.userId (Jwt.claims reqUser)) = true ->
  Prisma.findUnique_id st (Jwt.userId (Jwt.claims reqUser)) = Some user ->
  comparePassword (currentPassword reqBody) (Prisma.password user) = Ok true ->
  newPassword reqBody = JStr p ->
  exists (updated : Prisma.User) (st' : Prisma.Store),
    put_change_password now salt st reqUser reqBody
    = (json 200 (Success (Some "Password changed successfully") None), st')
    /\ Prisma.findUnique_id st' (Jwt.userId (Jwt.claims reqUser)) = Some updated
    /\ hashPassword salt (newPassword reqBody) = Ok (Prisma.password updated)
    /\ Prisma.password updated = bcrypt_hash p 12 salt
    /\ Prisma.id updated = Prisma.id user
    /\ Prisma.email updated = Prisma.email user
    /\ Prisma.name updated = Prisma.name user
    /\ Prisma.avatar updated = Prisma.avatar user
    /\ Prisma.isActive updated = Prisma.isActive user
    /\ Prisma.createdAt updated = Prisma.createdAt user
    /\ Prisma.updatedAt updated = now
    /\ map Prisma.id (Prisma.users st') = map Prisma.id (Prisma.users st)
    /\ Prisma.nextId st' = Prisma.nextId st.
Proof.
  intros Hval Hrange Hfind Hcmp Hnew.
  destruct (find_id_some _ _ _ Hfind) as [_ Hid].
  rewrite (put_change_password_ok now salt st reqUser _ _ user p
             Hval Hrange Hfind Hcmp Hnew).
  eexists. eexists. split; [reflexivity|].
  split.
  { unfold Prisma.findUnique_id. cbn [Prisma.users].
    apply (find_id_replace_row _ _ _ user); [exact Hfind | exact Hid]. }
  rewrite Hnew.
  cbn [hashPassword Prisma.apply Prisma.set_column Prisma.id Prisma.email
       Prisma.password Prisma.name Prisma.avatar Prisma.isActive
       Prisma.createdAt Prisma.updatedAt Prisma.d_name Prisma.d_avatar
       Prisma.d_password Prisma.users Prisma.nextId].
  repeat split.
  apply (map_replace_row Prisma.id _ _ user); [exact Hfind | reflexivity].
Qed.

(** X16. A change of password with the wrong current password.  For a request
    that passes validation and a stored user, a current password that bcrypt
    finds not to match the stored hash is answered 400 (not 401) with
    [Invalid current password], and nothing is written. *)
Theorem change_password_wrong_current
        (now : Z) (salt : string) (st : Prisma.Store) (reqUser : Jwt.Payload)
        (reqBody req : ChangePasswordBody) (user : Prisma.User) :
  validateChangePassword reqBody = Next req ->
  Prisma.in_int_range (Jwt.userId (Jwt.claims reqUser)) = true ->
  Prisma.findUnique_id st (Jwt.userId (Jwt.claims reqUser)) = Some user ->
  comparePassword (currentPassword reqBody) (Prisma.password user) = Ok false ->
  put_change_password now salt st reqUser reqBody
  = (json 400 (Failure "Invalid current password"
                 (Some "The current password you entered is incorrect") None),
     st).
Proof.
  intros Hval Hrange Hfind Hcmp.
  assert (Hreq : req = reqBody).
  { apply validateChangePassword_next_iff in Hval.
    destruct Hval as (_ & _ & _ & H). exact H. }
  subst req.
  unfold put_change_password. rewrite Hval. cbv zeta.
  unfold Prisma.findUnique_where_id. rewrite Hrange, Hfind, Hcmp.
  reflexivity.
Qed.

(** X27. A change of password with a password that is not a string.  For a
    request that passes validation and a stored user, a current password
    that is not a string, or a new password that is not a string after a
    current password that matches, makes bcrypt reject the call: the
    [catch] block answers 500 and nothing is written. *)
Theorem change_password_non_string_fails
        (now : Z) (salt : string) (st : Prisma.Store) (reqUser : Jwt.Payload)
        (reqBody req : ChangePasswordBody) (user : Prisma.User) :
  validateChangePassword reqBody = Next req ->
  Prisma.in_int_range (Jwt.userId (Jwt.claims reqUser)) = true ->
  Prisma.findUnique_id st (Jwt.userId (Jwt.claims reqUser)) = Some user ->
  typeof_string (currentPassword reqBody) = false
  \/ (comparePassword (currentPassword reqBody) (Prisma.password user) = Ok true
      /\ typeof_string (newPassword reqBody) = false) ->
  put_change_password now salt st reqUser reqBody
  = (json 500 (Failure "Internal server error"
                 (Some "An error occurred while changing your password") None),
     st).
Proof.
  intros Hval Hrange Hfind Hcase.
  assert (Hreq : req = reqBody).
  { apply validateChangePassword_next_iff in Hval.
    destruct Hval as (_ & _ & _ & H). exact H. }
  subst req.
  unfold put_change_password. rewrite Hval. cbv zeta.
  unfold Prisma.findUnique_where_id. rewrite Hrange, Hfind.
  destruct Hcase as [Hcur|[Hcmp Hnew]].
  - destruct (currentPassword reqBody); try discriminate Hcur; reflexivity.
  - rewrite Hcmp. cbn [negb].
    destruct (newPassword reqBody); try discriminate Hnew; reflexivity.
Qed.

(** X17. Change the password, then log in with the new one.  After a change of
    password that goes through for an active user whose stored email is of
    the accepted shape and in lower case, a login with that email and the new
    password is answered 200 with the updated user, provided bcrypt verifies
    the new password against the hash it made of it. *)
Theorem change_password_then_login
        (now later : Z) (salt : string) (st : Prisma.Store)
        (reqUser : Jwt.Payload) (reqBody req : ChangePasswordBody)
        (user : Prisma.User) (p : string) :
  validateChangePassword reqBody = Next req ->
  Prisma.in_int_range (Jwt.userId (Jwt.claims reqUser)) = true ->
  Prisma.findUnique_id st (Jwt.userId (Jwt.claims reqUser)) = Some user ->
  Prisma.findUnique_email st (Prisma.email user) = Some user ->
  isValidEmail (JStr (Prisma.email user)) = Ok true ->
  toLowerCase (Prisma.email user) = Prisma.email user ->
  Prisma.isActive user = true ->
  comparePassword (currentPassword reqBody) (Prisma.password user) = Ok true ->
  newPassword reqBody = JStr p ->
  bcrypt_compare p (bcrypt_hash p 12 salt) = true ->
  exists updated : Prisma.User,
    Prisma.findUnique_id (snd (put_change_password now salt st reqUser reqBody))
                         (Jwt.userId (Jwt.claims reqUser)) = Some updated
    /\ post_login later (snd (put_change_password now salt st reqUser reqBody))
         {| login_email := JStr (Prisma.email user);
            login_password := newPassword reqBody |}
       = (json 200
            (Success (Some "Login successful")
               (Some {| data_user := Some (sanitizeUser updated);
                        data_token :=
                          Some (generateToken later
                                  {| Jwt.userId := Prisma.id user;
                                     Jwt.email := Prisma.email user |}
                                  None) |})),
          snd (put_change_password now salt st reqUser reqBody)).
Proof.
  intros Hval Hrange Hfind Hemail Hvalid Hlower Hactive Hcmp Hnew Hbcrypt.
  apply isValidEmail_test in Hvalid.
  pose proof Hval as Hacc. apply validateChangePassword_next_iff in Hacc.
  destruct Hacc as (_ & Hvp & _ & _).
  assert (Hpne : truthy (JStr p) = true).
  { rewrite Hnew, validatePassword_string in Hvp.
    cbn [truthy]. destruct (String.eqb p ""); [|reflexivity].
    inversion Hvp. }
  destruct (find_id_some _ _ _ Hfind) as [_ Hid].
  rewrite (put_change_password_ok now salt st reqUser _ _ user p
             Hval Hrange Hfind Hcmp Hnew).
  cbn [snd]. eexists. split.
  { unfold Prisma.findUnique_id. cbn [Prisma.users].
    apply (find_id_replace_row _ _ _ user); [exact Hfind | exact Hid]. }
  assert (Hlogin :
            validateLogin {| login_email := JStr (Prisma.email user);
                             login_password := newPassword reqBody |}
            = Next {| login_email := JStr (toLowerCase (Prisma.email user));
                      login_password := JStr p |}).
  { apply validateLogin_next_iff. exists (Prisma.email user).
    cbn [login_email login_password]. rewrite Hnew. auto. }
  rewrite (post_login_ok later _ _ _
             (Prisma.apply now
                {| Prisma.d_name := JUndefined;
                   Prisma.d_avatar := JUndefined;
                   Prisma.d_password := Some (bcrypt_hash p 12 salt) |}
                user) Hlogin).
  - reflexivity.
  - cbn [login_email str]. rewrite Hlower.
    unfold Prisma.findUnique_email. cbn [Prisma.users].
    apply (find_email_replace_row _ _ _ user _ Hfind Hemail). reflexivity.
  - cbn [Prisma.apply Prisma.isActive]. exact Hactive.
  - cbn [login_password comparePassword Prisma.apply Prisma.password
         Prisma.d_password].
    rewrite Hbcrypt. reflexivity.
Qed.

(** What an update that goes through leaves of the other rows. *)
Lemma update_other_rows
      (now : Z) (st st' : Prisma.Store) (i other : Z)
      (data : Prisma.UpdateData) (row : Prisma.User) :
  other <> i ->
  Prisma.update now st i data = Ok (row, st') ->
  Prisma.findUnique_id st' other = Prisma.findUnique_id st other.
Proof.
  intros Hother H. unfold Prisma.update in H.
  destruct (negb (Prisma.in_int_range i)); [discriminate H|].
  destruct (negb (Prisma.column_arg (Prisma.d_name data)
                  && Prisma.column_arg (Prisma.d_avatar data)));
    [discriminate H|].
  destruct (Prisma.findUnique_id st i) as [u|] eqn:Hfind; [|discriminate H].
  destruct (Prisma.no_data data).
  - inversion H; subst. reflexivity.
  - inversion H; subst. unfold Prisma.findUnique_id. cbn [Prisma.users].
    apply find_id_replace_row_other; [exact Hother|].
    cbn [Prisma.apply Prisma.id].
    destruct (find_id_some _ _ _ Hfind) as [_ Hx]. exact Hx.
Qed.

(** X18. Nobody else's row.  A profile update or a change of password made
    with the token of one user leaves the row of every other id as it was,
    whatever the request and whatever the answer. *)
Theorem other_rows_untouched
        (now : Z) (salt : string) (st : Prisma.Store) (reqUser : Jwt.Payload)
        (profBody : ProfileBody) (cpBody : ChangePasswordBody) (other : Z) :
  other <> Jwt.userId (Jwt.claims reqUser) ->
  Prisma.findUnique_id (snd (put_profile now st reqUser profBody)) other
  = Prisma.findUnique_id st other
  /\ Prisma.findUnique_id
       (snd (put_change_password now salt st reqUser cpBody)) other
     = Prisma.findUnique_id st other.
Proof.
  intros Hother. split.
  - unfold put_profile.
    destruct (validateProfileUpdate profBody) as [req|res|error];
      try reflexivity.
    cbv zeta.
    destruct (Prisma.update _ _ _ _) as [[user st']|err] eqn:Hu;
      [|reflexivity].
    cbn [snd]. eapply update_other_rows; [exact Hother | exact Hu].
  - unfold put_change_password.
    destruct (validateChangePassword cpBody) as [req|res|error];
      try reflexivity.
    cbv zeta.
    destruct (Prisma.findUnique_where_id st (Jwt.userId (Jwt.claims reqUser)))
      as [[user|]|err]; try reflexivity.
    destruct (comparePassword _ _) as [ok|err]; [|reflexivity].
    destruct (negb ok); [reflexivity|].
    destruct (hashPassword salt (newPassword req)) as [hashed|err];
      [|reflexivity].
    destruct (Prisma.update _ _ _ _) as [[user' st']|err] eqn:Hu;
      [|reflexivity].
    cbn [snd]. eapply update_other_rows; [exact Hother | exact Hu].
Qed.

(** *** What the routes keep true of the table *)

Lemma NoDup_snoc {A : Type} (l : list A) (x : A) :
  NoDup l -> ~ In x l -> NoDup (l ++ [x]).
Proof.
  intros Hnd Hx. induction Hnd as [|y l Hy Hnd IH]; simpl.
  - constructor; [intros [] | constructor].
  - constructor.
    + intros Hin. apply in_app_or in Hin. destruct Hin as [Hin|[Hin|[]]].
      * contradiction.
      * subst. apply Hx. left. reflexivity.
    + apply IH. intros Hin. apply Hx. right. exact Hin.
Qed.

Lemma create_keeps_store_ok
      (now : Z) (st st' : Prisma.Store) (data : Prisma.CreateData)
      (row : Prisma.User) :
  store_ok st ->
  (forall e, Prisma.c_email data = JStr e ->
             test emailRegex e = true /\ toLowerCase e = e) ->
  (forall n, Prisma.c_name data = JStr n ->
             0 < js_length n <= 50 /\ trim n = n) ->
  Prisma.create now st data = Ok (row, st') ->
  store_ok st'.
Proof.
  intros [[Hids Hbelow] [[Hemails Hshape] Hnames]] Hemail Hname Hcreate.
  unfold Prisma.create in Hcreate.
  destruct (Prisma.c_email data) as [| | | |e| |] eqn:He;
    try discriminate Hcreate.
  destruct (Prisma.nullable_string (Prisma.c_name data)) as [n|] eqn:Hn;
    [|discriminate Hcreate].
  destruct (Prisma.findUnique_email st e) as [u|] eqn:Hnew;
    [discriminate Hcreate|].
  destruct (Prisma.in_int_range (Prisma.nextId st)); [|discriminate Hcreate].
  inversion Hcreate; subst row st'. clear Hcreate.
  split; [|split].
  - split; cbn [Prisma.users Prisma.nextId].
    + rewrite map_app. cbn [map Prisma.id]. apply NoDup_snoc; [exact Hids|].
      intros Hin. apply in_map_iff in Hin. destruct Hin as [u [Hu Hin]].
      specialize (Hbelow u Hin). lia.
    + intros u Hin. apply in_app_or in Hin. destruct Hin as [Hin|[Hin|[]]].
      * specialize (Hbelow u Hin). lia.
      * subst u. cbn [Prisma.id]. lia.
  - split; cbn [Prisma.users].
    + rewrite map_app. cbn [map Prisma.email]. apply NoDup_snoc; [exact Hemails|].
      intros Hin. apply in_map_iff in Hin. destruct Hin as [u [Hu Hin]].
      apply (find_email_none_not_in _ _ _ Hnew Hin). exact Hu.
    + intros u Hin. apply in_app_or in Hin. destruct Hin as [Hin|[Hin|[]]].
      * apply Hshape. exact Hin.
      * subst u. cbn [Prisma.email]. apply Hemail. reflexivity.
  - intros u m Hin Hm. cbn [Prisma.users] in Hin.
    apply in_app_or in Hin. destruct Hin as [Hin|[Hin|[]]].
    + apply (Hnames u m Hin Hm).
    + subst u. cbn [Prisma.name] in Hm. subst n.
      destruct (Prisma.c_name data); try discriminate Hn.
      inversion Hn; subst. apply Hname. reflexivity.
Qed.

Lemma post_register_keeps_store_ok
      (now : Z) (salt : string) (st : Prisma.Store) (regBody : RegisterBody) :
  store_ok st -> store_ok (snd (post_register now salt st regBody)).
Proof.
  intros Hok. unfold post_register.
  destruct (validateRegistration regBody) as [req|res|error] eqn:Hval;
    try exact Hok.
  cbv zeta.
  destruct (Prisma.findUnique_where_email st (reg_email req))
    as [[existing|]|err]; try exact Hok.
  destruct (hashPassword salt (reg_password req)) as [hashed|err];
    [|exact Hok].
  destruct (Prisma.create _ _ _) as [[user st']|err] eqn:Hcreate;
    [|exact Hok].
  cbn [snd]. pose proof (validated_name _ _ Hval) as Hvn.
  apply validateRegistration_next_iff in Hval.
  destruct Hval as (e & He & Ht & _ & Hname & Hreq).
  destruct (emailRegex_normalisation e Ht) as [_ [Hlow _]].
  eapply create_keeps_store_ok; [exact Hok | | | exact Hcreate].
  - cbn [Prisma.c_email]. rewrite Hreq. cbn [reg_email].
    intros x Hx. inversion Hx; subst x.
    split; [exact Hlow | apply toLowerCase_idem].
  - cbn [Prisma.c_name]. intros n Hn.
    rewrite Hn in Hvn. cbn [Prisma.nullable_string] in Hvn.
    destruct Hname as [Hfalsy|[m [Hm [Hpos Hlen]]]].
    + rewrite Hfalsy in Hvn. discriminate Hvn.
    + rewrite Hm in Hvn. cbn [str] in Hvn.
      destruct (truthy (JStr m)); [|discriminate Hvn].
      inversion Hvn; subst n.
      pose proof (trim_length m). split; [lia | apply trim_idem].
Qed.

Lemma update_keeps_store_ok
      (now : Z) (st st' : Prisma.Store) (i : Z) (data : Prisma.UpdateData)
      (row : Prisma.User) :
  store_ok st ->
  match Prisma.d_name data with
  | JUndefined => True
  | JStr n => 0 < js_length n <= 50 /\ trim n = n
  | _ => False
  end ->
  Prisma.update now st i data = Ok (row, st') ->
  store_ok st'.
Proof.
  intros Hok Hdata Hupdate.
  unfold Prisma.update in Hupdate.
  destruct (negb (Prisma.in_int_range i)); [discriminate Hupdate|].
  destruct (negb (Prisma.column_arg (Prisma.d_name data)
                  && Prisma.column_arg (Prisma.d_avatar data)));
    [discriminate Hupdate|].
  destruct (Prisma.findUnique_id st i) as [u|] eqn:Hfind; [|discriminate Hupdate].
  destruct (Prisma.no_data data);
    inversion Hupdate; subst row st'; clear Hupdate; [exact Hok|].
  destruct Hok as [[Hids Hbelow] [[Hemails Hshape] Hnames]].
  unfold Prisma.findUnique_id in Hfind.
  pose proof (find_some _ _ Hfind) as [Hu _].
  split; [|split].
  - split; cbn [Prisma.users Prisma.nextId].
    + rewrite (map_replace_row Prisma.id _ _ u) by (auto; reflexivity).
      exact Hids.
    + intros x Hin. apply in_replace_row in Hin. destruct Hin as [Hx|Hin].
      * subst x. cbn [Prisma.apply Prisma.id]. apply Hbelow. exact Hu.
      * apply Hbelow. exact Hin.
  - split; cbn [Prisma.users].
    + rewrite (map_replace_row Prisma.email _ _ u) by (auto; reflexivity).
      exact Hemails.
    + intros x Hin. apply in_replace_row in Hin. destruct Hin as [Hx|Hin].
      * subst x. cbn [Prisma.apply Prisma.email]. apply Hshape. exact Hu.
      * apply Hshape. exact Hin.
  - intros x n Hin Hn. cbn [Prisma.users] in Hin.
    apply in_replace_row in Hin. destruct Hin as [Hx|Hin].
    + subst x. cbn [Prisma.apply Prisma.name] in Hn.
      destruct (Prisma.d_name data) as [| | | |m| |];
        cbn [Prisma.set_column] in Hn; try contradiction.
      * apply (Hnames u n Hu Hn).
      * inversion Hn; subst. exact Hdata.
    + apply (Hnames x n Hin Hn).
Qed.

(** X19. What every write keeps.  When, in the table, ids are distinct and
    below the next value of the sequence, emails are distinct, of the accepted
    shape and in lower case, and names have between 1 and 50 characters with no
    white space around them, the same holds of the table after a
    registration, a profile update or a change of password, whatever the
    request and whatever the answer. *)
Theorem writes_keep_store_ok
        (now : Z) (salt : string) (st : Prisma.Store)
        (regBody : RegisterBody) (reqUser : Jwt.Payload)
        (profBody : ProfileBody) (cpBody : ChangePasswordBody) :
  store_ok st ->
  store_ok (snd (post_register now salt st regBody))
  /\ store_ok (snd (put_profile now st reqUser profBody))
  /\ store_ok (snd (put_change_password now salt st reqUser cpBody)).
Proof.
  intros Hok. split; [|split].
  - apply post_register_keeps_store_ok. exact Hok.
  - unfold put_profile.
    destruct (validateProfileUpdate profBody) as [req|res|error] eqn:Hval;
      try exact Hok.
    cbv zeta.
    destruct (Prisma.update _ _ _ _) as [[user st']|err] eqn:Hu; [|exact Hok].
    cbn [snd]. eapply update_keeps_store_ok; [exact Hok | | exact Hu].
    cbn [Prisma.d_name].
    apply validateProfileUpdate_next_iff in Hval.
    destruct Hval as (Hn & _ & Hreq). rewrite Hreq. cbn [prof_name].
    destruct (prof_name profBody) as [| | | |n| |]; cbn [defined];
      try contradiction; [exact I|].
    pose proof (trim_length n). split; [lia | apply trim_idem].
  - unfold put_change_password.
    destruct (validateChangePassword cpBody) as [req|res|error];
      try exact Hok.
    cbv zeta.
    destruct (Prisma.findUnique_where_id st (Jwt.userId (Jwt.claims reqUser)))
      as [[user|]|err]; try exact Hok.
    destruct (comparePassword _ _) as [ok|err]; [|exact Hok].
    destruct (negb ok); [exact Hok|].
    destruct (hashPassword salt (newPassword req)) as [hashed|err];
      [|exact Hok].
    destruct (Prisma.update _ _ _ _) as [[user' st']|err] eqn:Hu; [|exact Hok].
    cbn [snd]. eapply update_keeps_store_ok; [exact Hok | | exact Hu].
    exact I.
Qed.

(** *** Tokens *)

(** X21. How long a token lasts.  A token issued by [generateToken], with the
    default or with a given [expiresIn], verifies exactly while the clock, in
    whole seconds, is before [iat] plus the span: at the second of expiry
    itself it is already refused with [TokenExpiredError], and it is never
    refused as invalid. *)
Theorem token_valid_exactly_until_expiry
        (issued later : Z) (payload : Jwt.Claims)
        (expiresIn : option Jwt.timespan) :
  verifyToken later (generateToken issued payload expiresIn)
  = if Jwt.clockTimestamp later
       <? Jwt.clockTimestamp issued
          + Jwt.span_seconds (match expiresIn with
                              | Some e => e
                              | None => Jwt.Days 7
                              end)
    then Ok {| Jwt.claims := payload;
               Jwt.iat := Jwt.clockTimestamp issued;
               Jwt.exp := Jwt.clockTimestamp issued
                          + Jwt.span_seconds (match expiresIn with
                                              | Some e => e
                                              | None => Jwt.Days 7
                                              end) |}
    else Err Jwt.TokenExpiredError.
Proof.
  unfold verifyToken, generateToken, Jwt.verify, Jwt.sign.
  cbn [Jwt.key Jwt.payload Jwt.exp]. rewrite String.eqb_refl. cbn [negb].
  rewrite Z.ltb_antisym. destruct (_ <=? _); reflexivity.
Qed.

Lemma NoDup_map_eq {A B : Type} (f : A -> B) (l : list A) (x y : A) :
  NoDup (map f l) -> In x l -> In y l -> f x = f y -> x = y.
Proof.
  intros Hnd. induction l as [|z l IH]; simpl in *; intros Hx Hy Hf.
  - destruct Hx.
  - inversion Hnd as [|? ? Hz Hnd']; subst.
    destruct Hx as [Hx|Hx]; destruct Hy as [Hy|Hy]; subst.
    + reflexivity.
    + exfalso. apply Hz. rewrite Hf. apply in_map. exact Hy.
    + exfalso. apply Hz. rewrite <- Hf. apply in_map. exact Hx.
    + apply IH; assumption.
Qed.

(** X20. Who can log in.  In a table whose emails are distinct, of the
    accepted shape and in lower case, every active user is reached by a login
    that gives the stored email, in any mix of upper and lower case, and a
    non-empty password that verifies against the stored hash: the answer is
    200 with that user, and no other. *)
Theorem stored_user_can_login
        (now : Z) (st : Prisma.Store) (user : Prisma.User)
        (loginEmail password : string) :
  emails_ok st ->
  In user (Prisma.users st) ->
  Prisma.isActive user = true ->
  isValidEmail (JStr loginEmail) = Ok true ->
  toLowerCase loginEmail = Prisma.email user ->
  password <> "" ->
  comparePassword (JStr password) (Prisma.password user) = Ok true ->
  post_login now st {| login_email := JStr loginEmail;
                       login_password := JStr password |}
  = (json 200
       (Success (Some "Login successful")
          (Some {| data_user := Some (sanitizeUser user);
                   data_token :=
                     Some (generateToken now
                             {| Jwt.userId := Prisma.id user;
                                Jwt.email := Prisma.email user |} None) |})),
     st).
Proof.
  intros [Hemails _] Hin Hactive Hvalid Hlower Hpw Hcmp.
  apply isValidEmail_test in Hvalid.
  assert (Hlogin :
            validateLogin {| login_email := JStr loginEmail;
                             login_password := JStr password |}
            = Next {| login_email := JStr (toLowerCase loginEmail);
                      login_password := JStr password |}).
  { apply validateLogin_next_iff. exists loginEmail.
    cbn [login_email login_password]. repeat split; auto.
    apply truthy_string. exact Hpw. }
  destruct (find_email_in st _ user Hin eq_refl) as [found [Hfind [Hfin Hfe]]].
  assert (Hsame : found = user)
    by (apply (NoDup_map_eq Prisma.email (Prisma.users st)); assumption).
  subst found.
  apply (post_login_ok _ _ _ _ _ Hlogin); cbn [login_email login_password str].
  - rewrite Hlower. exact Hfind.
  - exact Hactive.
  - exact Hcmp.
Qed.

(** X28. An email that is not a string.  When a register or login request
    gives for email an array or an object that prints as a string of the
    accepted shape (an array of one valid address does), the email tests
    pass and the validator throws at [email.toLowerCase()]; if nothing else
    is wrong with the request, the error handler of the server answers 500
    [An unexpected error occurred], and nothing is written. *)
Theorem non_string_email_throws
        (now : Z) (salt : string) (st : Prisma.Store)
        (email password : jsval) (printed : string) :
  isObject email = true ->
  toString email = Ok printed ->
  test emailRegex printed = true ->
  truthy password = true ->
  validateLogin {| login_email := email; login_password := password |}
  = Throw TypeError
  /\ post_login now st {| login_email := email; login_password := password |}
     = (json 500 (Failure "Internal server error"
                    (Some "An unexpected error occurred") None), st)
  /\ (validatePassword password = Ok {| isValid := true; errors := [] |} ->
      post_register now salt st
        {| reg_email := email; reg_password := password;
           reg_name := JUndefined |}
      = (json 500 (Failure "Internal server error"
                     (Some "An unexpected error occurred") None), st)).
Proof.
  intros Hobj Hprint Htest Hpw.
  assert (Hemail : forall errs, emailErrors email errs = Ok errs).
  { intros errs. unfold emailErrors, isValidEmail.
    rewrite Hprint. cbn [bind]. rewrite Htest.
    destruct email; try discriminate Hobj; reflexivity. }
  assert (Hlower : call_toLowerCase email = Err TypeError)
    by (destruct email; try discriminate Hobj; reflexivity).
  assert (Hlogin : validateLogin {| login_email := email;
                                    login_password := password |}
                   = Throw TypeError).
  { unfold validateLogin, loginErrors. cbn [login_email login_password].
    rewrite Hemail. cbn [bind]. rewrite Hpw. cbn [negb pushIf List.length
                                                    Z.of_nat Z.gtb Z.compare].
    rewrite Hlower. reflexivity. }
  split; [exact Hlogin|]. split.
  - unfold post_login. rewrite Hlogin. reflexivity.
  - intros Hvp. unfold post_register, validateRegistration, registrationErrors.
    cbn [reg_email reg_password reg_name]. cbv zeta.
    rewrite Hemail, Hvp. cbn [bind isValid negb truthy andb pushIf List.length
                              Z.of_nat Z.gtb Z.compare].
    rewrite Hlower. reflexivity.
Qed.

End AuthApi.

(** ** Beyond the claims: the signing key *)

(** X22. Which key signs.  A token issued by a server that has no [JWT_SECRET]
    in its environment is signed with the fallback key.  A server whose
    [JWT_SECRET] is unset, empty or the fallback string itself treats it as
    its own token; a server with any other [JWT_SECRET] refuses it with
    [JsonWebTokenError], before looking at its expiry. *)
Theorem token_from_unset_secret
        (env : option string) (issued later : Z) (payload : Jwt.Claims)
        (expiresIn : option Jwt.timespan) :
  verifyToken env later (generateToken None issued payload expiresIn)
  = if truthy (env_value env)
       && negb (String.eqb (str (env_value env))
                           "your-super-secret-jwt-key-change-in-production")
    then Err Jwt.JsonWebTokenError
    else verifyToken None later (generateToken None issued payload expiresIn).
Proof.
  unfold verifyToken, generateToken, Jwt.verify, Jwt.sign, JWT_SECRET.
  cbn [Jwt.key Jwt.payload Jwt.exp truthy env_value].
  destruct env as [k|]; cbn [truthy str andb env_value].
  - destruct (String.eqb_spec k "") as [Hz|Hnz]; cbn [negb andb].
    + reflexivity.
    + rewrite (String.eqb_sym k).
      destruct (String.eqb
                  "your-super-secret-jwt-key-change-in-production" k);
        reflexivity.
  - reflexivity.
Qed.

(** ** The helpers on concrete values *)

Example isValidEmail_plain :
  isValidEmail Demo.toStringOf (JStr "user@example.com") = Ok true.
Proof. vm_compute. reflexivity. Qed.

Example isValidEmail_subdomain :
  isValidEmail Demo.toStringOf (JStr "user@mail.example.com") = Ok true.
Proof. vm_compute. reflexivity. Qed.

Example isValidEmail_no_dot :
  isValidEmail Demo.toStringOf (JStr "user@examplecom") = Ok false.
Proof. vm_compute. reflexivity. Qed.

Example isValidEmail_space :
  isValidEmail Demo.toStringOf (JStr "us er@example.com") = Ok false.
Proof. vm_compute. reflexivity. Qed.

Example isValidEmail_two_ats :
  isValidEmail Demo.toStringOf (JStr "user@@example.com") = Ok false.
Proof. vm_compute. reflexivity. Qed.

Example isValidEmail_dot_first :
  isValidEmail Demo.toStringOf (JStr "user@.com") = Ok false.
Proof. vm_compute. reflexivity. Qed.

Example isValidEmail_number :
  isValidEmail Demo.toStringOf (JNum 42) = Ok false.
Proof. vm_compute. reflexivity. Qed.

Example isValidEmail_array_of_one :
  isValidEmail Demo.toStringOf (JArr [JStr "user@example.com"]) = Ok true.
Proof. vm_compute. reflexivity. Qed.

Example trim_both_ends : trim "  Jane Doe  " = "Jane Doe".
Proof. vm_compute. reflexivity. Qed.

Example toLowerCase_email : toLowerCase "User@Example.COM" = "user@example.com".
Proof. vm_compute. reflexivity. Qed.

Example replace_first_only :
  replace "Password" "New password" "Password is required"
  = "New password is required".
Proof. vm_compute. reflexivity. Qed.

Example validatePassword_short :
  validatePassword Demo.lessThan Demo.greaterThan (JStr "abc")
  = Ok {| isValid := false;
          errors := ["Password must be at least 6 characters long"] |}.
Proof. vm_compute. reflexivity. Qed.

Example validatePassword_missing :
  validatePassword Demo.lessThan Demo.greaterThan JUndefined
  = Ok {| isValid := false; errors := ["Password is required"] |}.
Proof. vm_compute. reflexivity. Qed.

Example validatePassword_number :
  validatePassword Demo.lessThan Demo.greaterThan (JNum 1234567)
  = Ok {| isValid := true; errors := [] |}.
Proof. vm_compute. reflexivity. Qed.

Example changePasswordErrors_all_missing :
  changePasswordErrors Demo.lessThan Demo.greaterThan
    {| currentPassword := JUndefined; newPassword := JUndefined |}
  = Ok ["Current password is required"; "New password is required";
        "New password must be different from current password"].
Proof. vm_compute. reflexivity. Qed.

Example login_alice :
  status (fst (post_login Demo.toStringOf None Demo.compare 5000 Demo.store
                 {| login_email := JStr "alice@example.com";
                    login_password := JStr "password123" |})) = 200.
Proof. vm_compute. reflexivity. Qed.

(** ** The claims on concrete requests *)

(** Discharges the hypotheses of an instance [H] of a theorem by running the
    definitions on the concrete request. *)
Ltac discharge H :=
  cbv zeta in H;
  repeat lazymatch type of H with
         | ?A -> _ =>
             let Hyp := fresh "Hyp" in
             assert (Hyp : A)
               by (lazymatch A with
                   | _ <> _ => discriminate
                   | _ => vm_compute;
                          first [ reflexivity | left; reflexivity | lia ]
                   end);
             specialize (H Hyp)
         end.

Lemma token_expiry_window_witness :
  verifyToken None 605801000
    (generateToken None 1000000
       {| Jwt.userId := 1; Jwt.email := "alice@example.com" |} None)
  = Err Jwt.TokenExpiredError
  /\ verifyToken None 605799999
       (generateToken None 1000000
          {| Jwt.userId := 1; Jwt.email := "alice@example.com" |} None)
     = Ok {| Jwt.claims := {| Jwt.userId := 1; Jwt.email := "alice@example.com" |};
             Jwt.iat := 1000;
             Jwt.exp := 605800 |}.
Proof.
  pose proof (token_expiry_window None 1000000 605801000 605799999
                {| Jwt.userId := 1; Jwt.email := "alice@example.com" |}) as H.
  discharge H.
  destruct H as [Hlate [Hearly _]].
  split; [exact Hlate | exact Hearly].
Defined.

Lemma register_non_string_password_fails_witness :
  validateRegistration Demo.toStringOf Demo.lessThan Demo.greaterThan
    {| reg_email := JStr "carol@example.com";
       reg_password := JNum 1234567;
       reg_name := JUndefined |}
  = Next {| reg_email := JStr "carol@example.com";
            reg_password := JNum 1234567;
            reg_name := JUndefined |}
  /\ post_register Demo.toStringOf Demo.lessThan Demo.greaterThan None
       Demo.hash 5000 "salt" Demo.store
       {| reg_email := JStr "carol@example.com";
          reg_password := JNum 1234567;
          reg_name := JUndefined |}
     = (json 500 (Failure "Internal server error"
                    (Some "An error occurred while creating your account")
                    None), Demo.store).
Proof.
  pose proof (register_non_string_password_fails
                Demo.toStringOf Demo.lessThan Demo.greaterThan None Demo.hash
                5000 "salt" Demo.store
                {| reg_email := JStr "carol@example.com";
                   reg_password := JNum 1234567;
                   reg_name := JUndefined |}
                {| reg_email := JStr "carol@example.com";
                   reg_password := JNum 1234567;
                   reg_name := JUndefined |}) as H.
  discharge H.
  split; [vm_compute; reflexivity | exact H].
Defined.

Lemma register_duplicate_email_conflict_witness :
  post_register Demo.toStringOf Demo.lessThan Demo.greaterThan None Demo.hash
    5000 "salt" Demo.store
    {| reg_email := JStr "Alice@Example.COM";
       reg_password := JStr "another-password";
       reg_name := JUndefined |}
  = (json 409 (Failure "User already exists"
                 (Some "A user with this email address already exists") None),
     Demo.store).
Proof.
  pose proof (register_duplicate_email_conflict
                Demo.toStringOf Demo.lessThan Demo.greaterThan None Demo.hash
                5000 "salt" Demo.store
                {| reg_email := JStr "Alice@Example.COM";
                   reg_password := JStr "another-password";
                   reg_name := JUndefined |}
                {| reg_email := JStr "alice@example.com";
                   reg_password := JStr "another-password";
                   reg_name := JUndefined |}
                Demo.alice) as H.
  discharge H.
  destruct H as [Hrun _]. exact Hrun.
Defined.

Lemma login_non_string_password_reveals_account_witness :
  post_login Demo.toStringOf None Demo.compare 5000 Demo.store
    {| login_email := JStr "nobody@example.com";
       login_password := JNum 12345 |}
  = (json 401 (Failure "Invalid credentials"
                 (Some "Email or password is incorrect") None), Demo.store)
  /\ post_login Demo.toStringOf None Demo.compare 5000 Demo.store
       {| login_email := JStr "alice@example.com";
          login_password := JNum 12345 |}
     = (json 500 (Failure "Internal server error"
                    (Some "An error occurred while logging you in") None),
        Demo.store).
Proof.
  pose proof (login_non_string_password_reveals_account
                Demo.toStringOf None Demo.compare 5000 Demo.store
                {| login_email := JStr "nobody@example.com";
                   login_password := JNum 12345 |}
                {| login_email := JStr "alice@example.com";
                   login_password := JNum 12345 |}
                {| login_email := JStr "nobody@example.com";
                   login_password := JNum 12345 |}
                {| login_email := JStr "alice@example.com";
                   login_password := JNum 12345 |}
                Demo.alice) as H.
  discharge H.
  destruct H as (Hunknown & Hknown & _).
  split; [exact Hunknown | exact Hknown].
Defined.

Lemma login_inactive_account_rejected_witness :
  Demo.compare "hunter2hunter2" (Prisma.password Demo.bob) = true
  /\ post_login Demo.toStringOf None Demo.compare 5000 Demo.store
       {| login_email := JStr "Bob@example.com";
          login_password := JStr "hunter2hunter2" |}
     = (json 401 (Failure "Account deactivated"
                    (Some "Your account has been deactivated. Please contact support.")
                    None), Demo.store).
Proof.
  pose proof (login_inactive_account_rejected
                Demo.toStringOf None Demo.compare 5000 Demo.store
                {| login_email := JStr "Bob@example.com";
                   login_password := JStr "hunter2hunter2" |}
                {| login_email := JStr "bob@example.com";
                   login_password := JStr "hunter2hunter2" |}
                Demo.bob) as H.
  discharge H.
  destruct H as [Hrun _].
  split; [vm_compute; reflexivity | exact Hrun].
Defined.

Lemma change_password_same_password_rejected_witness :
  Demo.compare "password123" (Prisma.password Demo.alice) = true
  /\ exists details,
       put_change_password Demo.lessThan Demo.greaterThan Demo.hash
         Demo.compare 5000 "salt2" Demo.store Demo.aliceSession
         {| currentPassword := JStr "password123";
            newPassword := JStr "password123" |}
       = (json 400 (Failure "Validation failed" None (Some details)), Demo.store)
       /\ In "New password must be different from current password" details.
Proof.
  pose proof (change_password_same_password_rejected
                Demo.lessThan Demo.greaterThan Demo.hash Demo.compare
                5000 "salt2" Demo.store Demo.aliceSession
                {| currentPassword := JStr "password123";
                   newPassword := JStr "password123" |}) as H.
  discharge H.
  destruct H as (details & Hrun & Hin & _).
  split; [vm_compute; reflexivity|].
  exists details. split; [exact Hrun | exact Hin].
Defined.

Lemma profile_update_partial_witness :
  exists (updated : Prisma.User) (st' : Prisma.Store),
    put_profile 5000 Demo.store Demo.aliceSession
      {| prof_name := JStr " Alice B. "; prof_avatar := JUndefined |}
    = (json 200 (Success (Some "Profile updated successfully")
                   (Some {| data_user := Some (sanitizeUser updated);
                            data_token := None |})), st')
    /\ Prisma.findUnique_id st' 1 = Some updated
    /\ Prisma.name updated = Some "Alice B."
    /\ Prisma.avatar updated = Prisma.avatar Demo.alice
    /\ Prisma.updatedAt Demo.alice < Prisma.updatedAt updated.
Proof.
  pose proof (profile_update_partial 5000 Demo.store Demo.aliceSession
                {| prof_name := JStr " Alice B. "; prof_avatar := JUndefined |}
                {| prof_name := JStr "Alice B."; prof_avatar := JUndefined |}
                Demo.alice) as H.
  discharge H.
  destruct H as (updated & st' & Hrun & Hfind & Havatar & _ & Hname & _ & _ & _
                 & _ & _ & _ & _ & Hlater).
  exists updated, st'. split; [exact Hrun|]. split; [exact Hfind|].
  split; [exact (Hname " Alice B. " eq_refl)|].
  split; [exact (Havatar eq_refl)|].
  apply Hlater. vm_compute. reflexivity.
Defined.

(** C6, as the claim states it, fails when the clock has not advanced since
    the row was last written: alice's row was written when the clock read
    1000, and an update with only [name], made when the clock still reads
    1000, succeeds and leaves [updatedAt] at 1000. *)
Lemma profile_update_same_instant :
  exists updated : Prisma.User,
    status (fst (put_profile 1000 Demo.store Demo.aliceSession
                   {| prof_name := JStr "Alice B.";
                      prof_avatar := JUndefined |}))
    = 200
    /\ Prisma.findUnique_id
         (snd (put_profile 1000 Demo.store Demo.aliceSession
                 {| prof_name := JStr "Alice B.";
                    prof_avatar := JUndefined |})) 1
       = Some updated
    /\ Prisma.name updated = Some "Alice B."
    /\ Prisma.updatedAt Demo.alice = 1000
    /\ Prisma.updatedAt updated = 1000
    /\ ~ (Prisma.updatedAt Demo.alice < Prisma.updatedAt updated).
Proof.
  eexists. split; [vm_compute; reflexivity|].
  split; [vm_compute; reflexivity|].
  split; [reflexivity|]. split; [reflexivity|]. split; [reflexivity|].
  vm_compute. intros H. discriminate H.
Qed.

Lemma refresh_uses_token_claims_only_witness :
  Prisma.findUnique_id Demo.emptyStore 1 = None
  /\ route_refresh None 5000 Demo.emptyStore
       (Some (generateToken None 1000
                {| Jwt.userId := 1; Jwt.email := "alice@example.com" |} None))
     = (json 200 (Success (Some "Token refreshed successfully")
                    (Some {| data_user := None;
                             data_token :=
                               Some (generateToken None 5000
                                       {| Jwt.userId := 1;
                                          Jwt.email := "alice@example.com" |}
                                       None) |})),
        Demo.emptyStore).
Proof.
  pose proof (refresh_uses_token_claims_only None 5000 Demo.emptyStore
                (generateToken None 1000
                   {| Jwt.userId := 1; Jwt.email := "alice@example.com" |} None)
                Demo.aliceSession) as H.
  discharge H.
  destruct H as (newToken & Hnew & Hrun & _).
  split; [reflexivity|].
  rewrite Hrun, Hnew. reflexivity.
Defined.

(** ** Beyond the claims, on concrete requests *)

Lemma demo_store_ok : store_ok Demo.store.
Proof.
  split; [|split].
  - split.
    + cbn. repeat constructor; cbn; intuition discriminate.
    + intros u [H|[H|[]]]; subst u; vm_compute; reflexivity.
  - split.
    + cbn. repeat constructor; cbn; intuition discriminate.
    + intros u [H|[H|[]]]; subst u; split; vm_compute; reflexivity.
  - intros u n [H|[H|[]]] Hn; subst u; cbn in Hn; inversion Hn; subst n.
    split; [split|]; vm_compute; first [reflexivity | discriminate].
Qed.

Lemma valid_email_normalisation_witness :
  trim (toLowerCase "Carol@Example.com") = toLowerCase "Carol@Example.com"
  /\ isValidEmail Demo.toStringOf (JStr (toLowerCase "Carol@Example.com"))
     = Ok true.
Proof.
  pose proof (valid_email_normalisation Demo.toStringOf "Carol@Example.com")
    as H.
  discharge H.
  destruct H as [Htrim [Hlow _]]. split; [exact Htrim | exact Hlow].
Defined.

Lemma validatePassword_valid_iff_witness :
  exists r,
    validatePassword Demo.lessThan Demo.greaterThan (JNum 1234567) = Ok r
    /\ isValid r = true.
Proof.
  pose proof (validatePassword_valid_iff Demo.lessThan Demo.greaterThan
                (JNum 1234567)) as H.
  discharge H.
  destruct H as (r & Hr & _ & Hvalid).
  exists r. split; [exact Hr|].
  apply Hvalid. right. split; reflexivity.
Defined.

Lemma validateRegistration_idempotent_witness :
  validateRegistration Demo.toStringOf Demo.lessThan Demo.greaterThan
    {| reg_email := JStr "carol@example.com";
       reg_password := JStr "password123";
       reg_name := JStr "Carol" |}
  = Next {| reg_email := JStr "carol@example.com";
            reg_password := JStr "password123";
            reg_name := JStr "Carol" |}.
Proof.
  pose proof (validateRegistration_idempotent
                Demo.toStringOf Demo.lessThan Demo.greaterThan
                {| reg_email := JStr "Carol@Example.com";
                   reg_password := JStr "password123";
                   reg_name := JStr "  Carol " |}
                {| reg_email := JStr "carol@example.com";
                   reg_password := JStr "password123";
                   reg_name := JStr "Carol" |}) as H.
  discharge H. exact H.
Defined.

Lemma registration_missing_email_short_password_witness :
  validateRegistration Demo.toStringOf Demo.lessThan Demo.greaterThan
    {| reg_email := JUndefined; reg_password := JStr "abc";
       reg_name := JUndefined |}
  = Respond (json 400 (Failure "Validation failed" None
                         (Some ["Email is required";
                                "Password must be at least 6 characters long"]))).
Proof.
  pose proof (registration_missing_email_short_password
                Demo.toStringOf Demo.lessThan Demo.greaterThan
                {| reg_email := JUndefined; reg_password := JStr "abc";
                   reg_name := JUndefined |}
                "abc"
                ["Email is required";
                 "Password must be at least 6 characters long"]) as H.
  discharge H.
  destruct H as [Hval _]. exact Hval.
Defined.

Lemma register_new_email_created_witness :
  exists (user : Prisma.User) (token : Jwt.Token),
    post_register Demo.toStringOf Demo.lessThan Demo.greaterThan None
      Demo.hash 5000 "salt" Demo.store
      {| reg_email := JStr "Carol@Example.com";
         reg_password := JStr "password123";
         reg_name := JStr " Carol " |}
    = (json 201 (Success (Some "User registered successfully")
                   (Some {| data_user := Some (sanitizeUser user);
                            data_token := Some token |})),
       {| Prisma.users := Prisma.users Demo.store ++ [user];
          Prisma.nextId := Prisma.nextId Demo.store + 1 |})
    /\ sanitizeUser user
       = {| su_id := 3;
            su_email := "carol@example.com";
            su_name := Some "Carol";
            su_avatar := None;
            su_isActive := true;
            su_createdAt := 5000;
            su_updatedAt := 5000 |}
    /\ (exists decoded,
          verifyToken None 5000 token = Ok decoded
          /\ Jwt.userId (Jwt.claims decoded) = Prisma.id user).
Proof.
  pose proof (register_new_email_created
                Demo.toStringOf Demo.lessThan Demo.greaterThan None Demo.hash
                5000 5000 "salt" Demo.store
                {| reg_email := JStr "Carol@Example.com";
                   reg_password := JStr "password123";
                   reg_name := JStr " Carol " |}
                {| reg_email := JStr "carol@example.com";
                   reg_password := JStr "password123";
                   reg_name := JStr "Carol" |}
                "password123") as H.
  discharge H.
  destruct H as (user & token & Hrun & _ & _ & _ & Hsan
                 & decoded & Hnow & _ & Huid & _).
  exists user, token. split; [exact Hrun|].
  split; [rewrite Hsan; vm_compute; reflexivity|].
  exists decoded. split; [exact Hnow | exact Huid].
Defined.

Lemma login_failures_indistinguishable_witness :
  post_login Demo.toStringOf None Demo.compare 5000 Demo.store
    {| login_email := JStr "nobody@example.com";
       login_password := JStr "password123" |}
  = post_login Demo.toStringOf None Demo.compare 5000 Demo.store
      {| login_email := JStr "Alice@example.com";
         login_password := JStr "not-her-password" |}.
Proof.
  pose proof (login_failures_indistinguishable
                Demo.toStringOf None Demo.compare 5000 Demo.store
                {| login_email := JStr "nobody@example.com";
                   login_password := JStr "password123" |}
                {| login_email := JStr "Alice@example.com";
                   login_password := JStr "not-her-password" |}
                {| login_email := JStr "nobody@example.com";
                   login_password := JStr "password123" |}
                {| login_email := JStr "alice@example.com";
                   login_password := JStr "not-her-password" |}
                Demo.alice) as H.
  discharge H.
  destruct H as [Hsame _]. exact Hsame.
Defined.

Lemma login_success_witness :
  exists token : Jwt.Token,
    post_login Demo.toStringOf None Demo.compare 5000 Demo.store
      {| login_email := JStr "Alice@Example.com";
         login_password := JStr "password123" |}
    = (json 200 (Success (Some "Login successful")
                   (Some {| data_user := Some (sanitizeUser Demo.alice);
                            data_token := Some token |})), Demo.store)
    /\ Jwt.userId (Jwt.claims (Jwt.payload token)) = Prisma.id Demo.alice.
Proof.
  pose proof (login_success Demo.toStringOf None Demo.compare 5000 Demo.store
                {| login_email := JStr "Alice@Example.com";
                   login_password := JStr "password123" |}
                {| login_email := JStr "alice@example.com";
                   login_password := JStr "password123" |}
                Demo.alice) as H.
  discharge H.
  destruct H as (token & _ & Hrun & _ & Hid & _).
  exists token. split; [exact Hrun | exact Hid].
Defined.

Lemma register_then_login_witness :
  status (fst (post_login Demo.toStringOf None Demo.compare 9000
                 (snd (post_register Demo.toStringOf Demo.lessThan
                         Demo.greaterThan None Demo.hash 5000 "salt"
                         Demo.store
                         {| reg_email := JStr "Carol@Example.com";
                            reg_password := JStr "password123";
                            reg_name := JUndefined |}))
                 {| login_email := JStr "CAROL@example.com";
                    login_password := JStr "password123" |})) = 200.
Proof.
  pose proof (register_then_login
                Demo.toStringOf Demo.lessThan Demo.greaterThan None Demo.hash
                Demo.compare 5000 9000 "salt" Demo.store
                {| reg_email := JStr "Carol@Example.com";
                   reg_password := JStr "password123";
                   reg_name := JUndefined |}
                {| reg_email := JStr "carol@example.com";
                   reg_password := JStr "password123";
                   reg_name := JUndefined |}
                "CAROL@example.com" "password123") as H.
  discharge H.
  destruct H as (user & token & _ & Hlogin).
  cbn [reg_password] in Hlogin. rewrite Hlogin. reflexivity.
Defined.

Lemma register_then_me_witness :
  exists (user : Prisma.User) (token : Jwt.Token) (decoded : Jwt.Payload),
    fst (post_register Demo.toStringOf Demo.lessThan Demo.greaterThan None
           Demo.hash 5000 "salt" Demo.store
           {| reg_email := JStr "Carol@Example.com";
              reg_password := JStr "password123";
              reg_name := JUndefined |})
    = json 201 (Success (Some "User registered successfully")
                  (Some {| data_user := Some (sanitizeUser user);
                           data_token := Some token |}))
    /\ verifyToken None 5000 token = Ok decoded
    /\ fst (get_me (snd (post_register Demo.toStringOf Demo.lessThan
                           Demo.greaterThan None Demo.hash 5000 "salt"
                           Demo.store
                           {| reg_email := JStr "Carol@Example.com";
                              reg_password := JStr "password123";
                              reg_name := JUndefined |})) decoded)
       = json 200 (Success None
                     (Some {| data_user := Some (sanitizeUser user);
                              data_token := None |})).
Proof.
  pose proof (register_then_me
                Demo.toStringOf Demo.lessThan Demo.greaterThan None Demo.hash
                5000 "salt" Demo.store
                {| reg_email := JStr "Carol@Example.com";
                   reg_password := JStr "password123";
                   reg_name := JUndefined |}
                {| reg_email := JStr "carol@example.com";
                   reg_password := JStr "password123";
                   reg_name := JUndefined |}
                "password123") as H.
  discharge H.
  specialize (H (proj2 (proj1 demo_store_ok))).
  destruct H as (user & token & decoded & Hreg & Hverify & Hme).
  exists user, token, decoded. split; [exact Hreg|]. split; [exact Hverify|].
  rewrite Hme. reflexivity.
Defined.

Lemma vanished_user_witness :
  status (fst (get_me Demo.emptyStore Demo.aliceSession)) = 404
  /\ status (fst (put_change_password Demo.lessThan Demo.greaterThan Demo.hash
                    Demo.compare 5000 "salt" Demo.emptyStore Demo.aliceSession
                    {| currentPassword := JStr "password123";
                       newPassword := JStr "password456" |})) = 404
  /\ status (fst (put_profile 5000 Demo.emptyStore Demo.aliceSession
                    {| prof_name := JStr "Alice B.";
                       prof_avatar := JUndefined |}))
     = 500.
Proof.
  pose proof (vanished_user Demo.lessThan Demo.greaterThan Demo.hash
                Demo.compare 5000 "salt" Demo.emptyStore Demo.aliceSession
                {| prof_name := JStr "Alice B."; prof_avatar := JUndefined |}
                {| prof_name := JStr "Alice B."; prof_avatar := JUndefined |}
                {| currentPassword := JStr "password123";
                   newPassword := JStr "password456" |}
                {| currentPassword := JStr "password123";
                   newPassword := JStr "password456" |}) as H.
  discharge H.
  destruct H as (Hme & Hcp & Hprof). rewrite Hme, Hcp, Hprof.
  repeat split.
Defined.

Lemma out_of_range_user_witness :
  status (fst (get_me Demo.store
                 {| Jwt.claims := {| Jwt.userId := 2147483648;
                                     Jwt.email := "alice@example.com" |};
                    Jwt.iat := 1; Jwt.exp := 604801 |})) = 500.
Proof.
  pose proof (out_of_range_user Demo.lessThan Demo.greaterThan Demo.hash
                Demo.compare 5000 "salt" Demo.store
                {| Jwt.claims := {| Jwt.userId := 2147483648;
                                    Jwt.email := "alice@example.com" |};
                   Jwt.iat := 1; Jwt.exp := 604801 |}
                {| prof_name := JStr "Alice B."; prof_avatar := JUndefined |}
                {| prof_name := JStr "Alice B."; prof_avatar := JUndefined |}
                {| currentPassword := JStr "password123";
                   newPassword := JStr "password456" |}
                {| currentPassword := JStr "password123";
                   newPassword := JStr "password456" |}) as H.
  discharge H.
  destruct H as (Hme & _). rewrite Hme. reflexivity.
Defined.

Lemma change_password_success_witness :
  exists (updated : Prisma.User) (st' : Prisma.Store),
    put_change_password Demo.lessThan Demo.greaterThan Demo.hash Demo.compare
      5000 "salt2" Demo.store Demo.aliceSession
      {| currentPassword := JStr "password123";
         newPassword := JStr "password456" |}
    = (json 200 (Success (Some "Password changed successfully") None), st')
    /\ Prisma.findUnique_id st' 1 = Some updated
    /\ Prisma.password updated = Demo.hash "password456" 12 "salt2"
    /\ Prisma.name updated = Prisma.name Demo.alice.
Proof.
  pose proof (change_password_success
                Demo.lessThan Demo.greaterThan Demo.hash Demo.compare
                5000 "salt2" Demo.store Demo.aliceSession
                {| currentPassword := JStr "password123";
                   newPassword := JStr "password456" |}
                {| currentPassword := JStr "password123";
                   newPassword := JStr "password456" |}
                Demo.alice "password456") as H.
  discharge H.
  destruct H as (updated & st' & Hrun & Hfind & _ & Hpw & _ & _ & Hname & _).
  exists updated, st'. split; [exact Hrun|]. split; [exact Hfind|].
  split; [exact Hpw | exact Hname].
Defined.

Lemma change_password_wrong_current_witness :
  put_change_password Demo.lessThan Demo.greaterThan Demo.hash Demo.compare
    5000 "salt2" Demo.store Demo.aliceSession
    {| currentPassword := JStr "not-her-password";
       newPassword := JStr "password456" |}
  = (json 400 (Failure "Invalid current password"
                 (Some "The current password you entered is incorrect") None),
     Demo.store).
Proof.
  pose proof (change_password_wrong_current
                Demo.lessThan Demo.greaterThan Demo.hash Demo.compare 5000
                "salt2" Demo.store Demo.aliceSession
                {| currentPassword := JStr "not-her-password";
                   newPassword := JStr "password456" |}
                {| currentPassword := JStr "not-her-password";
                   newPassword := JStr "password456" |}
                Demo.alice) as H.
  discharge H. exact H.
Defined.

Lemma change_password_non_string_fails_witness :
  put_change_password Demo.lessThan Demo.greaterThan Demo.hash Demo.compare
    5000 "salt2" Demo.store Demo.aliceSession
    {| currentPassword := JNum 12345;
       newPassword := JStr "password456" |}
  = (json 500 (Failure "Internal server error"
                 (Some "An error occurred while changing your password") None),
     Demo.store).
Proof.
  pose proof (change_password_non_string_fails
                Demo.lessThan Demo.greaterThan Demo.hash Demo.compare 5000
                "salt2" Demo.store Demo.aliceSession
                {| currentPassword := JNum 12345;
                   newPassword := JStr "password456" |}
                {| currentPassword := JNum 12345;
                   newPassword := JStr "password456" |}
                Demo.alice) as H.
  discharge H. exact H.
Defined.

Lemma change_password_then_login_witness :
  status (fst (post_login Demo.toStringOf None Demo.compare 9000
                 (snd (put_change_password Demo.lessThan Demo.greaterThan
                         Demo.hash Demo.compare 5000 "salt2"
                         Demo.store Demo.aliceSession
                         {| currentPassword := JStr "password123";
                            newPassword := JStr "password456" |}))
                 {| login_email := JStr "alice@example.com";
                    login_password := JStr "password456" |})) = 200.
Proof.
  pose proof (change_password_then_login
                Demo.toStringOf Demo.lessThan Demo.greaterThan None Demo.hash
                Demo.compare 5000 9000 "salt2" Demo.store Demo.aliceSession
                {| currentPassword := JStr "password123";
                   newPassword := JStr "password456" |}
                {| currentPassword := JStr "password123";
                   newPassword := JStr "password456" |}
                Demo.alice "password456") as H.
  discharge H.
  destruct H as (updated & _ & Hlogin).
  cbn [Prisma.email Demo.alice newPassword] in Hlogin. rewrite Hlogin.
  reflexivity.
Defined.

Lemma other_rows_untouched_witness :
  Prisma.findUnique_id
    (snd (put_profile 5000 Demo.store Demo.aliceSession
            {| prof_name := JStr "Alice B."; prof_avatar := JUndefined |})) 2
  = Some Demo.bob.
Proof.
  pose proof (other_rows_untouched
                Demo.lessThan Demo.greaterThan Demo.hash Demo.compare 5000
                "salt" Demo.store Demo.aliceSession
                {| prof_name := JStr "Alice B."; prof_avatar := JUndefined |}
                {| currentPassword := JUndefined; newPassword := JUndefined |}
                2) as H.
  discharge H.
  destruct H as [Hprof _]. rewrite Hprof. reflexivity.
Defined.

Lemma writes_keep_store_ok_witness :
  store_ok (snd (post_register Demo.toStringOf Demo.lessThan Demo.greaterThan
                   None Demo.hash 5000 "salt" Demo.store
                   {| reg_email := JStr "Carol@Example.com";
                      reg_password := JStr "password123";
                      reg_name := JStr " Carol " |}))
  /\ store_ok (snd (put_profile 5000 Demo.store Demo.aliceSession
                      {| prof_name := JStr "Alice B.";
                         prof_avatar := JUndefined |})).
Proof.
  pose proof (writes_keep_store_ok
                Demo.toStringOf Demo.lessThan Demo.greaterThan None Demo.hash
                Demo.compare 5000 "salt" Demo.store
                {| reg_email := JStr "Carol@Example.com";
                   reg_password := JStr "password123";
                   reg_name := JStr " Carol " |}
                Demo.aliceSession
                {| prof_name := JStr "Alice B."; prof_avatar := JUndefined |}
                {| currentPassword := JUndefined; newPassword := JUndefined |}
                demo_store_ok) as H.
  destruct H as (Hreg & Hprof & _). split; [exact Hreg | exact Hprof].
Defined.

Lemma stored_user_can_login_witness :
  post_login Demo.toStringOf None Demo.compare 5000 Demo.store
    {| login_email := JStr "ALICE@example.com";
       login_password := JStr "password123" |}
  = (json 200
       (Success (Some "Login successful")
          (Some {| data_user := Some (sanitizeUser Demo.alice);
                   data_token :=
                     Some (generateToken None 5000
                             {| Jwt.userId := 1;
                                Jwt.email := "alice@example.com" |} None) |})),
     Demo.store).
Proof.
  pose proof (stored_user_can_login
                Demo.toStringOf None Demo.compare 5000 Demo.store
                Demo.alice "ALICE@example.com" "password123"
                (proj1 (proj2 demo_store_ok))) as H.
  discharge H. exact H.
Defined.

Lemma non_string_email_throws_witness :
  post_login Demo.toStringOf None Demo.compare 5000 Demo.store
    {| login_email := JArr [JStr "alice@example.com"];
       login_password := JStr "password123" |}
  = (json 500 (Failure "Internal server error"
                 (Some "An unexpected error occurred") None), Demo.store).
Proof.
  pose proof (non_string_email_throws
                Demo.toStringOf Demo.lessThan Demo.greaterThan None Demo.hash
                Demo.compare 5000 "salt" Demo.store
                (JArr [JStr "alice@example.com"]) (JStr "password123")
                "alice@example.com") as H.
  discharge H.
  destruct H as (_ & Hlogin & _). exact Hlogin.
Defined.
